(** * University Leipzig RAG: segmentation, chunking and query pipeline

    A shallow embedding of [src/document_processor.py], [src/rag_engine.py],
    [src/config.py], the commands of [src/main.py], [src/web_scraper.py]
    and [src/count_pdf_pages.py], and the properties of the retrieval-augmented
    pipeline stated over it.

    Conventions
    - a Python [str] is a list of Unicode code points ([pystr]);
    - a Python [int] is a [Z];
    - an operation that can raise returns an [outcome]: [Ret v] or
      [Raise e], where [e] stands for an instance of Python's [Exception];
    - logging calls have no effect on results and are left out. *)

From Stdlib Require Import ZArith NArith QArith Ascii String List Lia Sorted.
From stdpp Require Import base list gmap.

Local Open Scope Z_scope.

(** ** Python strings *)

Module PyStr.

Definition pystr := list N.

(** Decoding of a UTF-8 literal (one and two byte sequences, which covers
    every literal of the sources) into code points. *)
Fixpoint str (s : string) : pystr :=
  match s with
  | EmptyString => []
  | String a s1 =>
      let b0 := N_of_ascii a in
      if (b0 <? 128)%N then b0 :: str s1
      else match s1 with
           | String b s2 =>
               (((b0 - 192) * 64 + (N_of_ascii b - 128))%N) :: str s2
           | EmptyString => [b0]
           end
  end.

Definition SPACE : N := 32.
Definition NEWLINE : N := 10.
Definition COLON : N := 58.

(** [Py_UNICODE_ISSPACE]: the test behind [str.isspace], [str.split()],
    [str.strip()] and the [\s] class of [re] on [str] patterns. *)
Definition isspace (c : N) : bool :=
  ((9 <=? c) && (c <=? 13) || (28 <=? c) && (c <=? 32)
   || (c =? 133) || (c =? 160) || (c =? 5760)
   || (8192 <=? c) && (c <=? 8202)
   || (c =? 8232) || (c =? 8233) || (c =? 8239) || (c =? 8287)
   || (c =? 12288))%N.

(** [re.sub(r'\s+', ' ', text)]: a left-to-right scan; [in_run] tells that
    the previous character belonged to the whitespace run being replaced. *)
Fixpoint re_sub_ws (in_run : bool) (text : pystr) : pystr :=
  match text with
  | [] => []
  | c :: rest =>
      if isspace c
      then if in_run then re_sub_ws true rest else SPACE :: re_sub_ws true rest
      else c :: re_sub_ws false rest
  end.

(** [text.replace('\n', ' ')] *)
Definition replace_newline (text : pystr) : pystr :=
  map (fun c => if (c =? NEWLINE)%N then SPACE else c) text.

(** [str.lstrip()], [str.rstrip()] and [str.strip()] *)
Fixpoint lstrip (text : pystr) : pystr :=
  match text with
  | [] => []
  | c :: rest => if isspace c then lstrip rest else text
  end.

Fixpoint rstrip (text : pystr) : pystr :=
  match text with
  | [] => []
  | c :: rest =>
      match rstrip rest with
      | [] => if isspace c then [] else [c]
      | r => c :: r
      end
  end.

Definition strip (text : pystr) : pystr := lstrip (rstrip text).

(** [str.split()] without arguments: the maximal runs of non-whitespace
    characters.  [split_aux] returns the word that starts at the head of the
    text (empty when the text starts with whitespace) and the later words. *)
Fixpoint split_aux (text : pystr) : pystr * list pystr :=
  match text with
  | [] => ([], [])
  | c :: rest =>
      let '(w, ws) := split_aux rest in
      if isspace c
      then ([], match w with [] => ws | _ => w :: ws end)
      else (c :: w, ws)
  end.

Definition split (text : pystr) : list pystr :=
  let '(w, ws) := split_aux text in
  match w with [] => ws | _ => w :: ws end.

(** [sep.join(words)], and [" ".join(words)] *)
Fixpoint join_with (sep : pystr) (words : list pystr) : pystr :=
  match words with
  | [] => []
  | [w] => w
  | w :: ws => w ++ sep ++ join_with sep ws
  end.

Definition join (words : list pystr) : pystr := join_with [SPACE] words.

End PyStr.
Export PyStr.

(** ** Exceptions and results *)

Module Py.

(** The classes of the exceptions that the modelled code raises or
    distinguishes.  All of them derive from [Exception]. *)
Inductive exn_class :=
| ValueError | KeyError | IndexError | TypeError | AttributeError
| JSONDecodeError | HTTPError
| ConnectionError | Timeout | ConnectTimeout | ReadTimeout
| OtherException.

(** An exception instance: its class and its message, [str(e)]; for a
    [KeyError] the message is the missing key. *)
Record exn := Exn { exn_class_of : exn_class; exn_str : pystr }.

(** [isinstance(e, requests.exceptions.ConnectionError)]:
    [ConnectTimeout] derives from both [ConnectionError] and [Timeout]. *)
Definition is_ConnectionError (e : exn) : bool :=
  match exn_class_of e with
  | ConnectionError | ConnectTimeout => true
  | _ => false
  end.

(** [isinstance(e, requests.exceptions.Timeout)] *)
Definition is_Timeout (e : exn) : bool :=
  match exn_class_of e with
  | Timeout | ConnectTimeout | ReadTimeout => true
  | _ => false
  end.

Inductive outcome (A : Type) :=
| Ret (a : A)
| Raise (e : exn).
Arguments Ret {A} a.
Arguments Raise {A} e.

Definition bind {A B} (m : outcome A) (k : A -> outcome B) : outcome B :=
  match m with
  | Ret a => k a
  | Raise e => Raise e
  end.

(** [try: body  except ...: handler] where the handler sees every
    exception of the body. *)
Definition try_except {A} (body : outcome A) (handler : exn -> outcome A)
  : outcome A :=
  match body with
  | Ret a => Ret a
  | Raise e => handler e
  end.

(** [range(0, stop, step)] as the list of its items; a zero step raises
    [ValueError]. *)
Definition range0 (stop step : Z) : outcome (list Z) :=
  if step =? 0
  then Raise (Exn ValueError (str "range() arg 3 must not be zero"))
  else
    let count :=
      if 0 <? step
      then (if 0 <? stop then (stop - 1) / step + 1 else 0)
      else (if stop <? 0 then (- stop - 1) / (- step) + 1 else 0) in
    Ret (map (fun k => Z.of_nat k * step) (seq 0 (Z.to_nat count))).

(** [l[lo:hi]]: negative indices count from the end, and both indices
    are clamped to the list. *)
Definition slice {A} (l : list A) (lo hi : Z) : list A :=
  let n := Z.of_nat (length l) in
  let clamp i := if i <? 0 then Z.max (i + n) 0 else Z.min i n in
  take (Z.to_nat (clamp hi - clamp lo)) (drop (Z.to_nat (clamp lo)) l).

(** [str(i)] of an integer *)
Fixpoint digits (u : Decimal.uint) : pystr :=
  match u with
  | Decimal.Nil => []
  | Decimal.D0 u => 48%N :: digits u
  | Decimal.D1 u => 49%N :: digits u
  | Decimal.D2 u => 50%N :: digits u
  | Decimal.D3 u => 51%N :: digits u
  | Decimal.D4 u => 52%N :: digits u
  | Decimal.D5 u => 53%N :: digits u
  | Decimal.D6 u => 54%N :: digits u
  | Decimal.D7 u => 55%N :: digits u
  | Decimal.D8 u => 56%N :: digits u
  | Decimal.D9 u => 57%N :: digits u
  end.

Definition str_of_int (z : Z) : pystr :=
  match Z.to_int z with
  | Decimal.Pos u => digits u
  | Decimal.Neg u => 45%N :: digits u
  end.

End Py.
Export Py.

(** The monad of [outcome], with stdpp's notation [x ← m; k]. *)
#[global] Instance outcome_ret : MRet outcome := @Ret.
#[global] Instance outcome_bind : MBind outcome :=
  fun A B k m => bind m k.

(** ** [config.py] *)

Module Config.

(** A value loaded from [config.yaml]: what [yaml.safe_load] returns.
    [YOther] stands for the scalars that are neither iterable nor
    subscriptable and are no integers (a floating point number, a
    date). *)
#[warnings="-register-all"]
Inductive yaml :=
| YNull
| YBool (b : bool)
| YInt (z : Z)
| YStr (s : pystr)
| YMap (m : gmap pystr yaml)
| YList (items : list yaml)
| YOther.

(** [value[key]] *)
Definition getitem (value : yaml) (key : pystr) : outcome yaml :=
  match value with
  | YMap m =>
      match m !! key with
      | Some v => Ret v
      | None => Raise (Exn KeyError key)
      end
  | _ => Raise (Exn TypeError (str "object is not subscriptable"))
  end.

(** An integer setting, where the arithmetic and [range] use it; a
    value of another type makes them raise [TypeError]. *)
Definition as_int (value : yaml) : outcome Z :=
  match value with
  | YInt z => Ret z
  | YBool b => Ret (if b then 1 else 0)
  | _ => Raise (Exn TypeError (str "unsupported operand type(s)"))
  end.

Definition required_keys : list pystr :=
  [str "app"; str "chroma"; str "ollama"; str "documents"; str "spacy";
   str "logging"].

(** [needle in text] for two strings *)
Fixpoint starts_with (needle text : pystr) : bool :=
  match needle, text with
  | [], _ => true
  | p :: needle, c :: text => (p =? c)%N && starts_with needle text
  | _ :: _, [] => false
  end.

Fixpoint contains (needle text : pystr) : bool :=
  starts_with needle text
  || match text with
     | [] => false
     | _ :: rest => contains needle rest
     end.

(** [item == key] for a loaded value and a string *)
Definition is_key (key : pystr) (item : yaml) : bool :=
  match item with
  | YStr s => bool_decide (s = key)
  | _ => false
  end.

(** [key not in self._config] for a loaded value: the keys of a mapping,
    the substrings of a string, the items of a list; the other values
    are not iterable. *)
Definition key_missing (key : pystr) (_config : yaml) : outcome bool :=
  match _config with
  | YMap m => Ret (bool_decide (m !! key = None))
  | YStr s => Ret (negb (contains key s))
  | YList items => Ret (negb (existsb (is_key key) items))
  | _ => Raise (Exn TypeError (str "argument is not iterable"))
  end.

(** The loop of [Config._validate_config] over [required_keys] *)
Fixpoint validate_loaded_keys (keys : list pystr) (_config : yaml)
  : outcome unit :=
  match keys with
  | [] => Ret tt
  | key :: keys =>
      missing ← key_missing key _config;
      if (missing : bool)
      then Raise (Exn ValueError
                    (str "Missing required configuration key: " ++ key))
      else validate_loaded_keys keys _config
  end.

(** [Config._validate_config]; [_config] is whatever [_load_config]
    returned. *)
Definition _validate_config (_config : yaml) : outcome unit :=
  validate_loaded_keys required_keys _config.

(** [Config.get_document_config] *)
Definition get_document_config (_config : yaml) : outcome yaml :=
  getitem _config (str "documents").

(** [Config._get_default_config], with the sections that the modelled code
    does not read left empty. *)
Definition processing_section (chunk_size chunk_overlap : Z) : yaml :=
  YMap (<[str "chunk_size" := YInt chunk_size]>
       (<[str "chunk_overlap" := YInt chunk_overlap]>
       (<[str "max_file_size_mb" := YInt 50]> ∅))).

Definition config_with (chunk_size chunk_overlap : Z) : gmap pystr yaml :=
  <[str "app" := YMap ∅]>
  (<[str "chroma" := YMap ∅]>
  (<[str "ollama" := YMap ∅]>
  (<[str "documents" :=
       YMap (<[str "processing" :=
                 processing_section chunk_size chunk_overlap]> ∅)]>
  (<[str "spacy" := YMap ∅]>
  (<[str "logging" := YMap ∅]> ∅))))).

Definition _get_default_config : gmap pystr yaml := config_with 500 50.

End Config.

(** ** [document_processor.py] *)

Module DocumentProcessor.

Import Config.

(** *** [clean_text] *)

Definition clean_text (text : pystr) : pystr :=
  let text := re_sub_ws false text in
  let text := replace_newline text in
  strip text.

(** *** The section pattern

    [(?m)^(?:\s*(Modul|Modulname|...|Lehrformen)[^:]*:)] compiled with
    [re.IGNORECASE]. *)

Definition keywords : list pystr :=
  [str "Modul"; str "Modulname"; str "Inhalt"; str "Ziele";
   str "Leistungspunkte"; str "Dauer"; str "Voraussetzungen";
   str "Studienleistungen"; str "Empfohlene Literatur"; str "Prüfungen";
   str "Lehrformen"].

(** Lower case of a character of the pattern (ASCII letters and the
    umlaut of the keyword list). *)
Definition pattern_lower (p : N) : N :=
  (if (65 <=? p) && (p <=? 90) || (p =? 220) then p + 32 else p)%N.

(** A literal [p] of the pattern against the character [c] of the text
    under [IGNORECASE]: the lower case of [c] is that of [p] or one of its
    case equivalents.  The characters whose lower case is a letter of the
    keyword list are the letter, its capital, the Kelvin sign (for k) and
    the dotted capital I (for i); the dotless i and the long s are the
    equivalents of i and s. *)
Definition literal_ignorecase (p c : N) : bool :=
  (let lo := pattern_lower p in
   (c =? lo)
   || ((97 <=? lo) && (lo <=? 122) || (lo =? 252)) && (c =? lo - 32)
   || (lo =? 107) && (c =? 8490)
   || (lo =? 105) && ((c =? 304) || (c =? 305))
   || (lo =? 115) && (c =? 383))%N.

(** A keyword at the head of the text: the number of characters it
    takes. *)
Fixpoint match_keyword (kw text : pystr) : option nat :=
  match kw with
  | [] => Some O
  | p :: kw =>
      match text with
      | c :: text =>
          if literal_ignorecase p c
          then S <$> match_keyword kw text
          else None
      | [] => None
      end
  end.

(** [[^:]*:] at the head of the text: the characters up to and including
    the first colon. *)
Fixpoint match_to_colon (text : pystr) : option nat :=
  match text with
  | [] => None
  | c :: text =>
      if (c =? COLON)%N then Some 1%nat else S <$> match_to_colon text
  end.

(** [(Modul|...)[^:]*:] at the head of the text, the alternatives tried in
    order: the text of group 1 and the length of the match. *)
Fixpoint match_alternatives (kws : list pystr) (text : pystr)
  : option (pystr * nat) :=
  match kws with
  | [] => None
  | kw :: kws =>
      match match_keyword kw text with
      | Some n =>
          match match_to_colon (drop n text) with
          | Some m => Some (take n text, (n + m)%nat)
          | None => match_alternatives kws text
          end
      | None => match_alternatives kws text
      end
  end.

(** The whole pattern at a position where [^] holds.  [\s*] is greedy and
    gives characters back when the rest fails. *)
Fixpoint match_section (text : pystr) : option (pystr * nat) :=
  match text with
  | c :: rest =>
      if isspace c
      then match match_section rest with
           | Some (group, n) => Some (group, S n)
           | None => match_alternatives keywords text
           end
      else match_alternatives keywords text
  | [] => match_alternatives keywords []
  end.

(** [re.match(section_pattern, part)] as a truth value *)
Definition re_match (part : pystr) : bool :=
  match match_section part with
  | Some _ => true
  | None => false
  end.

(** [re.split(section_pattern, text)]: the scan of the text for matches.
    [bol] tells that [^] holds at the head ([(?m)]: at the start of the
    string and after a newline), [skip] counts the characters of the
    current match that are still to be passed, [piece] is the reversed text
    since the last match.  Each match closes the piece and adds group 1. *)
Fixpoint split_scan (bol : bool) (skip : nat) (piece text : pystr)
  : list pystr :=
  match text with
  | [] => [rev piece]
  | c :: rest =>
      let bol' := (c =? NEWLINE)%N in
      match skip with
      | S k => split_scan bol' k piece rest
      | O =>
          match (if bol then match_section text else None) with
          | Some (group, n) =>
              rev piece :: group :: split_scan bol' (pred n) [] rest
          | None => split_scan bol' O (c :: piece) rest
          end
      end
  end.

Definition re_split (text : pystr) : list pystr :=
  split_scan true O [] text.

(** *** [segment_document] *)

(** An entry of [pages_data] *)
Record page := Page { page_text : pystr; page_number : Z }.

(** An entry of [all_segments] *)
Record segment :=
  Segment { seg_title : pystr; seg_text : pystr; seg_page_number : Z }.

(** An entry of [final_segments] and its ["metadata"] *)
Record metadata :=
  Metadata { md_title : pystr; md_filename : pystr; md_page_number : Z;
             md_chunk_index : Z; md_pdf_path : pystr }.

Record chunk := Chunk { chunk_text : pystr; chunk_metadata : metadata }.

(** [len(text.split()) > 10] *)
Definition enough_words (text : pystr) : bool :=
  (10 <? length (split text))%nat.

(** [current_title or "Abschnitt"] *)
Definition title_or_default (current_title : pystr) : pystr :=
  match current_title with
  | [] => str "Abschnitt"
  | _ => current_title
  end.

(** The body of [for part in pieces], on the state
    [(current_title, all_segments)]. *)
Definition part_step (page_num : Z) (st : pystr * list segment)
  (part : pystr) : pystr * list segment :=
  let '(current_title, all_segments) := st in
  if re_match part
  then (strip part, all_segments)
  else
    let cleaned_part := clean_text part in
    if enough_words cleaned_part
    then (current_title,
          all_segments
            ++ [Segment (title_or_default current_title) cleaned_part
                  page_num])
    else (current_title, all_segments).

(** The body of [for page_data in pages_data], on [all_segments]. *)
Definition page_step (all_segments : list segment) (page_data : page)
  : list segment :=
  let text := page_text page_data in
  let page_num := page_number page_data in
  let cleaned := clean_text text in
  let pieces := re_split cleaned in
  if (length pieces <? 2)%nat
  then
    if enough_words cleaned
    then all_segments ++ [Segment (str "Gesamtdokument") cleaned page_num]
    else all_segments
  else snd (fold_left (part_step page_num) pieces ([], all_segments)).

Definition segment_pages (pages_data : list page) : list segment :=
  fold_left page_step pages_data [].

(** The body of [for i in range(...)], on the state
    [(chunk_counter, final_segments)]. *)
Definition window_step (chunk_size : Z) (filename pdf_path : pystr)
  (seg : segment) (words : list pystr) (st : Z * list chunk) (i : Z)
  : Z * list chunk :=
  let '(chunk_counter, final_segments) := st in
  let chunk := join (slice words i (i + chunk_size)) in
  let chunk_counter := chunk_counter + 1 in
  (chunk_counter,
   final_segments
     ++ [Chunk chunk
           (Metadata (seg_title seg) filename (seg_page_number seg)
              chunk_counter pdf_path)]).

(** The body of [for seg in all_segments]. *)
Definition segment_step (chunk_size overlap : Z) (filename pdf_path : pystr)
  (st : Z * list chunk) (seg : segment) : outcome (Z * list chunk) :=
  let words := split (seg_text seg) in
  starts ← range0 (Z.of_nat (length words)) (chunk_size - overlap);
  Ret (fold_left (window_step chunk_size filename pdf_path seg words)
         starts st).

Fixpoint chunk_loop (chunk_size overlap : Z) (filename pdf_path : pystr)
  (all_segments : list segment) (st : Z * list chunk)
  : outcome (Z * list chunk) :=
  match all_segments with
  | [] => Ret st
  | seg :: all_segments =>
      st ← segment_step chunk_size overlap filename pdf_path st seg;
      chunk_loop chunk_size overlap filename pdf_path all_segments st
  end.

(** The second half of [segment_document]: the split of the sections into
    chunks. *)
Definition chunk_segments (chunk_size overlap : Z) (filename pdf_path : pystr)
  (all_segments : list segment) : outcome (list chunk) :=
  st ← chunk_loop chunk_size overlap filename pdf_path all_segments (0, []);
  Ret (snd st).

(** [segment_document]; [_config] is the mapping that the processor's
    configuration holds and [pdf_path] stands for
    [str(pdf_path.absolute())].  The two settings are read at the start
    and used as numbers only inside the loop over the sections: without a
    section their type does not matter. *)
Definition segment_document (_config : gmap pystr yaml)
  (pages_data : list page) (filename pdf_path : pystr)
  : outcome (list chunk) :=
  doc_config ← get_document_config (YMap _config);
  processing ← getitem doc_config (str "processing");
  chunk_size ← getitem processing (str "chunk_size");
  processing ← getitem doc_config (str "processing");
  overlap ← getitem processing (str "chunk_overlap");
  match segment_pages pages_data with
  | [] => Ret []
  | all_segments =>
      chunk_size ← as_int chunk_size;
      overlap ← as_int overlap;
      chunk_segments chunk_size overlap filename pdf_path all_segments
  end.

End DocumentProcessor.

(** ** [rag_engine.py] *)

Module RAGEngine.

(** *** Data *)

(** A value of a metadata mapping of the store: the indexer writes strings
    ([title], [filename], [pdf_path]) and integers ([page_number],
    [chunk_index]). *)
Inductive meta_value :=
| MStr (s : pystr)
| MInt (z : Z).

#[global] Instance meta_value_eq_dec : EqDecision meta_value.
Proof. solve_decision. Defined.

(** The text of a value inside an f-string *)
Definition format (v : meta_value) : pystr :=
  match v with
  | MStr s => s
  | MInt z => str_of_int z
  end.

(** The dictionary [source_info] of [process_query]; its five keys are
    fixed, and two of them are equal when all five values are. *)
Record source_info :=
  SourceInfo { filename : meta_value; title : meta_value;
               page_number : meta_value; chunk_index : meta_value;
               pdf_path : meta_value }.

#[global] Instance source_info_eq_dec : EqDecision source_info.
Proof. solve_decision. Defined.

(** A value of the dictionary that [process_query] returns.  Its answer
    is what the backend sent under [response], which can be any JSON
    value: a string, [None], a boolean, an integer, an array, or a
    floating point number or an object ([ROther], of which only the truth
    value is kept). *)
#[warnings="-register-all"]
Inductive result_value :=
| RStr (s : pystr)
| RBool (b : bool)
| RInt (z : Z)
| RSources (l : list source_info)
| RNone
| RArray (items : list result_value)
| ROther (truth : bool).

(** A key of the store's answer: missing, [None], or a value *)
Inductive entry (A : Type) :=
| Absent
| PyNone
| Present (a : A).
Arguments Absent {A}.
Arguments PyNone {A}.
Arguments Present {A} a.

(** The answer of [collection.query] *)
Record query_result :=
  QueryResult {
    documents : entry (list (list pystr));
    metadatas : entry (list (list (gmap pystr meta_value)))
  }.

(** What [nlp(query_text)] returns: the vector and its norm.  Floating
    point numbers are kept abstract. *)
Record Doc (float : Type) :=
  MkDoc { vector_norm : float; vector : list float }.
Arguments MkDoc {float}.
Arguments vector_norm {float}.
Arguments vector {float}.

(** A value of the section [ollama] as it enters the payload: a floating
    point number, or another loaded value (of whatever type the file
    gives it). *)
Inductive setting (float : Type) :=
| SFloat (x : float)
| SLoaded (value : Config.yaml).
Arguments SFloat {float} x.
Arguments SLoaded {float} value.

(** The [json=] payload of the generation request; [p_temperature] and
    [p_num_predict] are the two entries of [options]. *)
Record payload (float : Type) :=
  Payload { p_model : setting float; p_prompt : pystr; p_stream : bool;
            p_temperature : setting float; p_num_predict : setting float }.
Arguments Payload {float}.

(** What [response.json()] decodes to: an object with its fields, or
    another JSON value, which has no [get]; of such a value the name of
    its type is kept ([list], [str], [int], [float], [bool],
    [NoneType]). *)
Inductive json_value :=
| JsonObject (fields : gmap pystr result_value)
| JsonOther (type_name : pystr).

(** The response of [requests.post] *)
Record response :=
  Response { raise_for_status : outcome unit; json : outcome json_value }.

(** [self.ollama_config], the section [ollama] of the configuration, by
    what the engine reads of it.  [_validate_config] checks that the
    section is there and nothing of its content, so the two lookups can
    raise: [base_url] is what evaluating the text of
    [self.ollama_config['base_url']] inside an f-string gives, [model]
    what [self.ollama_config['model']] gives ([KeyError] for a missing
    key, [TypeError] for a section that is no mapping).  [temperature]
    and [max_tokens] are read with [.get] and are optional; the values
    can be of any type. *)
Record ollama_config (float : Type) :=
  OllamaConfig { base_url : outcome pystr;
                 model : outcome (setting float);
                 temperature : option (setting float);
                 max_tokens : option (setting float) }.
Arguments OllamaConfig {float}.
Arguments base_url {float}.
Arguments model {float}.
Arguments temperature {float}.
Arguments max_tokens {float}.

(** The engine ([self]) with its collaborators: the language model, the
    collection of the vector store and the HTTP client. *)
Record engine (float : Type) :=
  Engine {
    float_is_zero : float -> bool;
    float_0_1 : float;
    nlp : pystr -> outcome (Doc float);
    collection_query : list (list float) -> Z -> outcome query_result;
    requests_post : pystr -> payload float -> Z -> outcome response;
    ollama_cfg : ollama_config float
  }.
Arguments Engine {float}.
Arguments float_is_zero {float}.
Arguments float_0_1 {float}.
Arguments nlp {float}.
Arguments collection_query {float}.
Arguments requests_post {float}.
Arguments ollama_cfg {float}.

(** *** [_query_ollama] *)

Definition connection_failed : pystr :=
  str "Fehler: Verbindung zu Ollama fehlgeschlagen. Stellen Sie sicher, dass Ollama läuft.".

Definition timed_out : pystr :=
  str "Fehler: Zeitüberschreitung bei der Anfrage an Ollama.".

Definition request_failed (e : exn) : pystr :=
  str "Fehler bei der Anfrage: " ++ exn_str e.

(** [result.get('response', 'Keine Antwort erhalten.')]: the value under
    [response], of whatever type. *)
Definition get_response (result : json_value) : outcome result_value :=
  match result with
  | JsonObject fields =>
      Ret (default (RStr (str "Keine Antwort erhalten."))
             (fields !! str "response"))
  | JsonOther type_name =>
      Raise (Exn AttributeError
               (str "'" ++ type_name
                  ++ str "' object has no attribute 'get'"))
  end.

(** The body of the [try] block of [_query_ollama]. *)
Definition ollama_request {float} (self : engine float) (url : pystr)
  (payload : payload float) : outcome result_value :=
  response ← requests_post self url payload 60;
  _ ← raise_for_status response;
  result ← json response;
  get_response result.

(** The three handlers, in the order of the source: a [ConnectTimeout] is
    a [ConnectionError] and meets the first one. *)
Definition query_failed (e : exn) : outcome result_value :=
  if is_ConnectionError e then Ret (RStr connection_failed)
  else if is_Timeout e then Ret (RStr timed_out)
  else Ret (RStr (request_failed e)).

(** [_query_ollama]: the address and the payload are built before the
    [try], so an exception of the two lookups leaves the function. *)
Definition _query_ollama {float} (self : engine float) (prompt : pystr)
  : outcome result_value :=
  base ← base_url (ollama_cfg self);
  let url := base ++ str "/api/generate" in
  model_name ← model (ollama_cfg self);
  let payload :=
    Payload model_name prompt false
      (default (SFloat (float_0_1 self))
         (temperature (ollama_cfg self)))
      (default (SLoaded (Config.YInt 2048))
         (max_tokens (ollama_cfg self))) in
  try_except (ollama_request self url payload) query_failed.

(** *** [retrieve_documents] *)

(** [results[key]] *)
Definition getitem {A} (key : pystr) (field : entry A) : outcome (option A) :=
  match field with
  | Absent => Raise (Exn KeyError key)
  | PyNone => Ret None
  | Present a => Ret (Some a)
  end.

(** [value[0]] *)
Definition first_item {A} (value : option (list A)) : outcome A :=
  match value with
  | None => Raise (Exn TypeError (str "'NoneType' object is not subscriptable"))
  | Some [] => Raise (Exn IndexError (str "list index out of range"))
  | Some (a :: _) => Ret a
  end.

(** [not value] *)
Definition falsy {A} (value : option (list A)) : bool :=
  match value with
  | None | Some [] => true
  | Some (_ :: _) => false
  end.

Definition retrieve_body {float} (self : engine float) (query_text : pystr)
  (n_results : Z)
  : outcome (list pystr * list (gmap pystr meta_value)) :=
  query_doc ← nlp self query_text;
  if float_is_zero self (vector_norm query_doc)
  then Ret ([], [])
  else
    let query_embedding := vector query_doc in
    results ← collection_query self [query_embedding] n_results;
    docs ← getitem (str "documents") (documents results);
    if falsy docs
    then Ret ([], [])
    else
      docs ← getitem (str "documents") (documents results);
      docs0 ← first_item docs;
      if falsy (Some docs0)
      then Ret ([], [])
      else
        docs ← getitem (str "documents") (documents results);
        documents ← first_item docs;
        metas ← getitem (str "metadatas") (metadatas results);
        metadatas ← first_item metas;
        Ret (documents, metadatas).

Definition retrieve_documents {float} (self : engine float)
  (query_text : pystr) (n_results : Z)
  : outcome (list pystr * list (gmap pystr meta_value)) :=
  try_except (retrieve_body self query_text n_results)
    (fun e => Ret ([], [])).

(** *** [generate_prompt] *)

(** [meta.get(key, fallback)] *)
Definition meta_get (meta : gmap pystr meta_value) (key : string)
  (fallback : string) : meta_value :=
  default (MStr (str fallback)) (meta !! str key).

Definition QUOTE : N := 34.

Definition context_part (i : Z) (doc : pystr) (meta : gmap pystr meta_value)
  : pystr :=
  let filename := meta_get meta "filename" "Unbekanntes Dokument" in
  let title := meta_get meta "title" "Unbekannter Abschnitt" in
  str "[Quelle " ++ str_of_int i ++ str ": " ++ format filename
    ++ str " - " ++ format title ++ str "]" ++ [NEWLINE] ++ doc ++ [NEWLINE].

(** [enumerate(zip(context_docs, metadatas), 1)] *)
Fixpoint context_parts (i : Z) (context_docs : list pystr)
  (metadatas : list (gmap pystr meta_value)) : list pystr :=
  match context_docs, metadatas with
  | doc :: context_docs, meta :: metadatas =>
      context_part i doc meta :: context_parts (i + 1) context_docs metadatas
  | _, _ => []
  end.

Definition generate_prompt (query_text : pystr) (context_docs : list pystr)
  (metadatas : list (gmap pystr meta_value)) : pystr :=
  let context := join_with [NEWLINE] (context_parts 1 context_docs metadatas) in
  str "Du bist ein hilfreicher Assistent für Studierende der Universität Leipzig. 
Beantworte die folgende Frage basierend ausschließlich auf dem gegebenen Kontext aus den Universitätsdokumenten.

WICHTIGE REGELN:
1. Beantworte nur Fragen, die sich aus dem Kontext beantworten lassen
2. Wenn der Kontext keine ausreichenden Informationen enthält, sage ehrlich "
  ++ [QUOTE]
  ++ str "Ich kann diese Frage nicht basierend auf den verfügbaren Dokumenten beantworten"
  ++ [QUOTE]
  ++ str "
3. Gib am Ende deiner Antwort die verwendeten Quellen an
4. Antworte auf Deutsch und sei präzise

KONTEXT:
"
  ++ context
  ++ str "

FRAGE: "
  ++ query_text
  ++ str "

ANTWORT:".

(** *** [process_query] *)

Definition no_documents : pystr :=
  str "Entschuldigung, ich konnte keine relevanten Dokumente zu Ihrer Frage finden.".

(** The dictionary [source_info] built from one metadata mapping. *)
Definition make_source_info (meta : gmap pystr meta_value) : source_info :=
  SourceInfo (meta_get meta "filename" "Unbekannt")
    (meta_get meta "title" "Unbekannt")
    (meta_get meta "page_number" "N/A")
    (meta_get meta "chunk_index" "N/A")
    (meta_get meta "pdf_path" "").

(** The body of [for meta in metadatas], on [sources]. *)
Definition source_step (sources : list source_info)
  (meta : gmap pystr meta_value) : list source_info :=
  let source_info := make_source_info meta in
  if decide (source_info ∈ sources)
  then sources
  else sources ++ [source_info].

Definition collect_sources (metadatas : list (gmap pystr meta_value))
  : list source_info :=
  fold_left source_step metadatas [].

Definition process_query {float} (self : engine float) (query_text : pystr)
  (n_results : Z) : outcome (gmap pystr result_value) :=
  '(context_docs, metadatas) ← retrieve_documents self query_text n_results;
  match context_docs with
  | [] =>
      Ret (list_to_map
             [(str "answer", RStr no_documents);
              (str "sources", RSources []);
              (str "query", RStr query_text);
              (str "success", RBool false)])
  | _ =>
      let prompt := generate_prompt query_text context_docs metadatas in
      answer ← _query_ollama self prompt;
      let sources := collect_sources metadatas in
      Ret (list_to_map
             [(str "answer", answer);
              (str "sources", RSources sources);
              (str "query", RStr query_text);
              (str "success", RBool true);
              (str "context_count",
               RInt (Z.of_nat (length context_docs)))])
  end.

End RAGEngine.

(** ** Notions used in the statements *)

Module Notions.

Import DocumentProcessor.

(** A word: one or more characters, none of them whitespace. *)
Definition nonspace (w : pystr) : Prop := Forall (fun c => isspace c = false) w.
Definition word (w : pystr) : Prop := w <> [] /\ nonspace w.

(** [glue w ws]: the words [w :: ws] joined, also for an empty [w]. *)
Definition glue (w : pystr) (ws : list pystr) : pystr :=
  w ++ match ws with [] => [] | _ => SPACE :: join ws end.

(** The word window of a chunk: the words of its text. *)
Definition chunk_words (c : chunk) : list pystr := split (chunk_text c).

(** The windows concatenated in order, every window after the first
    without its leading [overlap] words. *)
Definition remove_overlap (overlap : Z) (windows : list (list pystr))
  : list pystr :=
  match windows with
  | [] => []
  | w :: ws => w ++ concat (map (drop (Z.to_nat overlap)) ws)
  end.

(** Each window after the first starts with the words that follow the
    stride in the window before it: [overlap] words, or as many as the
    later window has. *)
Definition overlap_repeated (chunk_size overlap : Z)
  (windows : list (list pystr)) : Prop :=
  forall (i : nat) (w1 w2 : list pystr),
    windows !! i = Some w1 -> windows !! S i = Some w2 ->
    take (Z.to_nat overlap) w2
      = take (Z.to_nat overlap) (drop (Z.to_nat (chunk_size - overlap)) w1).

(** The number of items of [range(0, stop, step)] for a positive step. *)
Definition range_count (stop step : Z) : nat :=
  Z.to_nat (if 0 <? stop then (stop - 1) / step + 1 else 0).

(** What [segment_document] makes of one section for a positive stride,
    when [chunk_counter] is [counter] before the section. *)
Definition window_starts (n : nat) (stride : Z) : list Z :=
  map (fun k => Z.of_nat k * stride) (seq 0 (range_count (Z.of_nat n) stride)).

Definition section_chunks (chunk_size overlap : Z) (filename pdf_path : pystr)
  (seg : segment) (counter : Z) : list chunk :=
  let words := split (seg_text seg) in
  imap (fun k i =>
          Chunk (join (slice words i (i + chunk_size)))
            (Metadata (seg_title seg) filename (seg_page_number seg)
               (counter + 1 + Z.of_nat k) pdf_path))
    (window_starts (length words) (chunk_size - overlap)).

Fixpoint section_groups (chunk_size overlap : Z) (filename pdf_path : pystr)
  (all_segments : list segment) (counter : Z) : list (list chunk) :=
  match all_segments with
  | [] => []
  | seg :: all_segments =>
      let group :=
        section_chunks chunk_size overlap filename pdf_path seg counter in
      group :: section_groups chunk_size overlap filename pdf_path
                 all_segments (counter + Z.of_nat (length group))
  end.

(** The position of the first occurrence of [s] in [l] (the length of [l]
    when there is none). *)
Fixpoint index_of (s : RAGEngine.source_info) (l : list RAGEngine.source_info)
  : nat :=
  match l with
  | [] => O
  | x :: l => if decide (x = s) then O else S (index_of s l)
  end.

(** An answer of the store that [retrieve_documents] cannot read: no
    [documents] key, or documents without readable [metadatas]. *)
Definition malformed (results : RAGEngine.query_result) : Prop :=
  RAGEngine.documents results = RAGEngine.Absent
  \/ (exists d ds dss,
        RAGEngine.documents results = RAGEngine.Present ((d :: ds) :: dss)
        /\ (RAGEngine.metadatas results = RAGEngine.Absent
            \/ RAGEngine.metadatas results = RAGEngine.PyNone
            \/ RAGEngine.metadatas results = RAGEngine.Present [])).

(** An answer of the store without a matching record. *)
Definition no_match (results : RAGEngine.query_result) : Prop :=
  RAGEngine.documents results = RAGEngine.PyNone
  \/ RAGEngine.documents results = RAGEngine.Present []
  \/ exists dss, RAGEngine.documents results = RAGEngine.Present ([] :: dss).

(** The generation request for [url] and [body] fails with [e]: the
    post, the status check or the decoding of the answer raises [e], or
    the decoded answer is no object and [e] is the [AttributeError] of
    its missing [get]. *)
Definition request_fails {float : Type} (self : RAGEngine.engine float)
  (url : pystr) (body : RAGEngine.payload float) (e : exn) : Prop :=
  RAGEngine.requests_post self url body 60 = Raise e
  \/ exists posted,
       RAGEngine.requests_post self url body 60 = Ret posted
       /\ (RAGEngine.raise_for_status posted = Raise e
           \/ (RAGEngine.raise_for_status posted = Ret tt
               /\ (RAGEngine.json posted = Raise e
                   \/ exists type_name,
                        RAGEngine.json posted
                          = Ret (RAGEngine.JsonOther type_name)
                        /\ e = Exn AttributeError
                                 (str "'" ++ type_name
                                    ++ str "' object has no attribute 'get'")))).

(** A keyword of the pattern has at most twenty characters, and none of
    them matches a colon. *)
Definition plain_keyword (kw : pystr) : Prop :=
  (length kw <= 20)%nat
  /\ Forall (fun p => literal_ignorecase p COLON = false) kw.

(** A text without a newline *)
Definition no_newline (text : pystr) : Prop :=
  Forall (fun c => (c =? NEWLINE)%N = false) text.

(** The first [m] windows of [s + o] words taken every [s] words. *)
Definition windows_every (s o : nat) (words : list pystr) (m : nat)
  : list (list pystr) :=
  map (fun k => take (s + o) (drop (k * s) words)) (seq 0 m).

End Notions.
Import Notions.

(** ** Sample inputs *)

Module Samples.

Import DocumentProcessor.

Definition sample_filename : pystr := str "ordnung.pdf".
Definition sample_path : pystr := str "/data/pdfs/ordnung.pdf".

(** A page with the heading [Ziele:] and eleven words after it. *)
Definition page_ziele : page :=
  Page (str "Ziele: a b c d e f g h i j k") 1.

(** A section of eleven words. *)
Definition section_11 : segment :=
  Segment (str "Abschnitt") (str "a b c d e f g h i j k") 1.

(** Two sections of one page, of 90 and of 40 words. *)
Definition section_90 : segment :=
  Segment (str "Ziele") (join (replicate 90 (str "w"))) 1.

Definition section_40 : segment :=
  Segment (str "Dauer") (join (replicate 40 (str "v"))) 1.

(** Engines over rational numbers in the place of floating point
    numbers, with fixed answers of the language model, the store and the
    generation backend. *)
Definition sample_config : RAGEngine.ollama_config Q :=
  RAGEngine.OllamaConfig (Ret (str "http://localhost:11434"))
    (Ret (RAGEngine.SLoaded (Config.YStr (str "llama3.1:8b"))))
    (Some (RAGEngine.SFloat (1 # 10)%Q))
    (Some (RAGEngine.SLoaded (Config.YInt 2048))).

Definition sample_engine (doc : outcome (RAGEngine.Doc Q))
  (results : outcome RAGEngine.query_result)
  (posted : outcome RAGEngine.response) : RAGEngine.engine Q :=
  RAGEngine.Engine (fun x => Qeq_bool x 0) (1 # 10)%Q
    (fun _ => doc) (fun _ _ => results) (fun _ _ _ => posted)
    sample_config.

(** The lookups on an empty section [ollama], as in
    [Config.config_with], which [_validate_config] accepts: both keys are
    missing. *)
Definition empty_section : RAGEngine.ollama_config Q :=
  RAGEngine.OllamaConfig (Raise (Exn KeyError (str "base_url")))
    (Raise (Exn KeyError (str "model"))) None None.

Definition unconfigured_engine (doc : outcome (RAGEngine.Doc Q))
  (results : outcome RAGEngine.query_result)
  (posted : outcome RAGEngine.response) : RAGEngine.engine Q :=
  RAGEngine.Engine (fun x => Qeq_bool x 0) (1 # 10)%Q
    (fun _ => doc) (fun _ _ => results) (fun _ _ _ => posted)
    empty_section.



Definition doc_zero : RAGEngine.Doc Q := RAGEngine.MkDoc 0%Q [0%Q; 0%Q].
Definition doc_unit : RAGEngine.Doc Q := RAGEngine.MkDoc 1%Q [1%Q; 0%Q].

Definition meta_dauer : gmap pystr RAGEngine.meta_value :=
  list_to_map
    [(str "title", RAGEngine.MStr (str "Dauer"));
     (str "filename", RAGEngine.MStr sample_filename);
     (str "page_number", RAGEngine.MInt 3);
     (str "chunk_index", RAGEngine.MInt 7);
     (str "pdf_path", RAGEngine.MStr sample_path)].

Definition meta_ziele : gmap pystr RAGEngine.meta_value :=
  list_to_map
    [(str "title", RAGEngine.MStr (str "Ziele"));
     (str "filename", RAGEngine.MStr sample_filename);
     (str "page_number", RAGEngine.MInt 2);
     (str "chunk_index", RAGEngine.MInt 4);
     (str "pdf_path", RAGEngine.MStr sample_path)].

Definition hit_documents : list pystr :=
  [str "Die Regelstudienzeit betraegt 4 Semester.";
   str "Das Studium umfasst 120 Leistungspunkte."].

Definition hit_metadatas : list (gmap pystr RAGEngine.meta_value) :=
  [meta_dauer; meta_dauer].

Definition results_hit : RAGEngine.query_result :=
  RAGEngine.QueryResult (RAGEngine.Present [hit_documents])
    (RAGEngine.Present [hit_metadatas]).

Definition repeated_documents : list pystr :=
  [str "Die Regelstudienzeit betraegt 4 Semester.";
   str "Ziel des Studiums ist die Befaehigung zur Forschung.";
   str "Das Studium umfasst 120 Leistungspunkte."].

Definition repeated_metadatas : list (gmap pystr RAGEngine.meta_value) :=
  [meta_dauer; meta_ziele; meta_dauer].

Definition results_repeated : RAGEngine.query_result :=
  RAGEngine.QueryResult (RAGEngine.Present [repeated_documents])
    (RAGEngine.Present [repeated_metadatas]).

Definition results_empty : RAGEngine.query_result :=
  RAGEngine.QueryResult (RAGEngine.Present [[]]) (RAGEngine.Present [[]]).

Definition results_no_metadatas : RAGEngine.query_result :=
  RAGEngine.QueryResult
    (RAGEngine.Present [[str "Die Regelstudienzeit betraegt 4 Semester."]])
    RAGEngine.PyNone.

Definition refused : exn := Exn ConnectionError (str "Connection refused").
Definition read_timeout : exn := Exn ReadTimeout (str "Read timed out.").
Definition server_error : exn :=
  Exn HTTPError (str "500 Server Error: Internal Server Error").

Definition ok_fields : gmap pystr RAGEngine.result_value :=
  list_to_map [(str "response", RAGEngine.RStr (str "4 Semester."))].

Definition response_ok : RAGEngine.response :=
  RAGEngine.Response (Ret tt) (Ret (RAGEngine.JsonObject ok_fields)).

(** An answer of the backend with [null] under [response] *)
Definition null_fields : gmap pystr RAGEngine.result_value :=
  list_to_map [(str "response", RAGEngine.RNone)].

Definition response_null : RAGEngine.response :=
  RAGEngine.Response (Ret tt) (Ret (RAGEngine.JsonObject null_fields)).

Definition connect_timeout : exn :=
  Exn ConnectTimeout (str "Connection to localhost timed out.").

Definition response_500 : RAGEngine.response :=
  RAGEngine.Response (Raise server_error)
    (Ret (RAGEngine.JsonOther (str "str"))).

(** An answer of the backend whose body is a JSON array *)
Definition response_array : RAGEngine.response :=
  RAGEngine.Response (Ret tt) (Ret (RAGEngine.JsonOther (str "list"))).

Definition sample_query : pystr := str "Wie lange dauert das Masterstudium?".

End Samples.
Import Samples.

(** ** [config.py]: loading and reading the configuration *)

Module ConfigFile.

Import Config.

Definition DOT : N := 46.

(** [text.split(sep)] for a separator of one character: the pieces
    between the separators, empty pieces included. *)
Fixpoint split_on (sep : N) (text : pystr) : list pystr :=
  match text with
  | [] => [[]]
  | c :: rest =>
      if (c =? sep)%N
      then [] :: split_on sep rest
      else match split_on sep rest with
           | piece :: pieces => (c :: piece) :: pieces
           | [] => [[c]]
           end
  end.

(** [for key in keys: value = value[key]] *)
Fixpoint follow (value : yaml) (keys : list pystr) : outcome yaml :=
  match keys with
  | [] => Ret value
  | key :: keys => value ← getitem value key; follow value keys
  end.

(** [Config.get(key_path, default)]; [except (KeyError, TypeError)]. *)
Definition get (_config : yaml) (key_path : pystr) (default : yaml)
  : outcome yaml :=
  try_except (follow _config (split_on DOT key_path))
    (fun e =>
       match exn_class_of e with
       | KeyError | TypeError => Ret default
       | _ => Raise e
       end).

(** [Config.get_ollama_config], [get_chroma_config], [get_spacy_config] *)
Definition get_ollama_config (_config : yaml) : outcome yaml :=
  getitem _config (str "ollama").

Definition get_chroma_config (_config : yaml) : outcome yaml :=
  getitem _config (str "chroma").

Definition get_spacy_config (_config : yaml) : outcome yaml :=
  getitem _config (str "spacy").

(** [os.getenv(name)] and [os.getenv(name, fallback)] *)
Definition getenv (env : gmap pystr pystr) (name : pystr) : option pystr :=
  env !! name.

Definition getenv_or (env : gmap pystr pystr) (name fallback : pystr)
  : pystr :=
  match getenv env name with
  | Some value => value
  | None => fallback
  end.

(** [if os.getenv(name):] an unset and an empty variable are false. *)
Definition getenv_set (env : gmap pystr pystr) (name : pystr) : bool :=
  match getenv env name with
  | Some (_ :: _) => true
  | _ => false
  end.

(** [config[section][key] = value] *)
Definition setitem2 (config : yaml) (section key : pystr) (value : yaml)
  : outcome yaml :=
  entries ← getitem config section;
  match entries, config with
  | YMap m, YMap c => Ret (YMap (<[section := YMap (<[key := value]> m)]> c))
  | _, _ =>
      Raise (Exn TypeError (str "object does not support item assignment"))
  end.

(** [Config._override_with_env] *)
Definition _override_with_env (config : yaml) (env : gmap pystr pystr)
  : outcome yaml :=
  config ←
    (if getenv_set env (str "OLLAMA_HOST")
     then setitem2 config (str "ollama") (str "base_url")
            (YStr (str "http://"
                   ++ getenv_or env (str "OLLAMA_HOST") []
                   ++ str ":"
                   ++ getenv_or env (str "OLLAMA_PORT") (str "11434")))
     else Ret config);
  config ←
    (if getenv_set env (str "LOG_LEVEL")
     then setitem2 config (str "logging") (str "level")
            (YStr (getenv_or env (str "LOG_LEVEL") []))
     else Ret config);
  if getenv_set env (str "CHROMA_PERSIST_DIRECTORY")
  then setitem2 config (str "chroma") (str "persist_directory")
         (YStr (getenv_or env (str "CHROMA_PERSIST_DIRECTORY") []))
  else Ret config.

(** [Config._load_config].  [exists_] is [self.config_path.exists()],
    [loaded] is what opening the file and [yaml.safe_load] give, and
    [default_config] is the value of [_get_default_config()] (it holds a
    floating point number and is left as it is).  [except Exception]
    catches every exception of the block. *)
Definition _load_config (default_config : yaml) (exists_ : bool)
  (loaded : outcome yaml) (env : gmap pystr pystr) : outcome yaml :=
  try_except
    (if negb exists_
     then Ret default_config
     else
       config ← loaded;
       _override_with_env config env)
    (fun e => Ret default_config).

(** [Config.__init__]: the loaded and validated [self._config]. *)
Definition init (default_config : yaml) (exists_ : bool)
  (loaded : outcome yaml) (env : gmap pystr pystr) : outcome yaml :=
  _config ← _load_config default_config exists_ loaded env;
  _ ← _validate_config _config;
  Ret _config.

End ConfigFile.

(** ** [document_processor.py]: reading, embedding and storing *)

Module Indexing.

Import Config DocumentProcessor.

(** A [pathlib.Path] of a PDF file: [pdf_path.name] and
    [str(pdf_path.absolute())]. *)
Record path := Path { path_name : pystr; path_absolute : pystr }.

(** The arguments of one [collection.add] *)
Record stored (float : Type) :=
  Stored { st_id : pystr; st_document : pystr; st_embedding : list float;
           st_metadata : metadata }.
Arguments Stored {float}.
Arguments st_id {float}.
Arguments st_document {float}.
Arguments st_embedding {float}.
Arguments st_metadata {float}.

(** The processor ([self]) with its collaborators: the configuration, the
    language model, the test [x > 0] on floating point numbers, the
    identifiers that [uuid.uuid4()] draws one after the other, the
    collection of the store and the PDF reader ([PdfReader(pdf_path)], then
    [extract_text()] page by page). *)
Record processor (float : Type) :=
  Processor {
    proc_config : gmap pystr yaml;
    proc_nlp : pystr -> outcome (RAGEngine.Doc float);
    float_is_positive : float -> bool;
    uuid4 : nat -> pystr;
    collection_add : stored float -> outcome unit;
    pdf_reader : path -> outcome (list (outcome pystr))
  }.
Arguments Processor {float}.
Arguments proc_config {float}.
Arguments proc_nlp {float}.
Arguments float_is_positive {float}.
Arguments uuid4 {float}.
Arguments collection_add {float}.
Arguments pdf_reader {float}.

(** What the run has done so far: the number of identifiers drawn and the
    records that the collection has accepted, in order. *)
Record index_state (float : Type) :=
  IndexState { drawn : nat; collection : list (stored float) }.
Arguments IndexState {float}.
Arguments drawn {float}.
Arguments collection {float}.

(** *** [extract_text_from_pdf_with_pages] *)

(** The body of [for page_num, page in enumerate(reader.pages, start=1)],
    on [pages_data]. *)
Fixpoint pages_loop (page_num : Z) (pages : list (outcome pystr))
  (pages_data : list page) : outcome (list page) :=
  match pages with
  | [] => Ret pages_data
  | extract_text :: pages =>
      text ← extract_text;
      pages_loop (page_num + 1) pages
        (match text with
         | [] => pages_data
         | _ => pages_data ++ [Page text page_num]
         end)
  end.

Definition extract_text_from_pdf_with_pages {float} (self : processor float)
  (pdf_path : path) : outcome (list page) :=
  try_except
    (pages ← pdf_reader self pdf_path;
     pages_loop 1 pages [])
    (fun e => Ret []).

(** *** [vectorize_and_store] *)

(** The body of [for segment in segments]: the [try] block with its
    [except Exception], which only logs. *)
Definition vectorize_step {float} (self : processor float)
  (st : index_state float) (segment : chunk) : index_state float :=
  match proc_nlp self (chunk_text segment) with
  | Raise _ => st
  | Ret doc =>
      if float_is_positive self (RAGEngine.vector_norm doc)
      then
        let unique_id := uuid4 self (drawn st) in
        let record :=
          Stored unique_id (chunk_text segment) (RAGEngine.vector doc)
            (chunk_metadata segment) in
        match collection_add self record with
        | Ret _ => IndexState (S (drawn st)) (collection st ++ [record])
        | Raise _ => IndexState (S (drawn st)) (collection st)
        end
      else st
  end.

Definition vectorize_and_store {float} (self : processor float)
  (st : index_state float) (segments : list chunk) : index_state float :=
  fold_left (vectorize_step self) segments st.

(** *** [process_pdf] and [process_directory] *)

Definition process_pdf {float} (self : processor float)
  (st : index_state float) (pdf_path : path)
  : outcome Z * index_state float :=
  match extract_text_from_pdf_with_pages self pdf_path with
  | Raise e => (Raise e, st)
  | Ret [] => (Ret 0, st)
  | Ret pages_data =>
      match segment_document (proc_config self) pages_data
              (path_name pdf_path) (path_absolute pdf_path) with
      | Raise e => (Raise e, st)
      | Ret segments =>
          (Ret (Z.of_nat (length segments)),
           vectorize_and_store self st segments)
      end
  end.

(** The body of [for pdf_path in pdf_files], on [total_segments]; an
    exception of [process_pdf] ends the loop. *)
Fixpoint directory_loop {float} (self : processor float)
  (pdf_files : list path) (total_segments : Z) (st : index_state float)
  : outcome Z * index_state float :=
  match pdf_files with
  | [] => (Ret total_segments, st)
  | pdf_path :: pdf_files =>
      match process_pdf self st pdf_path with
      | (Ret n, st) => directory_loop self pdf_files (total_segments + n) st
      | (Raise e, st) => (Raise e, st)
      end
  end.

(** [process_directory]; [pdf_files] is [list(directory.rglob("*.pdf"))]. *)
Definition process_directory {float} (self : processor float)
  (st : index_state float) (pdf_files : list path)
  : outcome Z * index_state float :=
  directory_loop self pdf_files 0 st.

(** *** [main.process_documents] *)


End Indexing.

(** ** [rag_engine.py]: the status of the system *)

Module Status.

Import RAGEngine.

(** A value of the status dictionary *)
Inductive status_value :=
| SBool (b : bool)
| SInt (z : Z).

(** What the probes of [check_system_status] call besides the engine:
    [collection.count()], the test [x > 0] and [requests.get(url,
    timeout)] with the status code of its response. *)
Record probes (float : Type) :=
  Probes {
    collection_count : outcome Z;
    float_is_positive : float -> bool;
    requests_get : pystr -> Z -> outcome Z
  }.
Arguments Probes {float}.
Arguments collection_count {float}.
Arguments float_is_positive {float}.
Arguments requests_get {float}.

Definition initial_status : gmap pystr status_value :=
  list_to_map
    [(str "chroma_db", SBool false); (str "spacy_model", SBool false);
     (str "ollama", SBool false); (str "document_count", SInt 0)].

Definition check_system_status {float} (self : engine float)
  (world : probes float) : outcome (gmap pystr status_value) :=
  let status := initial_status in
  status ←
    try_except
      (count ← collection_count world;
       Ret (<[str "document_count" := SInt count]>
              (<[str "chroma_db" := SBool true]> status)))
      (fun e => Ret status);
  status ←
    try_except
      (test_doc ← nlp self (str "Test");
       Ret (<[str "spacy_model" :=
                SBool (float_is_positive world (vector_norm test_doc))]>
              status))
      (fun e => Ret status);
  try_except
    (base ← base_url (ollama_cfg self);
     status_code ← requests_get world (base ++ str "/api/version") 5;
     Ret (<[str "ollama" := SBool (status_code =? 200)]> status))
    (fun e => Ret status).









End Status.

(** ** Notions used in the statements on the further code *)

Module MoreNotions.

Import Config.

(** The value reached from [value] by the successive keys, if every key
    is there and every value on the way is a mapping. *)
Fixpoint reach (value : yaml) (keys : list pystr) : option yaml :=
  match keys with
  | [] => Some value
  | key :: keys =>
      match value with
      | YMap m =>
          match m !! key with
          | Some v => reach v keys
          | None => None
          end
      | _ => None
      end
  end.

(** [config[section]] is there and is a mapping. *)
Definition mapping_section (config : yaml) (section : pystr) : bool :=
  match config with
  | YMap c =>
      match c !! section with
      | Some (YMap _) => true
      | _ => false
      end
  | _ => false
  end.

(** The sections that one page gives: the whole normalised page when it
    does not start with a heading, the normalised text after the heading
    when it does and that text does not start with a heading again; in
    both cases only with more than ten words. *)
Definition page_sections (page_data : DocumentProcessor.page)
  : list DocumentProcessor.segment :=
  let cleaned :=
    DocumentProcessor.clean_text (DocumentProcessor.page_text page_data) in
  match DocumentProcessor.match_section cleaned with
  | None =>
      if DocumentProcessor.enough_words cleaned
      then [DocumentProcessor.Segment (str "Gesamtdokument") cleaned
              (DocumentProcessor.page_number page_data)]
      else []
  | Some (_, n) =>
      let rest := drop n cleaned in
      if DocumentProcessor.re_match rest then []
      else if DocumentProcessor.enough_words rest
      then [DocumentProcessor.Segment (str "Abschnitt")
              (DocumentProcessor.clean_text rest)
              (DocumentProcessor.page_number page_data)]
      else []
  end.

(** The status dictionary with the given four values *)
Definition status_of (chroma_db : bool) (document_count : Z)
  (spacy_model ollama : bool) : gmap pystr Status.status_value :=
  list_to_map
    [(str "chroma_db", Status.SBool chroma_db);
     (str "spacy_model", Status.SBool spacy_model);
     (str "ollama", Status.SBool ollama);
     (str "document_count", Status.SInt document_count)].

(** The chunks of one file: what the reader and [segment_document] give,
    whatever is stored of them.  A file without a page with text gives
    none, and the configuration is then not read. *)
Definition file_chunks {float : Type} (self : Indexing.processor float)
  (pdf_path : Indexing.path) : outcome (list DocumentProcessor.chunk) :=
  match Indexing.extract_text_from_pdf_with_pages self pdf_path with
  | Raise e => Raise e
  | Ret [] => Ret []
  | Ret pages_data =>
      DocumentProcessor.segment_document (Indexing.proc_config self)
        pages_data (Indexing.path_name pdf_path)
        (Indexing.path_absolute pdf_path)
  end.

(** A loaded string and a loaded list that name the six required keys *)
Definition keys_text : yaml :=
  YStr (str "app chroma ollama documents spacy logging").

Definition keys_list : yaml := YList (map YStr required_keys).

(** A key without a dot *)
Definition dot_free (key : pystr) : Prop := ConfigFile.DOT ∉ key.

End MoreNotions.
Import MoreNotions.

(** ** [web_scraper.py]: the names of the downloaded files *)

Module FileNames.

Definition UNDERSCORE : N := 95.
Definition FULL_STOP : N := 46.

(** The character class of the first pattern: [<], [>], [:], the double
    quote, [/], the backslash, [|], [?] and [*]. *)
Definition reserved (c : N) : bool :=
  ((c =? 60) || (c =? 62) || (c =? 58) || (c =? 34) || (c =? 47)
   || (c =? 92) || (c =? 124) || (c =? 63) || (c =? 42))%N.

(** The first [re.sub]: every character of the class becomes [_]. *)
Definition replace_reserved (filename : pystr) : pystr :=
  map (fun c => if reserved c then UNDERSCORE else c) filename.

(** [re.sub(r'_+', '_', filename)]: a left-to-right scan; [in_run] tells
    that the previous character belonged to the run being replaced. *)
Fixpoint collapse_underscores (in_run : bool) (filename : pystr) : pystr :=
  match filename with
  | [] => []
  | c :: rest =>
      if (c =? UNDERSCORE)%N
      then if in_run then collapse_underscores true rest
           else UNDERSCORE :: collapse_underscores true rest
      else c :: collapse_underscores false rest
  end.

(** [text.strip('_.')]: the characters of the argument are removed at both
    ends. *)
Definition stripped (c : N) : bool :=
  ((c =? UNDERSCORE) || (c =? FULL_STOP))%N.

Fixpoint lstrip_chars (text : pystr) : pystr :=
  match text with
  | [] => []
  | c :: rest => if stripped c then lstrip_chars rest else text
  end.

Fixpoint rstrip_chars (text : pystr) : pystr :=
  match text with
  | [] => []
  | c :: rest =>
      match rstrip_chars rest with
      | [] => if stripped c then [] else [c]
      | r => c :: r
      end
  end.

Definition strip_chars (text : pystr) : pystr :=
  lstrip_chars (rstrip_chars text).

(** [UniversityWebScraper.sanitize_filename]; [filename[:240]] is
    [take 240]. *)
Definition sanitize_filename (filename : pystr) : pystr :=
  let filename := replace_reserved filename in
  let filename := collapse_underscores false filename in
  strip_chars (take 240 filename).

End FileNames.

(** ** [web_scraper.py]: collecting pages and downloading files *)

Module WebScraper.

Import FileNames.

(** [isinstance(e, requests.exceptions.RequestException)] for the
    exceptions of the HTTP client. *)
Definition is_RequestException (e : exn) : bool :=
  match exn_class_of e with
  | HTTPError | ConnectionError | Timeout | ConnectTimeout | ReadTimeout =>
      true
  | _ => false
  end.

(** What the scraper reads from the parsed page of [start_url]: the
    stripped text of the first [h3] tag, whether there is a [div] with the
    id [document-list], and the links of the [ul] with the class
    [categories-list], after [urljoin(start_url, link['href'])]. *)
Record html_page :=
  HtmlPage { h3_text : option pystr;
             has_document_list : bool;
             category_links : option (list pystr) }.

(** The web as the scraper sees it: [get_page] is [session.get(url,
    timeout=10)], [raise_for_status()] and the parse of the answer;
    [get_documents] gives the titles and the absolute addresses of the
    entries of the document list of a page (none without a list);
    [get_pdf] is [session.get(url, stream=True, timeout=30)] and
    [raise_for_status()], with what reading the content with
    [iter_content] then gives: the number of its bytes, or the exception
    that ends the transfer. *)
Record web :=
  Web { get_page : pystr -> outcome html_page;
        get_documents : pystr -> outcome (list (pystr * pystr));
        get_pdf : pystr -> outcome (outcome N) }.

(** An entry of [document_pages]: the address of a page and the titles on
    the way to it. *)
Definition page_ref : Type := pystr * list pystr.

(** A call returns its result, or raises, and leaves the set
    [visited_urls], which the calls share. *)
Definition crawl : Type := outcome (list page_ref) * gset pystr.

(** ['amb.uni-leipzig.de' in full_url and 'bekanntmachungen' in full_url] *)
Definition wanted (full_url : pystr) : bool :=
  Config.contains (str "amb.uni-leipzig.de") full_url
  && Config.contains (str "bekanntmachungen") full_url.

(** The body of [for link in links], on [document_pages] and
    [visited_urls]; [recurse] is the recursive call for a link.  [None]
    stands for a call that has run out of fuel. *)
Fixpoint links_loop (recurse : pystr -> gset pystr -> option crawl)
  (links : list pystr) (document_pages : list page_ref)
  (visited_urls : gset pystr) : option crawl :=
  match links with
  | [] => Some (Ret document_pages, visited_urls)
  | full_url :: links =>
      if wanted full_url && negb (bool_decide (full_url ∈ visited_urls))
      then
        match recurse full_url visited_urls with
        | None => None
        | Some (Ret sub_pages, visited_urls) =>
            links_loop recurse links (document_pages ++ sub_pages)
              visited_urls
        | Some (Raise e, visited_urls) => Some (Raise e, visited_urls)
        end
      else links_loop recurse links document_pages visited_urls
  end.

(** [except requests.exceptions.RequestException: return []], around the
    body of a call. *)
Definition except_RequestException (body : option crawl) : option crawl :=
  match body with
  | Some (Raise e, visited_urls) =>
      if is_RequestException e
      then Some (Ret [], visited_urls)
      else Some (Raise e, visited_urls)
  | r => r
  end.

(** [collect_document_pages_recursively]; the recursion of the code is
    bounded by [max_depth - current_depth], the model by [fuel]. *)
Fixpoint collect_document_pages_recursively (fuel : nat) (w : web)
  (start_url : pystr) (max_depth current_depth : Z)
  (visited_urls : gset pystr) (parent_path : list pystr) : option crawl :=
  match fuel with
  | O => None
  | S fuel =>
      if (max_depth <=? current_depth)
         || bool_decide (start_url ∈ visited_urls)
      then Some (Ret [], visited_urls)
      else
        let visited_urls := {[start_url]} ∪ visited_urls in
        except_RequestException
          match get_page w start_url with
          | Raise e => Some (Raise e, visited_urls)
          | Ret page =>
              let current_path :=
                match h3_text page with
                | Some (c :: title) => parent_path ++ [c :: title]
                | _ => parent_path
                end in
              let document_pages :=
                if has_document_list page
                then [(start_url, current_path)]
                else [] in
              match category_links page with
              | Some links =>
                  if current_depth <? max_depth
                  then
                    links_loop
                      (fun full_url visited_urls =>
                         collect_document_pages_recursively fuel w full_url
                           max_depth (current_depth + 1) visited_urls
                           current_path)
                      links document_pages visited_urls
                  else Some (Ret document_pages, visited_urls)
              | None => Some (Ret document_pages, visited_urls)
              end
          end
  end.













End WebScraper.

(** ** Notions and sample inputs for the scraper *)

Module ScraperNotions.

Import WebScraper.

(** What a call that started with the visited set [before] below the
    path [parent_path] has done: the set has only grown; the pages it
    returns are pairwise distinct, were visited by the call and not
    before it, and lie below [parent_path]; an exception that leaves the
    call is not a [RequestException]. *)
Definition crawl_ok (before : gset pystr) (parent_path : list pystr)
  (result : crawl) : Prop :=
  before ⊆ snd result
  /\ match fst result with
     | Ret pages =>
         NoDup (map fst pages)
         /\ Forall (fun page : page_ref =>
                      fst page ∈ snd result
                      /\ (fst page ∉ before)
                      /\ parent_path `prefix_of` snd page) pages
     | Raise e => is_RequestException e = false
     end.



(** Two pages that link to each other and to themselves; each has a title
    and a document list with one entry.  Every transfer gives 100
    bytes. *)
Definition url_a : pystr :=
  str "https://amb.uni-leipzig.de/bekanntmachungen/a.html".
Definition url_b : pystr :=
  str "https://amb.uni-leipzig.de/bekanntmachungen/b.html".

Definition sample_web : web :=
  Web (fun url => Ret (HtmlPage (Some (str "Ordnungen")) true
                         (Some [url_a; url_b])))
      (fun url => Ret [(str "Pruefungsordnung: Informatik", url)])
      (fun url => Ret (Ret 100%N)).

End ScraperNotions.
Import ScraperNotions.

(** ** [count_pdf_pages.py] *)

Module PageCount.

(** The body of [for pdf_path in pdf_files], on
    [(total_pages, error_count)]; [reader] stands for
    [len(PdfReader(pdf_path).pages)].  The two handlers, for
    [PdfReadError] and for every other [Exception], count the file as an
    error alike. *)
Definition count_step (reader : Indexing.path -> outcome nat)
  (st : Z * Z) (pdf_path : Indexing.path) : Z * Z :=
  let '(total_pages, error_count) := st in
  match reader pdf_path with
  | Ret pages => (total_pages + Z.of_nat pages, error_count)
  | Raise _ => (total_pages, error_count + 1)
  end.

(** [count_pages_in_directory]; [is_dir] is [directory.is_dir()] and
    [pdf_files] the PDF files below the directory. *)
Definition count_pages_in_directory (is_dir : bool)
  (pdf_files : list Indexing.path) (reader : Indexing.path -> outcome nat)
  : Z * Z * Z :=
  if negb is_dir then (0, 0, 0)
  else
    match pdf_files with
    | [] => (0, 0, 0)
    | _ =>
        let '(total_pages, error_count) :=
          fold_left (count_step reader) pdf_files (0, 0) in
        let file_count := Z.of_nat (length pdf_files) - error_count in
        (total_pages, file_count, error_count)
    end.

End PageCount.

(** ** Sample inputs for the further code *)

Module MoreSamples.

(** A language model over rational numbers that fails on the empty text
    and gives every other text a vector of norm one. *)
Definition sample_nlp (text : pystr) : outcome (RAGEngine.Doc Q) :=
  match text with
  | [] => Raise (Exn OtherException (str "empty text"))
  | _ => Ret (RAGEngine.MkDoc 1%Q [1%Q])
  end.

Definition Q_is_positive (x : Q) : bool := (0 <? Qnum x)%Z.

(** The identifiers drawn: the decimal numerals. *)
Definition sample_uuid4 (k : nat) : pystr := str_of_int (Z.of_nat k).

(** A processor with the default configuration and a collection that
    accepts every record; [pages] is what the reader gives for every
    file. *)
Definition sample_processor (pages : outcome (list (outcome pystr)))
  : Indexing.processor Q :=
  Indexing.Processor Config._get_default_config sample_nlp Q_is_positive
    sample_uuid4 (fun _ => Ret tt) (fun _ => pages).

Definition sample_pdf : Indexing.path :=
  Indexing.Path sample_filename sample_path.

Definition empty_index : Indexing.index_state Q := Indexing.IndexState 0 [].

(** A page of twelve words without a heading. *)
Definition page_text_12 : pystr := str "eins zwei drei vier fuenf sechs sieben acht neun zehn elf zwoelf".

End MoreSamples.
Import MoreSamples.

(** * Properties *)

Import DocumentProcessor.

(** ** The model on concrete inputs *)

Example str_umlaut :
  str "Prüfungen" = [80; 114; 252; 102; 117; 110; 103; 101; 110]%N.
Proof. reflexivity. Qed.

Example clean_text_page :
  clean_text (str "  Ziele:
   a 	b  ") = str "Ziele: a b".
Proof. reflexivity. Qed.

Example split_words_of_text :
  split (str " ab  c d ") = [str "ab"; str "c"; str "d"].
Proof. reflexivity. Qed.

Example range0_90_40 : range0 90 40 = Ret [0; 40; 80].
Proof. reflexivity. Qed.

Example range0_40_40 : range0 40 40 = Ret [0].
Proof. reflexivity. Qed.

Example range0_negative_step : range0 40 (-5) = Ret [].
Proof. reflexivity. Qed.

Example slice_inside : slice [1; 2; 3; 4; 5] 1 3 = [2; 3].
Proof. reflexivity. Qed.

Example slice_past_end : slice [1; 2; 3; 4; 5] 4 54 = [5].
Proof. reflexivity. Qed.

Example slice_from_end : slice [1; 2; 3; 4; 5] 0 (-2) = [1; 2; 3].
Proof. reflexivity. Qed.

Example str_of_int_120 : str_of_int 120 = str "120".
Proof. reflexivity. Qed.

(** On a text with line breaks the pattern matches at the start of each
    line, and the pieces alternate with the texts of group 1. *)
Example re_split_lines :
  re_split (str "Vorwort
Ziele des Moduls: Wissen
MODULNAME: Analysis")
  = [str "Vorwort
"; str "Ziele"; str " Wissen
"; str "MODUL"; str " Analysis"].
Proof. vm_compute. reflexivity. Qed.

Example re_match_heading : re_match (str "  Dauer des Moduls: 1 Semester") = true.
Proof. vm_compute. reflexivity. Qed.

Example default_config_valid :
  Config._validate_config (Config.YMap Config._get_default_config) = Ret tt.
Proof. vm_compute. reflexivity. Qed.

Example missing_key_invalid :
  exists e,
    Config._validate_config
      (Config.YMap (delete (str "spacy") Config._get_default_config))
      = Raise e
    /\ exn_class_of e = ValueError.
Proof. eexists. split; vm_compute; reflexivity. Qed.

(** ** Words and normalisation *)

Section Words.

Lemma join_cons w ws : join (w :: ws) = glue w ws.
Proof. unfold join, glue. destruct ws; simpl; [by rewrite app_nil_r | done]. Qed.

Lemma split_aux_cons c text :
  split_aux (c :: text) =
    if isspace c then ([], split text)
    else (c :: fst (split_aux text), snd (split_aux text)).
Proof. unfold split. simpl. destruct (split_aux text) as [w ws]. done. Qed.

Lemma split_cons_space c text : isspace c = true -> split (c :: text) = split text.
Proof.
  intros Hc. unfold split at 1. rewrite split_aux_cons, Hc. done.
Qed.

Lemma split_cons_nonspace c text :
  isspace c = false ->
  split (c :: text) = (c :: fst (split_aux text)) :: snd (split_aux text).
Proof.
  intros Hc. unfold split at 1. rewrite split_aux_cons, Hc. done.
Qed.

Lemma split_aux_words text :
  nonspace (fst (split_aux text)) /\ Forall word (snd (split_aux text)).
Proof.
  induction text as [|c text [IHw IHws]]; simpl.
  - split; constructor.
  - destruct (split_aux text) as [w ws]; simpl in *.
    destruct (isspace c) eqn:Hc; simpl.
    + split; [constructor|]. destruct w; [done|].
      constructor; [|done]. split; done.
    + split; [|done]. constructor; done.
Qed.

Lemma split_words text : Forall word (split text).
Proof.
  unfold split. pose proof (split_aux_words text) as [Hw Hws].
  destruct (split_aux text) as [w ws]; simpl in *.
  destruct w; [done|]. constructor; [|done]. split; done.
Qed.

Lemma split_aux_word_app w text :
  nonspace w ->
  split_aux (w ++ text) = (w ++ fst (split_aux text), snd (split_aux text)).
Proof.
  induction 1 as [|c w Hc Hw IH]; simpl.
  - by destruct (split_aux text).
  - rewrite IH, Hc. done.
Qed.

Lemma SPACE_isspace : isspace SPACE = true.
Proof. reflexivity. Qed.

Lemma split_glue w ws :
  nonspace w -> Forall word ws -> split_aux (glue w ws) = (w, ws).
Proof.
  intros Hw Hws. revert w Hw. induction Hws as [|v ws Hv Hws IH]; intros w Hw.
  - unfold glue. rewrite split_aux_word_app by done. simpl. by rewrite app_nil_r.
  - unfold glue. rewrite split_aux_word_app by done.
    rewrite split_aux_cons, SPACE_isspace. simpl.
    rewrite app_nil_r. f_equal.
    rewrite join_cons. unfold split. rewrite IH by apply Hv.
    destruct Hv as [Hne _]. destruct v; done.
Qed.

(** Splitting the joined words gives the words back. *)
Lemma split_join ws : Forall word ws -> split (join ws) = ws.
Proof.
  destruct 1 as [|w ws Hw Hws]; [done|].
  rewrite join_cons. unfold split. rewrite split_glue by (done || apply Hw).
  destruct Hw as [Hne _]. destruct w; done.
Qed.

Lemma lstrip_nonspace_head c text :
  isspace c = false -> lstrip (c :: text) = c :: text.
Proof. intros Hc. simpl. by rewrite Hc. Qed.

Lemma lstrip_join ws : Forall word ws -> lstrip (join ws) = join ws.
Proof.
  destruct 1 as [|w ws [Hne Hw] Hws]; [done|].
  rewrite join_cons. destruct Hw as [|c w Hc Hw]; [done|].
  unfold glue. simpl. by rewrite Hc.
Qed.

Lemma join_nil_inv ws : Forall word ws -> join ws = [] -> ws = [].
Proof.
  destruct 1 as [|w ws [Hne Hw] Hws]; [done|].
  rewrite join_cons. unfold glue. destruct w; done.
Qed.

Lemma rstrip_cons c text :
  rstrip (c :: text) =
    match rstrip text with
    | [] => if isspace c then [] else [c]
    | r => c :: r
    end.
Proof. done. Qed.

(** The text before [strip], with its trailing whitespace removed, in
    terms of the words of the input. *)
Lemma rstrip_collapse text :
  rstrip (replace_newline (re_sub_ws false text))
    = glue (fst (split_aux text)) (snd (split_aux text))
  /\ rstrip (replace_newline (re_sub_ws true text)) = join (split text).
Proof.
  induction text as [|c text [IH IH']]; [done|].
  pose proof (split_aux_words text) as [Hw Hws].
  pose proof (split_words text) as Hsp.
  rewrite split_aux_cons. simpl re_sub_ws.
  destruct (isspace c) eqn:Hc; simpl fst; simpl snd.
  - rewrite (split_cons_space _ _ Hc). split; [|done].
    change (replace_newline (SPACE :: ?t)) with (SPACE :: replace_newline t).
    rewrite rstrip_cons, IH', SPACE_isspace. unfold glue. simpl.
    destruct (join (split text)) eqn:Hj.
    + by rewrite (join_nil_inv _ Hsp Hj).
    + destruct (split text); done.
  - assert (Hnl : (c =? NEWLINE)%N = false).
    { destruct (N.eqb_spec c NEWLINE) as [->|]; done. }
    assert (Hgoal : rstrip (replace_newline (c :: re_sub_ws false text))
                    = glue (c :: fst (split_aux text)) (snd (split_aux text))).
    { unfold replace_newline at 1. simpl map. rewrite Hnl.
      fold (replace_newline (re_sub_ws false text)).
      rewrite rstrip_cons, IH, Hc. unfold glue. simpl.
      destruct (fst (split_aux text) ++ _); done. }
    split; [done|].
    rewrite Hgoal, (split_cons_nonspace _ _ Hc). by rewrite join_cons.
Qed.

(** [clean_text] joins the words of its input with single spaces. *)
Lemma clean_text_join_split text : clean_text text = join (split text).
Proof.
  unfold clean_text, strip. rewrite (proj1 (rstrip_collapse text)).
  pose proof (split_aux_words text) as [Hw Hws].
  unfold split. destruct (split_aux text) as [w ws]; simpl in *.
  destruct w as [|c w].
  - unfold glue. simpl. destruct ws as [|v ws]; [done|].
    simpl lstrip. change (isspace SPACE) with true. simpl.
    by apply lstrip_join.
  - rewrite join_cons. unfold glue. simpl.
    inversion Hw as [|? ? Hc _]; subst. by rewrite Hc.
Qed.

End Words.

(** ** Slices and ranges *)

Section Slices.

Context {A : Type}.
Implicit Types l : list A.

(** A slice that starts inside [0, ∞) and has a length from there. *)
Lemma slice_from l (lo len : Z) :
  0 <= lo -> 0 <= len ->
  slice l lo (lo + len) = take (Z.to_nat len) (drop (Z.to_nat lo) l).
Proof.
  intros Hlo Hlen. unfold slice.
  destruct (Z.ltb_spec lo 0) as [?|_]; [lia|].
  destruct (Z.ltb_spec (lo + len) 0) as [?|_]; [lia|].
  destruct (Z.le_gt_cases (Z.of_nat (length l)) lo) as [Hge|Hlt].
  - rewrite (Z.min_r lo) by lia.
    rewrite (drop_ge l (Z.to_nat lo)) by lia.
    rewrite (drop_ge l (Z.to_nat (Z.of_nat (length l)))) by lia.
    by rewrite !take_nil.
  - rewrite (Z.min_l lo) by lia.
    destruct (Z.le_gt_cases (lo + len) (Z.of_nat (length l))) as [Hin|Hout].
    + rewrite Z.min_l by lia. f_equal. lia.
    + rewrite Z.min_r by lia.
      rewrite !take_ge; [done| |]; rewrite length_drop; lia.
Qed.

(** Consecutive pieces of a list, put together again. *)
Lemma concat_pieces (s m : nat) l :
  concat (map (fun j => take s (drop (j * s) l)) (seq 0 m)) = take (m * s) l.
Proof.
  induction m as [|m IH]; [done|].
  rewrite seq_S, map_app, concat_app, IH. simpl.
  rewrite app_nil_r, take_take_drop. f_equal. lia.
Qed.

End Slices.

Lemma range0_positive stop step :
  0 < step ->
  range0 stop step
    = Ret (map (fun k => Z.of_nat k * step) (seq 0 (range_count stop step))).
Proof.
  intros Hs. unfold range0, range_count.
  destruct (Z.eqb_spec step 0) as [?|_]; [lia|].
  destruct (Z.ltb_spec 0 step) as [_|?]; [done|lia].
Qed.

Lemma range_count_covers stop step :
  0 < step -> stop <= Z.of_nat (range_count stop step) * step.
Proof.
  intros Hs. unfold range_count.
  destruct (Z.ltb_spec 0 stop) as [Hpos|?]; [|lia].
  pose proof (Z.div_pos (stop - 1) step ltac:(lia) Hs) as Hq.
  pose proof (Z.mul_succ_div_gt (stop - 1) step Hs) as Hlt.
  rewrite Z2Nat.id by lia. lia.
Qed.

Lemma range0_negative stop step :
  0 <= stop -> step < 0 -> range0 stop step = Ret [].
Proof.
  intros Hn Hs. unfold range0.
  destruct (Z.eqb_spec step 0) as [?|_]; [lia|].
  destruct (Z.ltb_spec 0 step) as [?|_]; [lia|].
  destruct (Z.ltb_spec stop 0) as [?|_]; [lia|done].
Qed.

Lemma range0_zero stop :
  range0 stop 0
    = Raise (Exn ValueError (str "range() arg 3 must not be zero")).
Proof. done. Qed.

(** ** The chunking loop *)

Section Chunking.

Variables (chunk_size overlap : Z) (filename pdf_path : pystr).

Lemma window_fold seg words starts counter final_segments :
  fold_left (window_step chunk_size filename pdf_path seg words) starts
    (counter, final_segments)
  = (counter + Z.of_nat (length starts),
     final_segments
       ++ imap (fun k i =>
                  Chunk (join (slice words i (i + chunk_size)))
                    (Metadata (seg_title seg) filename (seg_page_number seg)
                       (counter + 1 + Z.of_nat k) pdf_path)) starts).
Proof.
  revert counter final_segments.
  induction starts as [|i starts IH]; intros counter final_segments.
  - simpl. rewrite app_nil_r. f_equal. lia.
  - simpl fold_left. rewrite IH.
    rewrite imap_cons, <- app_assoc. simpl. f_equal; [lia|].
    f_equal. f_equal; [do 2 f_equal; lia|].
    apply imap_ext. intros k j _. simpl. do 2 f_equal. lia.
Qed.

Lemma segment_step_positive seg counter final_segments :
  0 < chunk_size - overlap ->
  segment_step chunk_size overlap filename pdf_path
    (counter, final_segments) seg
  = let group :=
      section_chunks chunk_size overlap filename pdf_path seg counter in
    Ret (counter + Z.of_nat (length group), final_segments ++ group).
Proof.
  intros Hs. unfold segment_step.
  rewrite range0_positive by done.
  change (mbind ?k (Ret ?x)) with (k x). cbv beta.
  rewrite window_fold. unfold section_chunks, window_starts. simpl.
  by rewrite length_imap.
Qed.

Lemma chunk_loop_positive all_segments counter final_segments :
  0 < chunk_size - overlap ->
  exists counter',
    chunk_loop chunk_size overlap filename pdf_path all_segments
      (counter, final_segments)
    = Ret (counter',
           final_segments
             ++ concat (section_groups chunk_size overlap filename pdf_path
                          all_segments counter)).
Proof.
  intros Hs. revert counter final_segments.
  induction all_segments as [|seg segs IH]; intros counter final_segments.
  - exists counter. simpl. by rewrite app_nil_r.
  - simpl chunk_loop. rewrite segment_step_positive by done. cbv zeta.
    change (mbind ?k (Ret ?x)) with (k x). cbv beta.
    destruct (IH (counter + Z.of_nat (length
                (section_chunks chunk_size overlap filename pdf_path seg counter)))
                (final_segments
                   ++ section_chunks chunk_size overlap filename pdf_path seg counter))
      as [counter' ->].
    exists counter'. simpl. by rewrite <- app_assoc.
Qed.

(** With a positive stride the chunking stage returns the chunks of the
    sections, section after section. *)
Lemma chunk_segments_positive all_segments :
  0 < chunk_size - overlap ->
  chunk_segments chunk_size overlap filename pdf_path all_segments
  = Ret (concat (section_groups chunk_size overlap filename pdf_path
                   all_segments 0)).
Proof.
  intros Hs. unfold chunk_segments.
  destruct (chunk_loop_positive all_segments 0 [] Hs) as [counter' ->].
  done.
Qed.

(** The word windows of the chunks of one section. *)
Lemma chunk_words_section_chunks seg counter :
  map chunk_words
    (section_chunks chunk_size overlap filename pdf_path seg counter)
  = map (fun i => slice (split (seg_text seg)) i (i + chunk_size))
      (window_starts (length (split (seg_text seg))) (chunk_size - overlap)).
Proof.
  unfold section_chunks. cbv zeta.
  generalize (window_starts (length (split (seg_text seg)))
                (chunk_size - overlap)) as starts.
  intros starts.
  change (map chunk_words ?l) with (chunk_words <$> l).
  rewrite fmap_imap, <- imap_const. apply imap_ext. intros k i _.
  unfold chunk_words. simpl. apply split_join.
  unfold slice. apply Forall_take, Forall_drop, split_words.
Qed.

End Chunking.

(** ** Reconstruction of a section from its windows *)

Section Windows.

Variables (s o : nat) (words : list pystr).

Lemma windows_remove_overlap m :
  (length words <= m * s)%nat ->
  remove_overlap (Z.of_nat o) (windows_every s o words m) = words.
Proof.
  intros Hlen. unfold remove_overlap, windows_every. rewrite Nat2Z.id.
  destruct m as [|m].
  - destruct words; [done|simpl in Hlen; lia].
  - change (seq 0 (S m)) with (0%nat :: seq 1 m).
    rewrite <- (fmap_S_seq 0 m). simpl map at 1.
    change (S <$> seq 0 m) with (map S (seq 0 m)).
    rewrite !map_map.
    rewrite (map_ext _ (fun j => take s (drop (j * s) (drop (s + o) words)))).
    + rewrite concat_pieces, take_take_drop. apply take_ge. lia.
    + intros j. rewrite drop_drop.
      transitivity (drop o (take (o + s) (drop (S j * s) words)));
        [by rewrite (Nat.add_comm o s)|].
      rewrite <- take_drop_commute, drop_drop. do 2 f_equal. lia.
Qed.

Lemma windows_overlap_repeated m :
  overlap_repeated (Z.of_nat (s + o)) (Z.of_nat o) (windows_every s o words m).
Proof.
  intros i w1 w2. unfold windows_every.
  change (map ?f ?l) with (f <$> l). rewrite !list_lookup_fmap.
  intros H1 H2.
  destruct (seq 0 m !! i) as [k1|] eqn:E1; [|done].
  destruct (seq 0 m !! S i) as [k2|] eqn:E2; [|done].
  apply lookup_seq in E1 as [-> _]. apply lookup_seq in E2 as [-> _].
  simpl in H1, H2. injection H1 as <-. injection H2 as <-.
  replace (Z.to_nat (Z.of_nat (s + o) - Z.of_nat o)) with s by lia.
  rewrite Nat2Z.id, take_take, Nat.min_l by lia.
  rewrite <- take_drop_commute, take_take, Nat.min_id, drop_drop.
  do 2 f_equal. lia.
Qed.

End Windows.

Section Reconstruction.

Variables (chunk_size overlap : Z) (filename pdf_path : pystr).
Hypothesis Hvalid : 0 <= overlap < chunk_size.

Lemma window_slices (words : list pystr) :
  map (fun i => slice words i (i + chunk_size))
    (window_starts (length words) (chunk_size - overlap))
  = map (fun k =>
           take (Z.to_nat (chunk_size - overlap) + Z.to_nat overlap)
             (drop (k * Z.to_nat (chunk_size - overlap)) words))
      (seq 0 (range_count (Z.of_nat (length words)) (chunk_size - overlap))).
Proof.
  unfold window_starts. rewrite map_map. apply map_ext. intros k.
  rewrite slice_from by nia. f_equal; [lia|]. f_equal.
  rewrite Z2Nat.inj_mul, Nat2Z.id by lia. done.
Qed.

Lemma section_chunks_reconstruct seg counter :
  let windows :=
    map chunk_words
      (section_chunks chunk_size overlap filename pdf_path seg counter) in
  remove_overlap overlap windows = split (seg_text seg)
  /\ overlap_repeated chunk_size overlap windows.
Proof.
  cbv zeta. rewrite chunk_words_section_chunks, window_slices.
  set (s := Z.to_nat (chunk_size - overlap)).
  set (o := Z.to_nat overlap).
  assert (Ho : overlap = Z.of_nat o) by lia.
  assert (Hc : chunk_size = Z.of_nat (s + o)) by lia.
  split.
  - rewrite Ho at 1. apply windows_remove_overlap.
    pose proof (range_count_covers (Z.of_nat (length (split (seg_text seg))))
                  (chunk_size - overlap) ltac:(lia)) as Hcov.
    replace (chunk_size - overlap) with (Z.of_nat s) in Hcov at 2 by lia.
    lia.
  - rewrite Hc at 1. rewrite Ho at 1. apply windows_overlap_repeated.
Qed.

Lemma section_groups_reconstruct all_segments counter :
  Forall2
    (fun seg group =>
       remove_overlap overlap (map chunk_words group) = split (seg_text seg)
       /\ overlap_repeated chunk_size overlap (map chunk_words group))
    all_segments
    (section_groups chunk_size overlap filename pdf_path all_segments counter).
Proof.
  revert counter. induction all_segments as [|seg segs IH]; intros counter.
  - constructor.
  - simpl. constructor; [apply section_chunks_reconstruct | apply IH].
Qed.

End Reconstruction.

(** ** The chunking stage *)

Section DegenerateStride.

Variables (chunk_size overlap : Z) (filename pdf_path : pystr).

Lemma chunk_loop_negative all_segments st :
  chunk_size < overlap ->
  chunk_loop chunk_size overlap filename pdf_path all_segments st = Ret st.
Proof.
  intros Hlt. induction all_segments as [|seg segs IH]; [done|].
  simpl. unfold segment_step. rewrite range0_negative by lia. apply IH.
Qed.

Lemma chunk_loop_zero seg all_segments st :
  chunk_size = overlap ->
  chunk_loop chunk_size overlap filename pdf_path (seg :: all_segments) st
  = Raise (Exn ValueError (str "range() arg 3 must not be zero")).
Proof.
  intros ->. simpl. unfold segment_step. by rewrite Z.sub_diag, range0_zero.
Qed.

End DegenerateStride.

(** [segment_document] reads the two settings and runs the chunking stage
    on the sections of the pages. *)
Lemma segment_document_chunks (chunk_size overlap : Z)
  (pages_data : list page) (filename pdf_path : pystr) :
  segment_document (Config.config_with chunk_size overlap) pages_data
    filename pdf_path
  = chunk_segments chunk_size overlap filename pdf_path
      (segment_pages pages_data).
Proof.
  unfold segment_document. generalize (segment_pages pages_data).
  intros [|seg all_segments]; reflexivity.
Qed.

(** C1, as amended: for every list of sections and every configuration
    of word counts with [0 <= overlap < chunk_size], the chunking stage
    returns, section after section, chunks whose word windows give the
    words of the section back when each window after the first loses its
    leading [overlap] words; these are the words that the window repeats
    from the one before it. *)
Theorem chunk_reconstruction (chunk_size overlap : Z)
  (filename pdf_path : pystr) (all_segments : list segment) :
  0 <= overlap -> overlap < chunk_size -> 0 < chunk_size ->
  exists groups : list (list chunk),
    chunk_segments chunk_size overlap filename pdf_path all_segments
      = Ret (concat groups)
    /\ Forall2
         (fun seg group =>
            remove_overlap overlap (map chunk_words group)
              = split (seg_text seg)
            /\ overlap_repeated chunk_size overlap (map chunk_words group))
         all_segments groups.
Proof.
  intros Hsign Hvalid _.
  exists (section_groups chunk_size overlap filename pdf_path all_segments 0).
  split.
  - apply chunk_segments_positive. lia.
  - apply section_groups_reconstruct. lia.
Qed.

Lemma chunk_reconstruction_witness :
  0 <= 2 /\ 2 < 5 /\ 0 < 5
  /\ exists groups : list (list chunk),
       chunk_segments 5 2 sample_filename sample_path [section_11]
         = Ret (concat groups)
       /\ Forall2
            (fun seg group =>
               remove_overlap 2 (map chunk_words group) = split (seg_text seg)
               /\ overlap_repeated 5 2 (map chunk_words group))
            [section_11] groups.
Proof.
  split; [lia|]. split; [lia|]. split; [lia|].
  apply (chunk_reconstruction 5 2 sample_filename sample_path [section_11]);
    lia.
Defined.

(** C1 as stated fails: the code checks no sign, and a configuration with
    [chunk_size = 3] and [chunk_overlap = -1] meets [overlap < chunk_size]
    and [chunk_size > 0] and passes [_validate_config].  The stride is
    then 4 and the windows have 3 words: of the eleven words of the
    section the fourth and the eighth are in no chunk, and the windows
    do not give the section back. *)
Lemma chunk_reconstruction_counterexample :
  -1 < 3 /\ 0 < 3
  /\ Config._validate_config (Config.YMap (Config.config_with 3 (-1)))
     = Ret tt
  /\ segment_pages [page_ziele] = [section_11]
  /\ exists group : list chunk,
       segment_document (Config.config_with 3 (-1)) [page_ziele]
         sample_filename sample_path = Ret group
       /\ chunk_segments 3 (-1) sample_filename sample_path [section_11]
          = Ret group
       /\ map chunk_text group = [str "a b c"; str "e f g"; str "i j k"]
       /\ split (seg_text section_11)
          = [str "a"; str "b"; str "c"; str "d"; str "e"; str "f"; str "g";
             str "h"; str "i"; str "j"; str "k"]
       /\ remove_overlap (-1) (map chunk_words group)
          = [str "a"; str "b"; str "c"; str "e"; str "f"; str "g";
             str "i"; str "j"; str "k"]
       /\ remove_overlap (-1) (map chunk_words group)
          <> split (seg_text section_11).
Proof.
  split; [lia|]. split; [lia|].
  split; [vm_compute; reflexivity|]. split; [vm_compute; reflexivity|].
  eexists. split; [vm_compute; reflexivity|].
  split; [vm_compute; reflexivity|]. split; [vm_compute; reflexivity|].
  split; [vm_compute; reflexivity|]. split; [vm_compute; reflexivity|].
  intros H. apply (f_equal length) in H. vm_compute in H. discriminate.
Qed.

(** C2, as amended: when [overlap >= chunk_size] the chunking stage
    produces no chunk and ends: it raises [ValueError] at the first section
    when the two are equal, and returns the empty list without an error
    when the overlap is larger or there is no section. *)
Theorem degenerate_stride (chunk_size overlap : Z)
  (filename pdf_path : pystr) (all_segments : list segment) :
  chunk_size <= overlap ->
  (chunk_size = overlap -> all_segments <> [] ->
   chunk_segments chunk_size overlap filename pdf_path all_segments
     = Raise (Exn ValueError (str "range() arg 3 must not be zero")))
  /\ (chunk_size < overlap \/ all_segments = [] ->
      chunk_segments chunk_size overlap filename pdf_path all_segments
        = Ret []).
Proof.
  intros Hle. split.
  - intros Heq Hne. destruct all_segments as [|seg segs]; [done|].
    unfold chunk_segments. by rewrite chunk_loop_zero.
  - intros [Hlt| ->]; [|done].
    unfold chunk_segments. by rewrite chunk_loop_negative.
Qed.

Lemma degenerate_stride_witness :
  5 <= 5
  /\ chunk_segments 5 5 sample_filename sample_path [section_11]
       = Raise (Exn ValueError (str "range() arg 3 must not be zero")).
Proof.
  split; [lia|].
  apply (degenerate_stride 5 5 sample_filename sample_path [section_11]);
    [lia | reflexivity | discriminate].
Defined.

(** C2 as stated fails: a configuration with [chunk_size = 5] and
    [chunk_overlap = 10] passes [_validate_config], and [segment_document]
    returns no chunk and no error for a page with a section. *)
Lemma degenerate_stride_counterexample :
  10 >= 5
  /\ Config._validate_config (Config.YMap (Config.config_with 5 10)) = Ret tt
  /\ segment_pages [page_ziele] = [section_11]
  /\ segment_document (Config.config_with 5 10) [page_ziele]
       sample_filename sample_path = Ret [].
Proof.
  split; [lia|]. repeat split; vm_compute; reflexivity.
Qed.

Lemma chunk_segments_90_40 (filename pdf_path : pystr) (seg1 seg2 : segment) :
  length (split (seg_text seg1)) = 90%nat ->
  length (split (seg_text seg2)) = 40%nat ->
  chunk_segments 50 10 filename pdf_path [seg1; seg2]
  = Ret [Chunk (join (take 50 (split (seg_text seg1))))
           (Metadata (seg_title seg1) filename (seg_page_number seg1) 1
              pdf_path);
         Chunk (join (take 50 (drop 40 (split (seg_text seg1)))))
           (Metadata (seg_title seg1) filename (seg_page_number seg1) 2
              pdf_path);
         Chunk (join (drop 80 (split (seg_text seg1))))
           (Metadata (seg_title seg1) filename (seg_page_number seg1) 3
              pdf_path);
         Chunk (join (split (seg_text seg2)))
           (Metadata (seg_title seg2) filename (seg_page_number seg2) 4
              pdf_path)].
Proof.
  intros H1 H2.
  rewrite chunk_segments_positive by lia.
  simpl section_groups. unfold section_chunks, window_starts.
  rewrite H1, H2.
  change (range_count (Z.of_nat 90) (50 - 10)) with 3%nat.
  change (range_count (Z.of_nat 40) (50 - 10)) with 1%nat.
  simpl.
  change (Z.of_nat 0 * (50 - 10)) with 0.
  change (Z.of_nat 1 * (50 - 10)) with 40.
  change (Z.of_nat 2 * (50 - 10)) with 80.
  rewrite !slice_from by lia.
  change (Z.to_nat 0) with 0%nat. change (Z.to_nat 40) with 40%nat.
  change (Z.to_nat 50) with 50%nat. change (Z.to_nat 80) with 80%nat.
  rewrite !drop_0.
  rewrite (take_ge (drop 80 (split (seg_text seg1))))
    by (rewrite length_drop; lia).
  rewrite (take_ge (split (seg_text seg2))) by lia.
  reflexivity.
Qed.

(** C3, as amended: for two sections of 90 and 40 words, [chunk_size = 50]
    and [overlap = 10], the chunking stage emits three chunks from the
    first section (words 0-49, 40-89 and 80-89) and one from the second,
    with the [chunk_index] values 1, 2, 3, 4. *)
Theorem scenario_A (filename pdf_path : pystr) (seg1 seg2 : segment) :
  length (split (seg_text seg1)) = 90%nat ->
  length (split (seg_text seg2)) = 40%nat ->
  let words1 := split (seg_text seg1) in
  let words2 := split (seg_text seg2) in
  chunk_segments 50 10 filename pdf_path [seg1; seg2]
  = Ret [Chunk (join (take 50 words1))
           (Metadata (seg_title seg1) filename (seg_page_number seg1) 1
              pdf_path);
         Chunk (join (take 50 (drop 40 words1)))
           (Metadata (seg_title seg1) filename (seg_page_number seg1) 2
              pdf_path);
         Chunk (join (drop 80 words1))
           (Metadata (seg_title seg1) filename (seg_page_number seg1) 3
              pdf_path);
         Chunk (join words2)
           (Metadata (seg_title seg2) filename (seg_page_number seg2) 4
              pdf_path)].
Proof. intros H1 H2. by apply chunk_segments_90_40. Qed.

Lemma scenario_A_witness :
  length (split (seg_text section_90)) = 90%nat
  /\ length (split (seg_text section_40)) = 40%nat
  /\ exists c1 c2 c3 c4,
       chunk_segments 50 10 sample_filename sample_path
         [section_90; section_40] = Ret [c1; c2; c3; c4]
       /\ map (fun c => md_chunk_index (chunk_metadata c)) [c1; c2; c3; c4]
            = [1; 2; 3; 4].
Proof.
  split; [vm_compute; reflexivity|]. split; [vm_compute; reflexivity|].
  do 4 eexists. split.
  - apply (scenario_A sample_filename sample_path section_90 section_40);
      vm_compute; reflexivity.
  - reflexivity.
Defined.

(** C3 as stated fails: the two sections of 90 and 40 words do not give
    three chunks. *)
Lemma scenario_A_counterexample :
  length (split (seg_text section_90)) = 90%nat
  /\ length (split (seg_text section_40)) = 40%nat
  /\ seg_page_number section_90 = seg_page_number section_40
  /\ ~ exists c1 c2 c3,
         chunk_segments 50 10 sample_filename sample_path
           [section_90; section_40] = Ret [c1; c2; c3].
Proof.
  split; [vm_compute; reflexivity|]. split; [vm_compute; reflexivity|].
  split; [reflexivity|].
  intros (c1 & c2 & c3 & H).
  rewrite (chunk_segments_90_40 sample_filename sample_path section_90
             section_40) in H by (vm_compute; reflexivity).
  discriminate H.
Qed.

(** ** Normalisation *)

(** C8: [clean_text] is idempotent; its result is the words of the input
    (the maximal runs of characters that are not whitespace, newlines
    being whitespace) separated by single spaces, with nothing before the
    first word and after the last.  It is a total function. *)
Theorem clean_text_idempotent (text : pystr) :
  clean_text (clean_text text) = clean_text text
  /\ clean_text text = join (split text)
  /\ Forall word (split text).
Proof.
  split; [|split].
  - rewrite !clean_text_join_split. by rewrite split_join by apply split_words.
  - apply clean_text_join_split.
  - apply split_words.
Qed.

(** ** Sections and their titles *)

Section Headings.

Lemma match_to_colon_spec text m :
  match_to_colon text = Some m -> (1 <= m)%nat /\ (COLON ∈ text).
Proof.
  revert m. induction text as [|c text IH]; intros m; simpl; [done|].
  destruct (N.eqb_spec c COLON) as [->|Hne].
  - intros [= <-]. split; [lia|]. apply elem_of_cons. by left.
  - destruct (match_to_colon text) as [m'|]; [|done].
    simpl. intros [= <-]. destruct (IH m' eq_refl) as [_ Hin].
    split; [lia|]. apply elem_of_cons. by right.
Qed.

Lemma match_keyword_spec kw text n :
  Forall (fun p => literal_ignorecase p COLON = false) kw ->
  match_keyword kw text = Some n ->
  n = length kw /\ (COLON ∉ take n text).
Proof.
  intros Hkw. revert text n.
  induction Hkw as [|p kw Hp Hkw IH]; intros text n; simpl.
  - intros [= <-]. split; [done|]. rewrite take_0. by intros ?%elem_of_nil.
  - destruct text as [|c text]; [done|].
    destruct (literal_ignorecase p c) eqn:Hpc; [|done].
    destruct (match_keyword kw text) as [n'|] eqn:Hm; [|done].
    simpl. intros [= <-]. destruct (IH text n' Hm) as [-> Hnin].
    split; [done|]. simpl. apply not_elem_of_cons. split; [|done].
    intros <-. congruence.
Qed.

Lemma keywords_plain : Forall plain_keyword keywords.
Proof.
  unfold keywords.
  repeat (apply Forall_cons; split;
          [split; [vm_compute; lia | repeat constructor]|]).
  apply Forall_nil_2.
Qed.

Lemma match_alternatives_spec kws text group n :
  Forall plain_keyword kws ->
  match_alternatives kws text = Some (group, n) ->
  (1 <= n)%nat /\ (COLON ∈ text) /\ (COLON ∉ group)
  /\ (length group <= 20)%nat.
Proof.
  induction 1 as [|kw kws [Hlen Hkw] Hkws IH]; simpl; [done|].
  destruct (match_keyword kw text) as [n1|] eqn:Hm; [|done].
  destruct (match_to_colon (drop n1 text)) as [m|] eqn:Hc; [|done].
  intros [= <- <-].
  destruct (match_keyword_spec kw text n1 Hkw Hm) as [-> Hnin].
  destruct (match_to_colon_spec _ _ Hc) as [Hm1 Hin].
  split; [lia|]. split; [|split; [done|]].
  - rewrite <- (take_drop (length kw) text). apply elem_of_app. by right.
  - rewrite length_take. lia.
Qed.

Lemma match_section_spec text group n :
  match_section text = Some (group, n) ->
  (1 <= n)%nat /\ (COLON ∈ text) /\ (COLON ∉ group)
  /\ (length group <= 20)%nat.
Proof.
  revert group n.
  induction text as [|c text IH]; intros group n; cbn [match_section].
  - apply match_alternatives_spec, keywords_plain.
  - destruct (isspace c).
    + destruct (match_section text) as [[g m]|] eqn:Hm.
      * intros [= <- <-]. destruct (IH g m eq_refl) as (? & ? & ? & ?).
        split; [lia|]. split; [|done]. apply elem_of_cons. by right.
      * apply match_alternatives_spec, keywords_plain.
    + apply match_alternatives_spec, keywords_plain.
Qed.

Lemma re_match_colon part : re_match part = true -> COLON ∈ part.
Proof.
  unfold re_match. destruct (match_section part) as [[g n]|] eqn:Hm; [|done].
  intros _. by destruct (match_section_spec _ _ _ Hm) as (_ & ? & _).
Qed.

(** A text of [n] characters has at most [(n + 1) / 2] words. *)
Lemma split_aux_length text :
  (2 * length (snd (split_aux text)) + length (fst (split_aux text))
   <= length text)%nat.
Proof.
  induction text as [|c text IH]; simpl; [done|].
  destruct (split_aux text) as [w ws]; simpl in *.
  destruct (isspace c); simpl; [|lia].
  destruct w; simpl in *; lia.
Qed.

Lemma split_length text : (2 * length (split text) <= length text + 1)%nat.
Proof.
  unfold split. pose proof (split_aux_length text) as H.
  destruct (split_aux text) as [w ws]; simpl in *.
  destruct w; simpl in *; lia.
Qed.

Lemma enough_words_clean_text text :
  enough_words (clean_text text) = enough_words text.
Proof.
  unfold enough_words.
  by rewrite clean_text_join_split, split_join by apply split_words.
Qed.

(** The text of group 1 is neither a heading nor a section. *)
Lemma part_step_group page_num st text group n :
  match_section text = Some (group, n) ->
  part_step page_num st group = st.
Proof.
  intros Hm. destruct (match_section_spec _ _ _ Hm) as (_ & _ & Hnin & Hlen).
  destruct st as [current_title all_segments]. unfold part_step.
  destruct (re_match group) eqn:Hre.
  - by apply re_match_colon in Hre.
  - rewrite enough_words_clean_text. unfold enough_words.
    pose proof (split_length group) as Hw.
    destruct (Nat.ltb_spec 10 (length (split group))) as [?|_]; [lia|done].
Qed.

Lemma join_no_newline ws : Forall word ws -> no_newline (join ws).
Proof.
  assert (Hw : forall w, nonspace w -> no_newline w).
  { intros w Hns. eapply Forall_impl; [exact Hns|]. intros c Hc. simpl.
    destruct (N.eqb_spec c NEWLINE) as [->|]; done. }
  induction 1 as [|w ws [_ Hns] Hws IH]; [constructor|].
  rewrite join_cons. unfold glue. apply Forall_app. split; [by apply Hw|].
  destruct ws; [constructor|]. constructor; done.
Qed.

Lemma clean_text_no_newline text : no_newline (clean_text text).
Proof. rewrite clean_text_join_split. apply join_no_newline, split_words. Qed.

Lemma split_scan_cons bol skip piece c rest :
  split_scan bol skip piece (c :: rest)
  = match skip with
    | S k => split_scan (c =? NEWLINE)%N k piece rest
    | O =>
        match (if bol then match_section (c :: rest) else None) with
        | Some (group, n) =>
            rev piece :: group
              :: split_scan (c =? NEWLINE)%N (pred n) [] rest
        | None => split_scan (c =? NEWLINE)%N O (c :: piece) rest
        end
    end.
Proof. reflexivity. Qed.

Lemma match_section_nil : match_section [] = None.
Proof. vm_compute. reflexivity. Qed.

Lemma split_scan_no_newline text skip piece :
  no_newline text ->
  split_scan false skip piece text = [rev piece ++ drop skip text].
Proof.
  intros Hnl. revert skip piece.
  induction Hnl as [|c text Hc Hnl IH]; intros skip piece.
  - cbn [split_scan]. by rewrite drop_nil, app_nil_r.
  - rewrite split_scan_cons, Hc. destruct skip as [|k].
    + rewrite IH. cbn [rev drop]. by rewrite <- app_assoc.
    + by rewrite IH.
Qed.

(** In a text without newlines the pattern can match only at the start:
    [re.split] gives the text itself, or the empty piece before the match,
    group 1 and the rest. *)
Lemma re_split_no_newline text :
  no_newline text ->
  re_split text
  = match match_section text with
    | Some (group, n) => [[]; group; drop n text]
    | None => [text]
    end.
Proof.
  unfold re_split. destruct 1 as [|c text Hc Hnl].
  - by rewrite match_section_nil.
  - rewrite split_scan_cons, Hc.
    destruct (match_section (c :: text)) as [[group n]|] eqn:Hm.
    + destruct (match_section_spec _ _ _ Hm) as (Hn & _).
      rewrite split_scan_no_newline by done.
      destruct n as [|n]; [lia|]. reflexivity.
    + by rewrite split_scan_no_newline.
Qed.

Lemma part_step_nil page_num st : part_step page_num st [] = st.
Proof.
  destruct st as [current_title all_segments]. unfold part_step, re_match.
  by rewrite match_section_nil.
Qed.

(** A page adds at most one section, and its title is one of the two
    fixed titles. *)
Lemma page_step_spec all_segments page_data :
  page_step all_segments page_data = all_segments
  \/ exists title text,
       page_step all_segments page_data
         = all_segments ++ [Segment title text (page_number page_data)]
       /\ (title = str "Gesamtdokument" \/ title = str "Abschnitt").
Proof.
  unfold page_step.
  rewrite re_split_no_newline by apply clean_text_no_newline.
  destruct (match_section (clean_text (page_text page_data)))
    as [[group n]|] eqn:Hm.
  - change (length [[]; group; _] <? 2)%nat with false. cbv iota.
    cbn [fold_left].
    rewrite part_step_nil, (part_step_group _ _ _ _ _ Hm).
    unfold part_step. destruct (re_match _); [by left|].
    destruct (enough_words _); [|by left].
    right. do 2 eexists. split; [reflexivity|]. by right.
  - change (length [clean_text (page_text page_data)] <? 2)%nat with true.
    cbv iota. destruct (enough_words _); [|by left].
    right. do 2 eexists. split; [reflexivity|]. by left.
Qed.

Lemma segment_pages_titles pages_data all_segments :
  Forall (fun seg => seg_title seg = str "Gesamtdokument"
                     \/ seg_title seg = str "Abschnitt") all_segments ->
  Forall (fun seg => seg_title seg = str "Gesamtdokument"
                     \/ seg_title seg = str "Abschnitt")
    (fold_left page_step pages_data all_segments).
Proof.
  revert all_segments.
  induction pages_data as [|page_data pages_data IH]; intros segs Hsegs;
    [done|].
  simpl. apply IH.
  destruct (page_step_spec segs page_data)
    as [-> | (title & text & -> & Htitle)]; [done|].
  apply Forall_app. split; [done|]. by constructor.
Qed.

End Headings.

(** C4, which the code does not meet: a section after a heading should
    carry the heading as its title.  On a page that starts with the heading
    [Ziele:],
    [re.split] returns the text of group 1 ([Ziele], without the colon),
    which [re.match] does not recognise as a heading, and the section after
    the heading gets the title [Abschnitt].  No section ever gets a heading
    as its title: every title is [Gesamtdokument] or [Abschnitt]. *)
Theorem heading_not_inherited :
  re_split (clean_text (page_text page_ziele))
    = [[]; str "Ziele"; str " a b c d e f g h i j k"]
  /\ re_match (str "Ziele") = false
  /\ segment_pages [page_ziele]
       = [Segment (str "Abschnitt") (str "a b c d e f g h i j k") 1]
  /\ forall pages_data seg,
       seg ∈ segment_pages pages_data ->
       seg_title seg = str "Gesamtdokument"
       \/ seg_title seg = str "Abschnitt".
Proof.
  split; [vm_compute; reflexivity|].
  split; [vm_compute; reflexivity|].
  split; [vm_compute; reflexivity|].
  intros pages_data seg Hin.
  pose proof (segment_pages_titles pages_data [] (Forall_nil_2 _)) as Hall.
  rewrite Forall_forall in Hall. by apply Hall.
Qed.

(** ** Retrieval *)

Import RAGEngine.

Lemma Ret_inj {A : Type} (a b : A) : Ret a = Ret b -> a = b.
Proof. by intros [= ->]. Qed.

Section Retrieval.

Context {float : Type} (self : engine float).
Variables (query_text : pystr) (n_results : Z).

Lemma retrieve_documents_returns :
  exists docs metas,
    retrieve_documents self query_text n_results = Ret (docs, metas).
Proof.
  unfold retrieve_documents.
  destruct (retrieve_body self query_text n_results) as [[docs metas]|e];
    simpl; eauto.
Qed.

Lemma retrieve_documents_caught e :
  retrieve_body self query_text n_results = Raise e ->
  retrieve_documents self query_text n_results = Ret ([], []).
Proof. unfold retrieve_documents. by intros ->. Qed.

Lemma retrieve_body_degenerate doc :
  nlp self query_text = Ret doc ->
  float_is_zero self (vector_norm doc) = true ->
  retrieve_body self query_text n_results = Ret ([], []).
Proof. unfold retrieve_body. intros -> Hz. simpl. by rewrite Hz. Qed.

Lemma retrieve_body_query doc :
  nlp self query_text = Ret doc ->
  float_is_zero self (vector_norm doc) = false ->
  retrieve_body self query_text n_results
  = (results ← collection_query self [vector doc] n_results;
     docs ← getitem (str "documents") (documents results);
     if falsy docs
     then Ret ([], [])
     else
       docs ← getitem (str "documents") (documents results);
       docs0 ← first_item docs;
       if falsy (Some docs0)
       then Ret ([], [])
       else
         docs ← getitem (str "documents") (documents results);
         documents ← first_item docs;
         metas ← getitem (str "metadatas") (metadatas results);
         metadatas ← first_item metas;
         Ret (documents, metadatas)).
Proof. unfold retrieve_body. intros -> Hz. simpl. by rewrite Hz. Qed.

Lemma retrieve_documents_no_match doc results :
  nlp self query_text = Ret doc ->
  float_is_zero self (vector_norm doc) = false ->
  collection_query self [vector doc] n_results = Ret results ->
  no_match results ->
  retrieve_documents self query_text n_results = Ret ([], []).
Proof.
  intros Hdoc Hz Hq Hno. unfold retrieve_documents.
  rewrite (retrieve_body_query doc Hdoc Hz), Hq. simpl.
  destruct Hno as [-> | [-> | [dss ->]]]; done.
Qed.

Lemma retrieve_documents_malformed doc results :
  nlp self query_text = Ret doc ->
  float_is_zero self (vector_norm doc) = false ->
  collection_query self [vector doc] n_results = Ret results ->
  malformed results ->
  retrieve_documents self query_text n_results = Ret ([], []).
Proof.
  intros Hdoc Hz Hq Hbad. unfold retrieve_documents.
  rewrite (retrieve_body_query doc Hdoc Hz), Hq. simpl.
  destruct Hbad as [-> | (d & ds & dss & -> & [-> | [-> | ->]])]; done.
Qed.

Lemma process_query_no_documents metas :
  retrieve_documents self query_text n_results = Ret ([], metas) ->
  process_query self query_text n_results
  = Ret (list_to_map
           [(str "answer", RStr no_documents);
            (str "sources", RSources []);
            (str "query", RStr query_text);
            (str "success", RBool false)]).
Proof. unfold process_query. by intros ->. Qed.

Lemma process_query_documents doc docs metas :
  retrieve_documents self query_text n_results = Ret (doc :: docs, metas) ->
  process_query self query_text n_results
  = (answer ← _query_ollama self
                (generate_prompt query_text (doc :: docs) metas);
     Ret (list_to_map
            [(str "answer", answer);
             (str "sources", RSources (collect_sources metas));
             (str "query", RStr query_text);
             (str "success", RBool true);
             (str "context_count",
              RInt (Z.of_nat (length (doc :: docs))))])).
Proof. unfold process_query. by intros ->. Qed.

End Retrieval.

Section Generation.

Context {float : Type} (self : engine float).
Variable prompt : pystr.

(** With both keys in the section, [_query_ollama] is the [try] block on
    the address and the payload built from them. *)
Lemma query_ollama_configured (base : pystr) (model_name : setting float) :
  base_url (ollama_cfg self) = Ret base ->
  model (ollama_cfg self) = Ret model_name ->
  _query_ollama self prompt
  = try_except
      (ollama_request self (base ++ str "/api/generate")
         (Payload model_name prompt false
            (default (SFloat (float_0_1 self))
               (temperature (ollama_cfg self)))
            (default (SLoaded (Config.YInt 2048))
               (max_tokens (ollama_cfg self)))))
      query_failed.
Proof. unfold _query_ollama. intros -> ->. reflexivity. Qed.

Lemma query_ollama_no_base_url (e : exn) :
  base_url (ollama_cfg self) = Raise e ->
  _query_ollama self prompt = Raise e.
Proof. unfold _query_ollama. intros ->. reflexivity. Qed.

Lemma query_ollama_no_model (base : pystr) (e : exn) :
  base_url (ollama_cfg self) = Ret base ->
  model (ollama_cfg self) = Raise e ->
  _query_ollama self prompt = Raise e.
Proof. unfold _query_ollama. intros -> ->. reflexivity. Qed.

Lemma query_failed_string (e : exn) :
  exists text, query_failed e = Ret (RStr text).
Proof.
  unfold query_failed. destruct (is_ConnectionError e); [eauto|].
  destruct (is_Timeout e); eauto.
Qed.

Lemma query_ollama_returns (base : pystr) (model_name : setting float) :
  base_url (ollama_cfg self) = Ret base ->
  model (ollama_cfg self) = Ret model_name ->
  exists answer, _query_ollama self prompt = Ret answer.
Proof.
  intros Hbase Hmodel.
  rewrite (query_ollama_configured base model_name Hbase Hmodel).
  destruct (ollama_request self _ _) as [answer|e]; cbn [try_except];
    [eauto|].
  destruct (query_failed_string e) as [text ->]. eauto.
Qed.

Lemma query_ollama_caught (base : pystr) (model_name : setting float)
  (e : exn) :
  base_url (ollama_cfg self) = Ret base ->
  model (ollama_cfg self) = Ret model_name ->
  ollama_request self (base ++ str "/api/generate")
    (Payload model_name prompt false
       (default (SFloat (float_0_1 self))
          (temperature (ollama_cfg self)))
       (default (SLoaded (Config.YInt 2048))
          (max_tokens (ollama_cfg self)))) = Raise e ->
  _query_ollama self prompt = query_failed e.
Proof.
  intros Hbase Hmodel He.
  rewrite (query_ollama_configured base model_name Hbase Hmodel), He.
  reflexivity.
Qed.

Lemma ollama_request_fails (url : pystr) (body : payload float)
  (e : exn) :
  request_fails self url body e <-> ollama_request self url body = Raise e.
Proof.
  unfold request_fails, ollama_request.
  destruct (requests_post self url body 60) as [posted|e0] eqn:Hpost;
    cbv beta iota delta [mbind outcome_bind bind].
  2: { split; [intros [[= <-]|(p' & ? & _)]; done|].
       intros [= <-]. by left. }
  destruct (raise_for_status posted) as [[]|e1] eqn:Hstatus;
    cbv beta iota delta [mbind outcome_bind bind].
  2: { split.
       - intros [?|(p' & [= <-] & [H|(H & _)])]; congruence.
       - intros [= <-]. right. exists posted. split; [done|]. by left. }
  destruct (json posted) as [[fields|type_name]|e2] eqn:Hjson;
    cbv beta iota delta [mbind outcome_bind bind get_response].
  - split; [|done].
    intros [?|(p' & [= <-] & [H|(_ & [H|(t & H & _)])])]; congruence.
  - split.
    + intros [?|(p' & [= <-] & [H|(_ & [H|(t & H & ->)])])];
        congruence.
    + intros [= <-]. right. exists posted. split; [done|].
      right. split; [done|]. right. by exists type_name.
  - split.
    + intros [?|(p' & [= <-] & [H|(_ & [H|(t & H & _)])])]; congruence.
    + intros [= <-]. right. exists posted. split; [done|].
      right. split; [done|]. by left.
Qed.

Lemma ollama_request_answer (url : pystr) (body : payload float)
  (posted : response) (fields : gmap pystr result_value) :
  requests_post self url body 60 = Ret posted ->
  raise_for_status posted = Ret tt ->
  json posted = Ret (JsonObject fields) ->
  ollama_request self url body
  = Ret (default (RStr (str "Keine Antwort erhalten."))
           (fields !! str "response")).
Proof.
  unfold ollama_request. intros -> Hstatus Hjson.
  cbv beta iota delta [mbind outcome_bind bind]. rewrite Hstatus.
  cbv beta iota delta [mbind outcome_bind bind]. rewrite Hjson.
  reflexivity.
Qed.

(** What the [try] block returns is a string, or the value that the
    backend sent under [response]. *)
Lemma ollama_request_value (url : pystr) (body : payload float)
  (answer : result_value) :
  ollama_request self url body = Ret answer ->
  (exists text, answer = RStr text)
  \/ exists posted fields,
       requests_post self url body 60 = Ret posted
       /\ raise_for_status posted = Ret tt
       /\ json posted = Ret (JsonObject fields)
       /\ fields !! str "response" = Some answer.
Proof.
  unfold ollama_request.
  destruct (requests_post self url body 60) as [posted|e] eqn:Hpost;
    [|done].
  cbv beta iota delta [mbind outcome_bind bind].
  destruct (raise_for_status posted) as [[]|e] eqn:Hstatus; [|done].
  cbv beta iota delta [mbind outcome_bind bind].
  destruct (json posted) as [[fields|type_name]|e] eqn:Hjson; [|done|done].
  cbv beta iota delta [mbind outcome_bind bind get_response].
  destruct (fields !! str "response") as [value|] eqn:Hfield.
  - intros [= <-]. right. by exists posted, fields.
  - intros [= <-]. left. by eexists.
Qed.

End Generation.

(** ** The query pipeline *)

(** C5: when the embedding of the query is degenerate, [retrieve_documents]
    returns two empty sequences and [process_query] returns a result with
    [success] false, no sources and the fixed message; a store without a
    matching record gives the same two empty sequences. *)
Theorem degenerate_query_short_circuit {float : Type} (self : engine float)
  (query_text : pystr) (n_results : Z) (query_doc : Doc float) :
  nlp self query_text = Ret query_doc ->
  (float_is_zero self (vector_norm query_doc) = true ->
   retrieve_documents self query_text n_results = Ret ([], [])
   /\ exists result,
        process_query self query_text n_results = Ret result
        /\ result !! str "success" = Some (RBool false)
        /\ result !! str "sources" = Some (RSources [])
        /\ result !! str "answer" = Some (RStr no_documents))
  /\ (forall results,
        float_is_zero self (vector_norm query_doc) = false ->
        collection_query self [vector query_doc] n_results = Ret results ->
        no_match results ->
        retrieve_documents self query_text n_results = Ret ([], [])).
Proof.
  intros Hdoc. split.
  - intros Hz.
    assert (Hret : retrieve_documents self query_text n_results
                   = Ret ([], [])).
    { unfold retrieve_documents.
      by rewrite (retrieve_body_degenerate self _ _ _ Hdoc Hz). }
    split; [done|].
    eexists. split; [by apply (process_query_no_documents self _ _ [])|].
    repeat split; reflexivity.
  - intros results Hz Hq Hno.
    by apply (retrieve_documents_no_match self _ _ query_doc results).
Qed.

Lemma degenerate_query_short_circuit_witness :
  nlp (sample_engine (Ret doc_zero) (Ret results_hit) (Ret response_ok))
    sample_query = Ret doc_zero
  /\ retrieve_documents
       (sample_engine (Ret doc_zero) (Ret results_hit) (Ret response_ok))
       sample_query 5 = Ret ([], [])
  /\ retrieve_documents
       (sample_engine (Ret doc_unit) (Ret results_empty) (Ret response_ok))
       sample_query 5 = Ret ([], []).
Proof.
  split; [reflexivity|]. split.
  - destruct (degenerate_query_short_circuit
                (sample_engine (Ret doc_zero) (Ret results_hit)
                   (Ret response_ok))
                sample_query 5 doc_zero eq_refl) as (H & _).
    exact (proj1 (H eq_refl)).
  - destruct (degenerate_query_short_circuit
                (sample_engine (Ret doc_unit) (Ret results_empty)
                   (Ret response_ok))
                sample_query 5 doc_unit eq_refl) as (_ & H).
    refine (H results_empty eq_refl eq_refl _).
    right. right. by exists [].
Defined.

(** C6, as amended: when the section [ollama] of the configuration holds
    [base_url] and [model], [_query_ollama] raises nothing.  It returns
    what the backend sent under [response] (the text [Keine Antwort
    erhalten.] without such a field), the fixed connection-failure string
    when the request raises a [ConnectionError], a [ConnectTimeout]
    included, the timeout string for a [Timeout] that is no
    [ConnectionError], and for every other failure of the request, of
    its status check or of the decoding of the answer the text [Fehler bei
    der Anfrage: ] followed by the message of the exception.  What it
    returns is a string unless the backend sent another value under
    [response].  When retrieval found documents and the backend refuses
    the connection, [process_query] returns a result with [success] true
    and the connection-failure string as the answer.  Without [base_url]
    or [model] in the section the exception of the lookup leaves
    [_query_ollama]. *)
Theorem generation_always_answers {float : Type} (self : engine float)
  (prompt : pystr) :
  (forall (base : pystr) (model_name : setting float),
     base_url (ollama_cfg self) = Ret base ->
     model (ollama_cfg self) = Ret model_name ->
     let url := base ++ str "/api/generate" in
     let body :=
       Payload model_name prompt false
         (default (SFloat (float_0_1 self))
            (temperature (ollama_cfg self)))
         (default (SLoaded (Config.YInt 2048))
            (max_tokens (ollama_cfg self))) in
     (exists answer, _query_ollama self prompt = Ret answer)
     /\ (forall posted fields,
           requests_post self url body 60 = Ret posted ->
           raise_for_status posted = Ret tt ->
           json posted = Ret (JsonObject fields) ->
           _query_ollama self prompt
           = Ret (default (RStr (str "Keine Antwort erhalten."))
                    (fields !! str "response")))
     /\ (forall e,
           request_fails self url body e ->
           is_ConnectionError e = true ->
           _query_ollama self prompt
           = Ret (RStr (str "Fehler: Verbindung zu Ollama fehlgeschlagen. Stellen Sie sicher, dass Ollama läuft.")))
     /\ (forall e,
           request_fails self url body e ->
           exn_class_of e = ConnectTimeout ->
           _query_ollama self prompt
           = Ret (RStr (str "Fehler: Verbindung zu Ollama fehlgeschlagen. Stellen Sie sicher, dass Ollama läuft.")))
     /\ (forall e,
           request_fails self url body e ->
           is_ConnectionError e = false -> is_Timeout e = true ->
           _query_ollama self prompt
           = Ret (RStr (str "Fehler: Zeitüberschreitung bei der Anfrage an Ollama.")))
     /\ (forall e,
           request_fails self url body e ->
           is_ConnectionError e = false -> is_Timeout e = false ->
           _query_ollama self prompt
           = Ret (RStr (str "Fehler bei der Anfrage: " ++ exn_str e)))
     /\ (forall answer,
           _query_ollama self prompt = Ret answer ->
           (exists text, answer = RStr text)
           \/ exists posted fields,
                requests_post self url body 60 = Ret posted
                /\ raise_for_status posted = Ret tt
                /\ json posted = Ret (JsonObject fields)
                /\ fields !! str "response" = Some answer)
     /\ (forall query_text n_results docs metas e,
           prompt = generate_prompt query_text docs metas ->
           retrieve_documents self query_text n_results = Ret (docs, metas) ->
           docs <> [] ->
           requests_post self url body 60 = Raise e ->
           is_ConnectionError e = true ->
           exists result,
             process_query self query_text n_results = Ret result
             /\ result !! str "success" = Some (RBool true)
             /\ result !! str "answer"
                = Some (RStr (str "Fehler: Verbindung zu Ollama fehlgeschlagen. Stellen Sie sicher, dass Ollama läuft."))))
  /\ str "Fehler: Zeitüberschreitung bei der Anfrage an Ollama."
     <> str "Fehler: Verbindung zu Ollama fehlgeschlagen. Stellen Sie sicher, dass Ollama läuft."
  /\ (forall e,
        base_url (ollama_cfg self) = Raise e ->
        _query_ollama self prompt = Raise e)
  /\ (forall base e,
        base_url (ollama_cfg self) = Ret base ->
        model (ollama_cfg self) = Raise e ->
        _query_ollama self prompt = Raise e).
Proof.
  split; [|split; [|split]].
  - intros base model_name Hbase Hmodel url body.
    split; [by apply (query_ollama_returns self prompt base model_name)|].
    split; [|split; [|split; [|split; [|split; [|split]]]]].
    + intros posted fields Hpost Hstatus Hjson.
      rewrite (query_ollama_configured self prompt base model_name Hbase
                 Hmodel).
      fold url body.
      by rewrite (ollama_request_answer self url body posted fields).
    + intros e He Hc.
      rewrite (query_ollama_caught self prompt base model_name e Hbase
                 Hmodel) by by apply ollama_request_fails.
      unfold query_failed. by rewrite Hc.
    + intros e He Hclass.
      rewrite (query_ollama_caught self prompt base model_name e Hbase
                 Hmodel) by by apply ollama_request_fails.
      unfold query_failed, is_ConnectionError. by rewrite Hclass.
    + intros e He Hc Ht.
      rewrite (query_ollama_caught self prompt base model_name e Hbase
                 Hmodel) by by apply ollama_request_fails.
      unfold query_failed. by rewrite Hc, Ht.
    + intros e He Hc Ht.
      rewrite (query_ollama_caught self prompt base model_name e Hbase
                 Hmodel) by by apply ollama_request_fails.
      unfold query_failed. by rewrite Hc, Ht.
    + intros answer.
      rewrite (query_ollama_configured self prompt base model_name Hbase
                 Hmodel).
      fold url body.
      destruct (ollama_request self url body) as [value|e] eqn:Hreq;
        cbn [try_except].
      * intros [= <-]. by apply (ollama_request_value self url body).
      * destruct (query_failed_string e) as [text ->].
        intros [= <-]. left. by exists text.
    + intros query_text n_results docs metas e -> Hret Hne He Hc.
      destruct docs as [|doc docs]; [done|].
      rewrite (process_query_documents self _ _ doc docs metas Hret).
      rewrite (query_ollama_caught self _ base model_name e Hbase Hmodel)
        by (apply ollama_request_fails; by left).
      unfold query_failed. rewrite Hc.
      eexists. split; [reflexivity|]. split; reflexivity.
  - vm_compute. discriminate.
  - apply query_ollama_no_base_url.
  - apply query_ollama_no_model.
Qed.

Lemma generation_always_answers_witness :
  _query_ollama
    (sample_engine (Ret doc_unit) (Ret results_hit) (Raise refused))
    sample_query
  = Ret (RStr (str "Fehler: Verbindung zu Ollama fehlgeschlagen. Stellen Sie sicher, dass Ollama läuft."))
  /\ _query_ollama
       (sample_engine (Ret doc_unit) (Ret results_hit)
          (Raise connect_timeout))
       sample_query
     = Ret (RStr (str "Fehler: Verbindung zu Ollama fehlgeschlagen. Stellen Sie sicher, dass Ollama läuft."))
  /\ _query_ollama
       (sample_engine (Ret doc_unit) (Ret results_hit) (Raise read_timeout))
       sample_query
     = Ret (RStr (str "Fehler: Zeitüberschreitung bei der Anfrage an Ollama."))
  /\ _query_ollama
       (sample_engine (Ret doc_unit) (Ret results_hit) (Ret response_500))
       sample_query
     = Ret (RStr (str "Fehler bei der Anfrage: " ++ exn_str server_error))
  /\ _query_ollama
       (sample_engine (Ret doc_unit) (Ret results_hit) (Ret response_array))
       sample_query
     = Ret (RStr
              (str "Fehler bei der Anfrage: "
                 ++ exn_str
                      (Exn AttributeError
                         (str "'" ++ str "list"
                            ++ str "' object has no attribute 'get'"))))
  /\ _query_ollama
       (unconfigured_engine (Ret doc_unit) (Ret results_hit)
          (Ret response_ok))
       sample_query
     = Raise (Exn KeyError (str "base_url"))
  /\ exists result,
       process_query
         (sample_engine (Ret doc_unit) (Ret results_hit) (Raise refused))
         sample_query 5 = Ret result
       /\ result !! str "success" = Some (RBool true)
       /\ result !! str "answer"
          = Some (RStr (str "Fehler: Verbindung zu Ollama fehlgeschlagen. Stellen Sie sicher, dass Ollama läuft.")).
Proof.
  split; [|split; [|split; [|split; [|split; [|split]]]]].
  - destruct (generation_always_answers
                (sample_engine (Ret doc_unit) (Ret results_hit)
                   (Raise refused))
                sample_query) as (H & _).
    destruct (H _ _ eq_refl eq_refl) as (_ & _ & Hc & _).
    exact (Hc refused (or_introl eq_refl) eq_refl).
  - destruct (generation_always_answers
                (sample_engine (Ret doc_unit) (Ret results_hit)
                   (Raise connect_timeout))
                sample_query) as (H & _).
    destruct (H _ _ eq_refl eq_refl) as (_ & _ & _ & Hc & _).
    exact (Hc connect_timeout (or_introl eq_refl) eq_refl).
  - destruct (generation_always_answers
                (sample_engine (Ret doc_unit) (Ret results_hit)
                   (Raise read_timeout))
                sample_query) as (H & _).
    destruct (H _ _ eq_refl eq_refl) as (_ & _ & _ & _ & Hc & _).
    exact (Hc read_timeout (or_introl eq_refl) eq_refl eq_refl).
  - destruct (generation_always_answers
                (sample_engine (Ret doc_unit) (Ret results_hit)
                   (Ret response_500))
                sample_query) as (H & _).
    destruct (H _ _ eq_refl eq_refl) as (_ & _ & _ & _ & _ & Hc & _).
    refine (Hc server_error _ eq_refl eq_refl).
    right. exists response_500. split; [reflexivity|]. by left.
  - destruct (generation_always_answers
                (sample_engine (Ret doc_unit) (Ret results_hit)
                   (Ret response_array))
                sample_query) as (H & _).
    destruct (H _ _ eq_refl eq_refl) as (_ & _ & _ & _ & _ & Hc & _).
    refine (Hc (Exn AttributeError
                  (str "'" ++ str "list"
                     ++ str "' object has no attribute 'get'"))
              _ eq_refl eq_refl).
    right. exists response_array. split; [reflexivity|].
    right. split; [reflexivity|]. right. exists (str "list").
    split; reflexivity.
  - destruct (generation_always_answers
                (unconfigured_engine (Ret doc_unit) (Ret results_hit)
                   (Ret response_ok))
                sample_query) as (_ & _ & H & _).
    exact (H _ eq_refl).
  - destruct (generation_always_answers
                (sample_engine (Ret doc_unit) (Ret results_hit)
                   (Raise refused))
                (generate_prompt sample_query hit_documents hit_metadatas))
      as (H & _).
    destruct (H _ _ eq_refl eq_refl) as (_ & _ & _ & _ & _ & _ & _ & Hq).
    refine (Hq sample_query 5 hit_documents hit_metadatas refused
              eq_refl eq_refl _ eq_refl eq_refl).
    discriminate.
Defined.

(** C6 as stated fails in two ways.  [_validate_config] accepts a
    configuration whose section [ollama] is empty; the address is built
    before the [try], and the [KeyError] of the lookup of [base_url]
    leaves [_query_ollama] and, when documents were retrieved,
    [process_query].  What [_query_ollama] returns is the value under
    [response], which is no string when the backend sends [null].  And a
    timeout while connecting is a [ConnectionError] as well and gets the
    connection-failure string, not the timeout string. *)
Lemma generation_always_answers_counterexample :
  Config._validate_config (Config.YMap (Config.config_with 500 50)) = Ret tt
  /\ ConfigFile.get_ollama_config (Config.YMap (Config.config_with 500 50))
     = Ret (Config.YMap ∅)
  /\ Config.getitem (Config.YMap ∅) (str "base_url")
     = Raise (Exn KeyError (str "base_url"))
  /\ _query_ollama
       (unconfigured_engine (Ret doc_unit) (Ret results_hit)
          (Ret response_ok))
       sample_query
     = Raise (Exn KeyError (str "base_url"))
  /\ retrieve_documents
       (unconfigured_engine (Ret doc_unit) (Ret results_hit)
          (Ret response_ok))
       sample_query 5
     = Ret (hit_documents, hit_metadatas)
  /\ process_query
       (unconfigured_engine (Ret doc_unit) (Ret results_hit)
          (Ret response_ok))
       sample_query 5
     = Raise (Exn KeyError (str "base_url"))
  /\ _query_ollama
       (sample_engine (Ret doc_unit) (Ret results_hit) (Ret response_null))
       sample_query
     = Ret RNone
  /\ is_Timeout connect_timeout = true
  /\ _query_ollama
       (sample_engine (Ret doc_unit) (Ret results_hit)
          (Raise connect_timeout))
       sample_query
     = Ret (RStr connection_failed).
Proof.
  split; [vm_compute; reflexivity|]. split; [vm_compute; reflexivity|].
  split; [vm_compute; reflexivity|]. split; [reflexivity|].
  split; [reflexivity|]. split; [reflexivity|]. split; [reflexivity|].
  split; reflexivity.
Qed.

(** C10: [retrieve_documents] always returns a pair and raises nothing:
    when the language model fails, when the query of the store fails and
    when the answer of the store cannot be read, it returns the two empty
    sequences, the value that it also returns when nothing is found. *)
Theorem retrieve_documents_total {float : Type} (self : engine float)
  (query_text : pystr) (n_results : Z) :
  (exists docs metas,
     retrieve_documents self query_text n_results = Ret (docs, metas))
  /\ (forall e,
        retrieve_body self query_text n_results = Raise e ->
        retrieve_documents self query_text n_results = Ret ([], []))
  /\ (forall e,
        nlp self query_text = Raise e ->
        retrieve_documents self query_text n_results = Ret ([], []))
  /\ (forall doc e,
        nlp self query_text = Ret doc ->
        float_is_zero self (vector_norm doc) = false ->
        collection_query self [vector doc] n_results = Raise e ->
        retrieve_documents self query_text n_results = Ret ([], []))
  /\ (forall doc results,
        nlp self query_text = Ret doc ->
        float_is_zero self (vector_norm doc) = false ->
        collection_query self [vector doc] n_results = Ret results ->
        malformed results \/ no_match results ->
        retrieve_documents self query_text n_results = Ret ([], [])).
Proof.
  split; [apply retrieve_documents_returns|].
  split; [apply retrieve_documents_caught|].
  split; [|split].
  - intros e He. apply (retrieve_documents_caught self _ _ e).
    unfold retrieve_body. by rewrite He.
  - intros doc e Hdoc Hz He.
    apply (retrieve_documents_caught self _ _ e).
    rewrite (retrieve_body_query self _ _ doc Hdoc Hz). by rewrite He.
  - intros doc results Hdoc Hz Hq [Hbad|Hno].
    + by apply (retrieve_documents_malformed self _ _ doc results).
    + by apply (retrieve_documents_no_match self _ _ doc results).
Qed.

Lemma retrieve_documents_total_witness :
  retrieve_documents
    (sample_engine (Raise (Exn ValueError (str "[E088] Text too long")))
       (Ret results_hit) (Ret response_ok))
    sample_query 5 = Ret ([], [])
  /\ retrieve_documents
       (sample_engine (Ret doc_unit)
          (Raise (Exn OtherException (str "collection not found")))
          (Ret response_ok))
       sample_query 5 = Ret ([], [])
  /\ retrieve_documents
       (sample_engine (Ret doc_unit) (Ret results_no_metadatas)
          (Ret response_ok))
       sample_query 5 = Ret ([], []).
Proof.
  split; [|split].
  - destruct (retrieve_documents_total
                (sample_engine
                   (Raise (Exn ValueError (str "[E088] Text too long")))
                   (Ret results_hit) (Ret response_ok))
                sample_query 5) as (_ & _ & H & _).
    exact (H _ eq_refl).
  - destruct (retrieve_documents_total
                (sample_engine (Ret doc_unit)
                   (Raise (Exn OtherException (str "collection not found")))
                   (Ret response_ok))
                sample_query 5) as (_ & _ & _ & H & _).
    exact (H doc_unit _ eq_refl eq_refl eq_refl).
  - destruct (retrieve_documents_total
                (sample_engine (Ret doc_unit) (Ret results_no_metadatas)
                   (Ret response_ok))
                sample_query 5) as (_ & _ & _ & _ & H).
    refine (H doc_unit results_no_metadatas eq_refl eq_refl eq_refl _).
    left. right. do 3 eexists. split; [reflexivity|]. right. by left.
Defined.

(** ** Sources *)

Section FirstSeen.

Implicit Types (s : source_info) (l : list source_info).

Lemma index_of_lt s l : s ∈ l -> (index_of s l < length l)%nat.
Proof.
  induction l as [|x l IH]; [by intros ?%elem_of_nil|].
  intros Hin. simpl. destruct (decide (x = s)) as [|Hne]; [lia|].
  apply elem_of_cons in Hin as [->|Hin]; [done|]. specialize (IH Hin). lia.
Qed.

Lemma index_of_app_l s l l' : s ∈ l -> index_of s (l ++ l') = index_of s l.
Proof.
  induction l as [|x l IH]; [by intros ?%elem_of_nil|].
  intros Hin. simpl. destruct (decide (x = s)) as [|Hne]; [done|].
  apply elem_of_cons in Hin as [->|Hin]; [done|]. by rewrite IH.
Qed.

Lemma index_of_app_new s l : s ∉ l -> index_of s (l ++ [s]) = length l.
Proof.
  induction l as [|x l IH]; intros Hnin; simpl.
  - by rewrite decide_True.
  - apply not_elem_of_cons in Hnin as [Hne Hnin].
    rewrite decide_False by done. by rewrite IH.
Qed.

Lemma collect_sources_snoc metadatas meta :
  collect_sources (metadatas ++ [meta])
  = source_step (collect_sources metadatas) meta.
Proof. unfold collect_sources. by rewrite fold_left_app. Qed.

Lemma collect_sources_first_seen metadatas :
  NoDup (collect_sources metadatas)
  /\ (forall s,
        s ∈ collect_sources metadatas
        <-> s ∈ map make_source_info metadatas)
  /\ (forall (i j : nat) s t,
        (i < j)%nat ->
        collect_sources metadatas !! i = Some s ->
        collect_sources metadatas !! j = Some t ->
        (index_of s (map make_source_info metadatas)
         < index_of t (map make_source_info metadatas))%nat).
Proof.
  induction metadatas as [|meta metadatas (IHnd & IHin & IHord)]
    using rev_ind.
  - split; [constructor|]. split; [done|]. intros i j s t _ H. done.
  - rewrite collect_sources_snoc, map_app. simpl map.
    set (sources := collect_sources metadatas) in *.
    set (seen := map make_source_info metadatas) in *.
    unfold source_step.
    destruct (decide (make_source_info meta ∈ sources)) as [Hold|Hnew].
    + split; [done|]. split.
      * intros s. rewrite elem_of_app, list_elem_of_singleton, IHin.
        split; [by left|]. intros [?| ->]; [done|]. by apply IHin.
      * intros i j s t Hij Hs Ht.
        rewrite !index_of_app_l
          by (apply IHin; eapply list_elem_of_lookup_2; eassumption).
        by apply (IHord i j).
    + split; [|split].
      * apply NoDup_app. split; [done|]. split; [|apply NoDup_singleton].
        intros s Hs ->%list_elem_of_singleton. done.
      * intros s. rewrite !elem_of_app, IHin. done.
      * intros i j s t Hij Hs Ht.
        assert (Hsi : (i < length sources)%nat).
        { apply lookup_lt_Some in Ht. rewrite length_app in Ht.
          simpl in Ht. lia. }
        rewrite lookup_app_l in Hs by done.
        assert (Hsin : s ∈ seen).
        { apply IHin. eapply list_elem_of_lookup_2. eassumption. }
        rewrite (index_of_app_l s) by done.
        destruct (decide (j < length sources)%nat) as [Hj|Hj].
        -- rewrite lookup_app_l in Ht by done.
           rewrite (index_of_app_l t)
             by (apply IHin; eapply list_elem_of_lookup_2; eassumption).
           by apply (IHord i j).
        -- rewrite lookup_app_r in Ht by lia.
           destruct (j - length sources)%nat; [|done].
           injection Ht as <-.
           rewrite index_of_app_new by (by rewrite <- IHin).
           unfold seen at 2. rewrite length_map.
           pose proof (index_of_lt s seen Hsin) as Hlt.
           unfold seen in Hlt at 2. by rewrite length_map in Hlt.
Qed.

End FirstSeen.

(** C7: the source record of a metadata entry holds the values of its
    keys [filename], [title], [page_number], [chunk_index] and
    [pdf_path], with [Unbekannt], [Unbekannt], [N/A], [N/A] and the empty
    string for a missing key.  The sources of every result that
    [process_query] returns for retrieved documents hold each source
    record of the retrieved metadata once, all five fields compared, in
    the order of the first occurrences; [process_query] returns such a
    result whenever the generation call returns. *)
Theorem sources_deduplicated {float : Type} (self : engine float)
  (query_text : pystr) (n_results : Z) (docs : list pystr)
  (metadatas : list (gmap pystr meta_value)) :
  retrieve_documents self query_text n_results = Ret (docs, metadatas) ->
  docs <> [] ->
  let record (meta : gmap pystr meta_value) :=
    SourceInfo (default (MStr (str "Unbekannt")) (meta !! str "filename"))
      (default (MStr (str "Unbekannt")) (meta !! str "title"))
      (default (MStr (str "N/A")) (meta !! str "page_number"))
      (default (MStr (str "N/A")) (meta !! str "chunk_index"))
      (default (MStr []) (meta !! str "pdf_path")) in
  let seen := map record metadatas in
  (forall result,
     process_query self query_text n_results = Ret result ->
     exists sources,
       result !! str "sources" = Some (RSources sources)
       /\ NoDup sources
       /\ (forall s, s ∈ sources <-> s ∈ seen)
       /\ (forall (i j : nat) s t,
             (i < j)%nat -> sources !! i = Some s -> sources !! j = Some t ->
             (index_of s seen < index_of t seen)%nat))
  /\ (forall answer,
        _query_ollama self (generate_prompt query_text docs metadatas)
          = Ret answer ->
        exists result, process_query self query_text n_results = Ret result).
Proof.
  intros Hret Hne record seen. destruct docs as [|doc docs]; [done|].
  rewrite (process_query_documents self _ _ doc docs metadatas Hret).
  split.
  - intros result.
    destruct (_query_ollama self _) as [answer|e]; [|done].
    intros [= <-]. exists (collect_sources metadatas).
    split; [reflexivity|].
    apply collect_sources_first_seen.
  - intros answer ->. by eexists.
Qed.

Lemma sources_deduplicated_witness :
  retrieve_documents
    (sample_engine (Ret doc_unit) (Ret results_repeated) (Ret response_ok))
    sample_query 5 = Ret (repeated_documents, repeated_metadatas)
  /\ exists result,
       process_query
         (sample_engine (Ret doc_unit) (Ret results_repeated)
            (Ret response_ok))
         sample_query 5 = Ret result.
Proof.
  split; [reflexivity|].
  destruct (sources_deduplicated
              (sample_engine (Ret doc_unit) (Ret results_repeated)
                 (Ret response_ok))
              sample_query 5 repeated_documents repeated_metadatas eq_refl)
    as (_ & H); [discriminate|].
  exact (H (RStr (str "4 Semester.")) eq_refl).
Defined.

Example collect_sources_repeated :
  collect_sources repeated_metadatas
  = [make_source_info meta_dauer; make_source_info meta_ziele].
Proof. vm_compute. reflexivity. Qed.

(** ** The result of a query *)

(** C9, as amended: every result that [process_query] returns has the
    keys [answer], [sources], [query] and [success].  When documents were
    retrieved it has [context_count] as well, five keys in all, and
    [context_count] is the number of the retrieved documents; when none
    was retrieved the result has these four keys only.  [process_query]
    returns a result when nothing was retrieved, and otherwise exactly
    when the generation call returns. *)
Theorem query_result_fields {float : Type} (self : engine float)
  (query_text : pystr) (n_results : Z) (docs : list pystr)
  (metas : list (gmap pystr meta_value)) :
  retrieve_documents self query_text n_results = Ret (docs, metas) ->
  (forall result,
     process_query self query_text n_results = Ret result ->
     (docs = [] ->
      dom result
        = list_to_set (C := gset pystr)
            [str "answer"; str "sources"; str "query"; str "success"])
     /\ (docs <> [] ->
         dom result
           = list_to_set (C := gset pystr)
               [str "answer"; str "sources"; str "query"; str "success";
                str "context_count"]
         /\ result !! str "context_count"
              = Some (RInt (Z.of_nat (length docs)))))
  /\ (docs = [] ->
      exists result, process_query self query_text n_results = Ret result)
  /\ (docs <> [] ->
      forall answer,
        _query_ollama self (generate_prompt query_text docs metas)
          = Ret answer ->
        exists result,
          process_query self query_text n_results = Ret result
          /\ result !! str "answer" = Some answer)
  /\ (docs <> [] ->
      forall e,
        _query_ollama self (generate_prompt query_text docs metas)
          = Raise e ->
        process_query self query_text n_results = Raise e).
Proof.
  intros Hret. destruct docs as [|doc docs].
  - rewrite (process_query_no_documents self _ _ metas Hret).
    split; [|split; [|split]]; try done.
    + intros result <-%Ret_inj. split; [|done].
      intros _. by rewrite dom_list_to_map_L.
    + intros _. by eexists.
  - rewrite (process_query_documents self _ _ doc docs metas Hret).
    split; [|split; [|split]]; try done.
    + intros result.
      destruct (_query_ollama self _) as [answer|e]; [|done].
      intros <-%Ret_inj. split; [done|]. intros _. split; [|reflexivity].
      by rewrite dom_list_to_map_L.
    + intros _ answer ->. eexists. split; reflexivity.
    + by intros _ e ->.
Qed.

Lemma query_result_fields_witness :
  retrieve_documents
    (sample_engine (Ret doc_unit) (Ret results_hit) (Ret response_ok))
    sample_query 5 = Ret (hit_documents, hit_metadatas)
  /\ exists result,
       process_query
         (sample_engine (Ret doc_unit) (Ret results_hit) (Ret response_ok))
         sample_query 5 = Ret result
       /\ result !! str "answer" = Some (RStr (str "4 Semester.")).
Proof.
  split; [reflexivity|].
  destruct (query_result_fields
              (sample_engine (Ret doc_unit) (Ret results_hit)
                 (Ret response_ok))
              sample_query 5 hit_documents hit_metadatas eq_refl)
    as (_ & _ & H & _).
  refine (H _ (RStr (str "4 Semester.")) eq_refl). discriminate.
Defined.

(** C9 as stated fails on the path without documents: the result of a
    query with a degenerate embedding has no [context_count]. *)
Lemma query_result_fields_counterexample :
  exists result,
    process_query
      (sample_engine (Ret doc_zero) (Ret results_hit) (Ret response_ok))
      sample_query 5 = Ret result
    /\ result !! str "success" = Some (RBool false)
    /\ result !! str "context_count" = None.
Proof.
  eexists. split; [reflexivity|]. split; reflexivity.
Qed.

(** * Properties of the further code *)

(** ** The configuration *)

Section Configuration.

Import Config ConfigFile.

Lemma starts_with_spec (needle text : pystr) :
  starts_with needle text = true <-> exists after, text = needle ++ after.
Proof.
  revert text. induction needle as [|p needle IH]; intros text; simpl.
  - split; [intros _; by exists text|done].
  - destruct text as [|c text].
    + split; [done|]. by intros [after H].
    + rewrite andb_true_iff, N.eqb_eq, IH. split.
      * intros [-> [after ->]]. by exists after.
      * intros [after [= -> ->]]. split; [done|by exists after].
Qed.

(** [needle in text] holds exactly when [needle] is a substring. *)
Lemma contains_spec (needle text : pystr) :
  contains needle text = true
  <-> exists before after, text = before ++ needle ++ after.
Proof.
  induction text as [|c text IH].
  - cbn [contains]. rewrite orb_false_r, starts_with_spec. split.
    + intros [after H]. by exists [], after.
    + intros (before & after & H). symmetry in H.
      apply app_eq_nil in H as [-> H]. apply app_eq_nil in H as [-> ->].
      by exists [].
  - cbn [contains]. rewrite orb_true_iff, starts_with_spec, IH. split.
    + intros [[after H]|(before & after & H)].
      * by exists [], after.
      * exists (c :: before), after. by rewrite H.
    + intros (before & after & H). destruct before as [|b before].
      * left. by exists after.
      * right. injection H as -> H. by exists before, after.
Qed.

Lemma is_key_spec (key : pystr) (items : list yaml) :
  existsb (is_key key) items = true <-> YStr key ∈ items.
Proof.
  rewrite existsb_exists. split.
  - intros (item & Hin & Hkey). apply list_elem_of_In in Hin.
    destruct item as [| | |s| | |]; try done.
    apply bool_decide_eq_true in Hkey as ->. done.
  - intros Hin. exists (YStr key). split; [by apply list_elem_of_In|].
    by apply bool_decide_eq_true.
Qed.

(** The loop over the keys for a value that can be searched: [has] is
    the test [key in self._config]. *)
Lemma validate_loaded_ok (keys : list pystr) (_config : yaml)
  (has : pystr -> bool) :
  (forall key, key_missing key _config = Ret (negb (has key))) ->
  validate_loaded_keys keys _config = Ret tt
  <-> Forall (fun key => has key = true) keys.
Proof.
  intros Hmissing. induction keys as [|key keys IH]; cbn [validate_loaded_keys].
  - split; [constructor|done].
  - rewrite Hmissing. cbv beta iota delta [mbind outcome_bind bind].
    destruct (has key) eqn:Hkey; cbn [negb].
    + rewrite IH. split; [by constructor|by inversion 1].
    + split; [done|]. inversion 1. congruence.
Qed.

Lemma validate_loaded_first_missing (present : list pystr) (missing : pystr)
  (rest : list pystr) (_config : yaml) (has : pystr -> bool) :
  (forall key, key_missing key _config = Ret (negb (has key))) ->
  Forall (fun key => has key = true) present ->
  has missing = false ->
  validate_loaded_keys (present ++ missing :: rest) _config
  = Raise (Exn ValueError
             (str "Missing required configuration key: " ++ missing)).
Proof.
  intros Hmissing Hpresent Hnone.
  induction Hpresent as [|key present Hkey _ IH];
    cbn [app validate_loaded_keys]; rewrite Hmissing;
    cbv beta iota delta [mbind outcome_bind bind].
  - by rewrite Hnone.
  - by rewrite Hkey.
Qed.

Lemma key_missing_map (m : gmap pystr yaml) (key : pystr) :
  key_missing key (YMap m) = Ret (negb (bool_decide (is_Some (m !! key)))).
Proof.
  cbn [key_missing]. by destruct (m !! key).
Qed.

Lemma validate_map_ok (keys : list pystr) (m : gmap pystr yaml) :
  validate_loaded_keys keys (YMap m) = Ret tt
  <-> Forall (fun key => is_Some (m !! key)) keys.
Proof.
  rewrite (validate_loaded_ok keys (YMap m)
             (fun key => bool_decide (is_Some (m !! key))))
    by apply key_missing_map.
  apply Forall_iff. intros key. apply bool_decide_eq_true.
Qed.

Lemma validate_map_first_missing (present : list pystr) (missing : pystr)
  (rest : list pystr) (m : gmap pystr yaml) :
  Forall (fun key => is_Some (m !! key)) present ->
  m !! missing = None ->
  validate_loaded_keys (present ++ missing :: rest) (YMap m)
  = Raise (Exn ValueError
             (str "Missing required configuration key: " ++ missing)).
Proof.
  intros Hpresent Hmissing.
  apply (validate_loaded_first_missing present missing rest (YMap m)
           (fun key => bool_decide (is_Some (m !! key))));
    [apply key_missing_map| |].
  - eapply Forall_impl; [exact Hpresent|].
    intros key Hkey. by apply bool_decide_eq_true.
  - apply bool_decide_eq_false. rewrite Hmissing. by intros [v Hv].
Qed.

Lemma validate_not_iterable (keys : list pystr) (_config : yaml) :
  keys <> [] ->
  _config = YNull \/ (exists b, _config = YBool b)
  \/ (exists z, _config = YInt z) \/ _config = YOther ->
  exists e,
    validate_loaded_keys keys _config = Raise e
    /\ exn_class_of e = TypeError.
Proof.
  intros Hne Hkind. destruct keys as [|key keys]; [done|].
  destruct Hkind as [-> |[[b ->]|[[z ->]| ->]]];
    eexists; (split; [reflexivity|done]).
Qed.

(** X1: [_validate_config] on what was loaded.  A mapping is accepted
    exactly when the six top-level keys are there, and otherwise the
    function raises [ValueError] with the first missing key, in the order
    [app], [chroma], [ollama], [documents], [spacy], [logging].  The test
    is [key not in self._config], so a value that is no mapping is
    accepted as well when it names the six keys: a string exactly when
    each of the six names is a substring of it, a list exactly when each
    of them is an item.  For [None], a boolean or a number the test
    raises [TypeError]. *)
Theorem validate_config_keys :
  (forall m : gmap pystr yaml,
     _validate_config (YMap m) = Ret tt
     <-> Forall (fun key => is_Some (m !! key)) required_keys)
  /\ (forall (m : gmap pystr yaml) (present : list pystr) (missing : pystr)
        (rest : list pystr),
        required_keys = present ++ missing :: rest ->
        Forall (fun key => is_Some (m !! key)) present ->
        m !! missing = None ->
        _validate_config (YMap m)
        = Raise (Exn ValueError
                   (str "Missing required configuration key: " ++ missing)))
  /\ (forall s : pystr,
        _validate_config (YStr s) = Ret tt
        <-> Forall (fun key => exists before after, s = before ++ key ++ after)
              required_keys)
  /\ (forall items : list yaml,
        _validate_config (YList items) = Ret tt
        <-> Forall (fun key => YStr key ∈ items) required_keys)
  /\ (forall _config : yaml,
        _config = YNull \/ (exists b, _config = YBool b)
        \/ (exists z, _config = YInt z) \/ _config = YOther ->
        exists e,
          _validate_config _config = Raise e
          /\ exn_class_of e = TypeError).
Proof.
  split; [intros m; apply validate_map_ok|].
  split; [|split; [|split]].
  - intros m present missing rest Hkeys Hpresent Hmissing.
    unfold _validate_config. rewrite Hkeys.
    by apply validate_map_first_missing.
  - intros s. unfold _validate_config.
    rewrite (validate_loaded_ok required_keys (YStr s)
               (fun key => contains key s)) by done.
    apply Forall_iff. intros key. apply contains_spec.
  - intros items. unfold _validate_config.
    rewrite (validate_loaded_ok required_keys (YList items)
               (fun key => existsb (is_key key) items)) by done.
    apply Forall_iff. intros key. apply is_key_spec.
  - intros _config Hkind. by apply validate_not_iterable.
Qed.

Lemma validate_config_keys_witness :
  _validate_config (YMap (delete (str "ollama") (config_with 500 50)))
  = Raise (Exn ValueError (str "Missing required configuration key: ollama"))
  /\ exists e,
       _validate_config YNull = Raise e /\ exn_class_of e = TypeError.
Proof.
  destruct validate_config_keys as (_ & H & _ & _ & Hnull).
  split.
  - refine (H (delete (str "ollama") (config_with 500 50))
              [str "app"; str "chroma"] (str "ollama")
              [str "documents"; str "spacy"; str "logging"] eq_refl _ eq_refl).
    repeat constructor; vm_compute; eauto.
  - apply Hnull. by left.
Defined.

(** X2: the four section getters after the validation.  On a loaded
    mapping that [_validate_config] accepts they return the sections and
    raise nothing.  On an accepted value that is no mapping, which is a
    string or a list that names the six keys, each of them raises
    [TypeError]. *)
Theorem getters_after_validation (_config : yaml) :
  _validate_config _config = Ret tt ->
  (forall m : gmap pystr yaml,
     _config = YMap m ->
     exists ollama chroma spacy documents,
       m !! str "ollama" = Some ollama
       /\ get_ollama_config _config = Ret ollama
       /\ m !! str "chroma" = Some chroma
       /\ get_chroma_config _config = Ret chroma
       /\ m !! str "spacy" = Some spacy
       /\ get_spacy_config _config = Ret spacy
       /\ m !! str "documents" = Some documents
       /\ get_document_config _config = Ret documents)
  /\ ((forall m : gmap pystr yaml, _config <> YMap m) ->
      ((exists s, _config = YStr s) \/ (exists items, _config = YList items))
      /\ exists e,
           exn_class_of e = TypeError
           /\ get_ollama_config _config = Raise e
           /\ get_chroma_config _config = Raise e
           /\ get_spacy_config _config = Raise e
           /\ get_document_config _config = Raise e).
Proof.
  intros Hvalid. split.
  - intros m ->. apply validate_map_ok in Hvalid.
    unfold required_keys in Hvalid.
    repeat match goal with
           | H : Forall _ (_ :: _) |- _ =>
               let Hx := fresh "Hx" in
               apply Forall_cons in H as [Hx H]; destruct Hx as [? Hx]
           end.
    unfold get_ollama_config, get_chroma_config, get_spacy_config,
      get_document_config, Config.getitem.
    do 4 eexists.
    repeat match goal with
           | H : m !! _ = Some _ |- _ => rewrite H; clear H
           end.
    repeat split; reflexivity.
  - intros Hother.
    destruct _config as [|b|z|s|m|items|]; try done.
    + split; [left; by exists s|].
      eexists. split; [|repeat split; reflexivity]. done.
    + by destruct (Hother m).
    + split; [right; by exists items|].
      eexists. split; [|repeat split; reflexivity]. done.
Qed.

Lemma getters_after_validation_witness :
  _validate_config (YMap (config_with 500 50)) = Ret tt
  /\ (exists documents,
        get_document_config (YMap (config_with 500 50)) = Ret documents)
  /\ _validate_config keys_text = Ret tt
  /\ exists e,
       exn_class_of e = TypeError
       /\ get_ollama_config keys_text = Raise e.
Proof.
  split; [vm_compute; reflexivity|]. split.
  - destruct (getters_after_validation (YMap (config_with 500 50)) eq_refl)
      as (H & _).
    destruct (H (config_with 500 50) eq_refl)
      as (_ & _ & _ & documents & _ & _ & _ & _ & _ & _ & _ & Hd).
    exists documents. exact Hd.
  - split; [vm_compute; reflexivity|].
    destruct (getters_after_validation keys_text
                ltac:(vm_compute; reflexivity)) as (_ & H).
    destruct (H ltac:(intros m; unfold keys_text; discriminate))
      as (_ & e & Hclass & Ho & _).
    exists e. split; [exact Hclass|exact Ho].
Defined.

Lemma follow_reach (value : yaml) (keys : list pystr) :
  match reach value keys with
  | Some v => follow value keys = Ret v
  | None =>
      exists e, follow value keys = Raise e
                /\ (exn_class_of e = KeyError \/ exn_class_of e = TypeError)
  end.
Proof.
  revert value. induction keys as [|key keys IH]; intros value; simpl.
  - done.
  - destruct value as [| | | |m| |]; simpl;
      try (eexists; split; [reflexivity|by right]).
    destruct (m !! key) as [v|]; simpl.
    + apply IH.
    + eexists. split; [reflexivity|by left].
Qed.

Lemma get_reach (_config : yaml) (key_path : pystr) (fallback : yaml) :
  get _config key_path fallback
  = Ret (default fallback (reach _config (split_on DOT key_path))).
Proof.
  unfold get.
  pose proof (follow_reach _config (split_on DOT key_path)) as H.
  destruct (reach _config (split_on DOT key_path)) as [v|].
  - by rewrite H.
  - destruct H as (e & -> & [Hc|Hc]); simpl; by rewrite Hc.
Qed.

Lemma split_on_cons_piece (key rest piece : pystr) (pieces : list pystr) :
  dot_free key ->
  split_on DOT rest = piece :: pieces ->
  split_on DOT (key ++ rest) = (key ++ piece) :: pieces.
Proof.
  unfold dot_free. intros Hfree Hrest.
  induction key as [|c key IH]; simpl; [done|].
  apply not_elem_of_cons in Hfree as [Hne Hfree].
  destruct (N.eqb_spec c DOT) as [->|_]; [done|].
  by rewrite IH.
Qed.

Lemma split_on_join (keys : list pystr) :
  keys <> [] -> Forall dot_free keys ->
  split_on DOT (join_with [DOT] keys) = keys.
Proof.
  intros Hne Hfree. induction Hfree as [|key keys Hkey Hkeys IH]; [done|].
  destruct keys as [|key' keys].
  - simpl. rewrite <- (app_nil_r key) at 1.
    rewrite (split_on_cons_piece key [] [] []) by done.
    by rewrite app_nil_r.
  - change (join_with [DOT] (key :: key' :: keys))
      with (key ++ DOT :: join_with [DOT] (key' :: keys)).
    rewrite (split_on_cons_piece key _ [] (key' :: keys)).
    + by rewrite app_nil_r.
    + done.
    + change (split_on DOT (DOT :: ?t)) with ([] :: split_on DOT t).
      by rewrite IH.
Qed.

(** X3: [Config.get] never raises.  It follows the pieces of the key
    path between the dots; for a path made of keys without dots it
    returns the value reached by the successive lookups, and the default
    when a key is missing or a value on the way is not a mapping. *)
Theorem config_get_path (_config fallback : yaml) :
  (forall key_path : pystr,
     get _config key_path fallback
     = Ret (default fallback (reach _config (split_on DOT key_path))))
  /\ (forall keys : list pystr,
        keys <> [] -> Forall dot_free keys ->
        get _config (join_with [DOT] keys) fallback
        = Ret (default fallback (reach _config keys))).
Proof.
  split; [intros; apply get_reach|].
  intros keys Hne Hfree. by rewrite get_reach, split_on_join.
Qed.

Lemma config_get_path_witness :
  get (YMap (config_with 500 50)) (str "documents.processing.chunk_size")
    YNull = Ret (YInt 500)
  /\ get (YMap (config_with 500 50)) (str "scraping.download_directory")
       (YStr (str "data/downloaded_pdfs"))
     = Ret (YStr (str "data/downloaded_pdfs")).
Proof.
  split.
  - destruct (config_get_path (YMap (config_with 500 50)) YNull) as [_ H].
    refine (H [str "documents"; str "processing"; str "chunk_size"] _ _);
      [discriminate|].
    repeat (apply Forall_cons; split;
            [unfold dot_free; refine (bool_decide_unpack _ _);
             vm_compute; exact I|]).
    apply Forall_nil_2.
  - destruct (config_get_path (YMap (config_with 500 50))
                (YStr (str "data/downloaded_pdfs"))) as [_ H].
    refine (H [str "scraping"; str "download_directory"] _ _);
      [discriminate|].
    repeat (apply Forall_cons; split;
            [unfold dot_free; refine (bool_decide_unpack _ _);
             vm_compute; exact I|]).
    apply Forall_nil_2.
Defined.

End Configuration.

(** ** Loading the configuration *)

Section Loading.

Import Config ConfigFile.

Variables (default_config : yaml) (env : gmap pystr pystr).

Lemma load_config_returns (exists_ : bool) (loaded : outcome yaml) :
  exists config, _load_config default_config exists_ loaded env = Ret config.
Proof.
  unfold _load_config. destruct exists_; simpl; [|eauto].
  destruct loaded as [config|e]; simpl; [|eauto].
  destruct (_override_with_env config env); simpl; eauto.
Qed.

Lemma override_without_env (config : yaml) :
  getenv_set env (str "OLLAMA_HOST") = false ->
  getenv_set env (str "LOG_LEVEL") = false ->
  getenv_set env (str "CHROMA_PERSIST_DIRECTORY") = false ->
  _override_with_env config env = Ret config.
Proof. unfold _override_with_env. by intros -> -> ->. Qed.

Lemma load_config_without_env (config : yaml) :
  getenv_set env (str "OLLAMA_HOST") = false ->
  getenv_set env (str "LOG_LEVEL") = false ->
  getenv_set env (str "CHROMA_PERSIST_DIRECTORY") = false ->
  _load_config default_config true (Ret config) env = Ret config.
Proof.
  intros Hhost Hlog Hchroma. unfold _load_config. simpl negb. cbv iota.
  change (mbind ?k (Ret ?x)) with (k x). cbv beta.
  by rewrite override_without_env.
Qed.

Lemma load_config_missing_file (loaded : outcome yaml) :
  _load_config default_config false loaded env = Ret default_config.
Proof. reflexivity. Qed.

End Loading.

(** X4: [_load_config] never raises and falls back to the default
    configuration as a whole: when the file does not exist (the
    environment is then not looked at), when reading or parsing the file
    fails, and when an override of the environment finds no section to
    write to, as [OLLAMA_HOST] with a file that has no [ollama] section or
    is empty. *)
Theorem load_config_fallback (default_config : Config.yaml)
  (exists_ : bool) (loaded : outcome Config.yaml) (env : gmap pystr pystr) :
  (exists config,
     ConfigFile._load_config default_config exists_ loaded env = Ret config)
  /\ (exists_ = false ->
      ConfigFile._load_config default_config exists_ loaded env
      = Ret default_config)
  /\ (forall e,
        loaded = Raise e ->
        ConfigFile._load_config default_config exists_ loaded env
        = Ret default_config)
  /\ (forall config,
        loaded = Ret config ->
        ConfigFile.getenv_set env (str "OLLAMA_HOST") = true ->
        mapping_section config (str "ollama") = false ->
        ConfigFile._load_config default_config exists_ loaded env
        = Ret default_config).
Proof.
  split; [apply load_config_returns|]. split; [by intros ->|]. split.
  - intros e ->. unfold ConfigFile._load_config. by destruct exists_.
  - intros config -> Henv Hsec. unfold ConfigFile._load_config.
    destruct exists_; [|done]. simpl.
    unfold ConfigFile._override_with_env. rewrite Henv.
    unfold ConfigFile.setitem2, Config.getitem.
    unfold mapping_section in Hsec.
    destruct config as [| | | |m| |]; try done.
    destruct (m !! str "ollama") as [[| | | |o| |]|]; done.
Qed.

Lemma load_config_fallback_witness :
  ConfigFile._load_config (Config.YMap Config._get_default_config) true
    (Ret Config.YNull)
    (list_to_map [(str "OLLAMA_HOST", str "gpu01")])
  = Ret (Config.YMap Config._get_default_config).
Proof.
  destruct (load_config_fallback (Config.YMap Config._get_default_config)
              true (Ret Config.YNull) (list_to_map [(str "OLLAMA_HOST", str "gpu01")]))
    as (_ & _ & _ & H).
  exact (H Config.YNull eq_refl eq_refl eq_refl).
Defined.



(** X6: the construction of [Config].  Without a configuration file it
    gives the default configuration, provided that one has the required
    keys.  With a file that holds a mapping and no override from the
    environment it gives the mapping of the file when the six keys are
    there and raises the [ValueError] of [_validate_config] otherwise.
    With an empty file (the loader returns [None]) and no override it
    raises [TypeError] instead of falling back to the defaults. *)
Theorem config_init (default_config : Config.yaml)
  (env : gmap pystr pystr) :
  (forall loaded,
     Config._validate_config default_config = Ret tt ->
     ConfigFile.init default_config false loaded env = Ret default_config)
  /\ (ConfigFile.getenv_set env (str "OLLAMA_HOST") = false ->
      ConfigFile.getenv_set env (str "LOG_LEVEL") = false ->
      ConfigFile.getenv_set env (str "CHROMA_PERSIST_DIRECTORY") = false ->
      (forall m : gmap pystr Config.yaml,
         ConfigFile.init default_config true (Ret (Config.YMap m)) env
         = (_ ← Config._validate_config (Config.YMap m);
            Ret (Config.YMap m)))
      /\ exists e,
           ConfigFile.init default_config true (Ret Config.YNull) env
             = Raise e
           /\ exn_class_of e = TypeError).
Proof.
  split.
  - intros loaded Hvalid. unfold ConfigFile.init.
    rewrite load_config_missing_file.
    change (mbind ?k (Ret ?x)) with (k x). cbv beta. by rewrite Hvalid.
  - intros Hhost Hlog Hchroma. split.
    + intros m. unfold ConfigFile.init.
      rewrite load_config_without_env by done.
      reflexivity.
    + unfold ConfigFile.init.
      rewrite load_config_without_env by done.
      eexists. split; reflexivity.
Qed.

Lemma config_init_witness :
  ConfigFile.init (Config.YMap Config._get_default_config) false
    (Raise (Exn OtherException (str "No such file"))) ∅
  = Ret (Config.YMap Config._get_default_config).
Proof.
  destruct (config_init (Config.YMap Config._get_default_config) ∅)
    as [H _].
  apply H. vm_compute. reflexivity.
Defined.

(** ** The sections of the pages *)

Section Sections.

Import DocumentProcessor.

Lemma page_step_sections (all_segments : list segment) (page_data : page) :
  page_step all_segments page_data = all_segments ++ page_sections page_data.
Proof.
  unfold page_step, page_sections.
  rewrite re_split_no_newline by apply clean_text_no_newline.
  destruct (match_section (clean_text (page_text page_data)))
    as [[group n]|] eqn:Hm.
  - change (length [[]; group; _] <? 2)%nat with false. cbv iota.
    cbn [fold_left].
    rewrite part_step_nil, (part_step_group _ _ _ _ _ Hm).
    unfold part_step. destruct (re_match _); [by rewrite app_nil_r|].
    rewrite enough_words_clean_text.
    destruct (enough_words _); [done|by rewrite app_nil_r].
  - change (length [clean_text (page_text page_data)] <? 2)%nat with true.
    cbv iota. destruct (enough_words _); [done|by rewrite app_nil_r].
Qed.

Lemma fold_page_step (pages_data : list page) (all_segments : list segment) :
  fold_left page_step pages_data all_segments
  = all_segments ++ concat (map page_sections pages_data).
Proof.
  revert all_segments.
  induction pages_data as [|page_data pages_data IH]; intros all_segments.
  - simpl. by rewrite app_nil_r.
  - simpl. rewrite IH, page_step_sections. by rewrite <- app_assoc.
Qed.

Lemma segment_pages_sections (pages_data : list page) :
  segment_pages pages_data = concat (map page_sections pages_data).
Proof. unfold segment_pages. by rewrite fold_page_step. Qed.

Lemma clean_text_clean_text (text : pystr) :
  clean_text (clean_text text) = clean_text text.
Proof.
  rewrite !clean_text_join_split. by rewrite split_join by apply split_words.
Qed.

Lemma page_sections_invariant (page_data : page) :
  (length (page_sections page_data) <= 1)%nat
  /\ Forall (fun seg =>
               enough_words (seg_text seg) = true
               /\ clean_text (seg_text seg) = seg_text seg
               /\ seg_page_number seg = page_number page_data)
       (page_sections page_data).
Proof.
  unfold page_sections.
  destruct (match_section (clean_text (page_text page_data))) as [[g n]|].
  - cbv zeta. destruct (re_match _); [split; [simpl; lia|constructor]|].
    destruct (enough_words (drop n _)) eqn:He;
      [|split; [simpl; lia|constructor]].
    split; [simpl; lia|]. constructor; [|constructor]. simpl.
    split; [by rewrite enough_words_clean_text|].
    split; [apply clean_text_clean_text|done].
  - destruct (enough_words (clean_text _)) eqn:He;
      [|split; [simpl; lia|constructor]].
    split; [simpl; lia|]. constructor; [|constructor]. simpl.
    split; [done|]. split; [apply clean_text_clean_text|done].
Qed.

End Sections.

(** X7: what a page gives.  A page that does not start with a heading gives
    one section titled [Gesamtdokument] with the normalised text of the
    page; a page that starts with a heading gives one section titled
    [Abschnitt] with the normalised text after the first colon, the
    heading itself being left out, and no section when that text starts
    with a heading again; in every case only when the text has more than
    ten words.  The pages are handled one by one and in order. *)
Theorem page_step_cases (all_segments : list DocumentProcessor.segment)
  (page_data : DocumentProcessor.page) :
  let cleaned :=
    DocumentProcessor.clean_text (DocumentProcessor.page_text page_data) in
  let number := DocumentProcessor.page_number page_data in
  (DocumentProcessor.match_section cleaned = None ->
   DocumentProcessor.page_step all_segments page_data
   = all_segments
       ++ (if DocumentProcessor.enough_words cleaned
           then [DocumentProcessor.Segment (str "Gesamtdokument") cleaned
                   number]
           else []))
  /\ (forall group n,
        DocumentProcessor.match_section cleaned = Some (group, n) ->
        DocumentProcessor.page_step all_segments page_data
        = all_segments
            ++ (if DocumentProcessor.re_match (drop n cleaned) then []
                else if DocumentProcessor.enough_words (drop n cleaned)
                then [DocumentProcessor.Segment (str "Abschnitt")
                        (DocumentProcessor.clean_text (drop n cleaned))
                        number]
                else []))
  /\ (forall pages_data,
        DocumentProcessor.segment_pages (pages_data ++ [page_data])
        = DocumentProcessor.page_step
            (DocumentProcessor.segment_pages pages_data) page_data).
Proof.
  intros cleaned number. split; [|split].
  - intros Hm. rewrite page_step_sections. unfold page_sections.
    fold cleaned. by rewrite Hm.
  - intros group n Hm. rewrite page_step_sections. unfold page_sections.
    fold cleaned. by rewrite Hm.
  - intros pages_data. unfold DocumentProcessor.segment_pages.
    by rewrite fold_left_app.
Qed.

Lemma page_step_cases_witness :
  DocumentProcessor.page_step []
    (DocumentProcessor.Page
       (str "Modul: Analysis eins fuer Studierende  der Informatik im ersten   Semester mit Uebung und Klausur")
       4)
  = [DocumentProcessor.Segment (str "Abschnitt")
       (str "Analysis eins fuer Studierende der Informatik im ersten Semester mit Uebung und Klausur")
       4].
Proof.
  destruct (page_step_cases []
              (DocumentProcessor.Page
                 (str "Modul: Analysis eins fuer Studierende  der Informatik im ersten   Semester mit Uebung und Klausur")
                 4)) as (_ & H & _).
  rewrite (H (str "Modul") 6%nat); vm_compute; reflexivity.
Defined.

(** X8: the sections of a document.  Every page gives at most one
    section; every section has more than ten words, a normalised text and
    the number of the page it comes from; the sections of several pages
    are the sections of the pages one after the other. *)
Theorem segment_pages_invariants (pages_data : list DocumentProcessor.page) :
  (length (DocumentProcessor.segment_pages pages_data)
   <= length pages_data)%nat
  /\ (forall seg,
        seg ∈ DocumentProcessor.segment_pages pages_data ->
        (10 < length (split (DocumentProcessor.seg_text seg)))%nat
        /\ DocumentProcessor.clean_text (DocumentProcessor.seg_text seg)
           = DocumentProcessor.seg_text seg
        /\ exists page_data,
             page_data ∈ pages_data
             /\ DocumentProcessor.seg_page_number seg
                = DocumentProcessor.page_number page_data)
  /\ (forall more_pages,
        DocumentProcessor.segment_pages (pages_data ++ more_pages)
        = DocumentProcessor.segment_pages pages_data
            ++ DocumentProcessor.segment_pages more_pages).
Proof.
  split; [|split].
  - rewrite segment_pages_sections.
    induction pages_data as [|page_data pages_data IH]; simpl; [done|].
    rewrite length_app.
    pose proof (page_sections_invariant page_data) as [Hlen _]. lia.
  - intros seg. rewrite segment_pages_sections.
    intros Hin. apply list_elem_of_In, in_concat in Hin as (secs & Hsecs & Hseg).
    apply in_map_iff in Hsecs as (page_data & <- & Hpage).
    apply list_elem_of_In in Hseg, Hpage.
    pose proof (page_sections_invariant page_data) as [_ Hall].
    rewrite Forall_forall in Hall.
    destruct (Hall seg Hseg) as (Hwords & Hclean & Hnum).
    split; [|split; [done|by exists page_data]].
    unfold DocumentProcessor.enough_words in Hwords.
    by apply Nat.ltb_lt in Hwords.
  - intros more_pages. rewrite !segment_pages_sections.
    by rewrite map_app, concat_app.
Qed.

Lemma segment_pages_invariants_witness :
  (10 < length
          (split
             (DocumentProcessor.seg_text
                (DocumentProcessor.Segment (str "Abschnitt")
                   (str "Analysis eins fuer Studierende der Informatik im ersten Semester mit Uebung und Klausur")
                   4))))%nat.
Proof.
  destruct (segment_pages_invariants
              [DocumentProcessor.Page
                 (str "Modul: Analysis eins fuer Studierende  der Informatik im ersten   Semester mit Uebung und Klausur")
                 4]) as (_ & H & _).
  assert (Hin :
    DocumentProcessor.Segment (str "Abschnitt")
      (str "Analysis eins fuer Studierende der Informatik im ersten Semester mit Uebung und Klausur")
      4
    ∈ DocumentProcessor.segment_pages
        [DocumentProcessor.Page
           (str "Modul: Analysis eins fuer Studierende  der Informatik im ersten   Semester mit Uebung und Klausur")
           4]).
  { vm_compute. left. }
  exact (proj1 (H _ Hin)).
Defined.

(** ** The layout of the chunks *)

Section ChunkLayout.

Import DocumentProcessor.

Variables (chunk_size overlap : Z) (filename pdf_path : pystr).

Lemma range_count_lt (stop step : Z) (k : nat) :
  0 < step -> (k < range_count stop step)%nat -> Z.of_nat k * step < stop.
Proof.
  intros Hs. unfold range_count.
  destruct (Z.ltb_spec 0 stop) as [Hpos|?]; [|lia].
  pose proof (Z.div_pos (stop - 1) step ltac:(lia) Hs) as Hq.
  pose proof (Z.mul_div_le (stop - 1) step Hs) as Hle.
  intros Hk.
  assert (Z.of_nat k * step <= (stop - 1) / step * step) as Hmul
    by (apply Z.mul_le_mono_nonneg_r; lia).
  lia.
Qed.

Lemma range_count_ceil (n : nat) (step : Z) :
  0 < step ->
  Z.of_nat (range_count (Z.of_nat n) step) = (Z.of_nat n + step - 1) / step.
Proof.
  intros Hs. unfold range_count.
  destruct (Z.ltb_spec 0 (Z.of_nat n)) as [Hpos|Hzero].
  - pose proof (Z.div_pos (Z.of_nat n - 1) step ltac:(lia) Hs) as Hq.
    rewrite Z2Nat.id by lia.
    replace (Z.of_nat n + step - 1) with (Z.of_nat n - 1 + 1 * step) by lia.
    by rewrite Z.div_add by lia.
  - replace (Z.of_nat n) with 0 by lia. simpl.
    symmetry. apply Z.div_small. lia.
Qed.

Lemma window_starts_lookup (n k : nat) (stride i : Z) :
  0 < stride ->
  window_starts n stride !! k = Some i ->
  i = Z.of_nat k * stride /\ 0 <= i < Z.of_nat n.
Proof.
  intros Hs. unfold window_starts.
  change (map ?f ?l) with (f <$> l). rewrite list_lookup_fmap.
  destruct (seq 0 _ !! k) as [k'|] eqn:E; [|done].
  apply lookup_seq in E as [-> Hk]. simpl. intros [= <-].
  split; [done|]. split; [lia|]. by apply range_count_lt.
Qed.

Lemma section_chunks_lookup (seg : segment) (counter : Z) (k : nat)
  (c : chunk) :
  section_chunks chunk_size overlap filename pdf_path seg counter !! k
    = Some c ->
  exists i,
    window_starts (length (split (seg_text seg))) (chunk_size - overlap) !! k
      = Some i
    /\ c = Chunk (join (slice (split (seg_text seg)) i (i + chunk_size)))
             (Metadata (seg_title seg) filename (seg_page_number seg)
                (counter + 1 + Z.of_nat k) pdf_path).
Proof.
  unfold section_chunks. cbv zeta. rewrite list_lookup_imap.
  destruct (window_starts _ _ !! k) as [i|]; [|done].
  simpl. intros [= <-]. by exists i.
Qed.

Lemma section_chunks_length (seg : segment) (counter : Z) :
  length (section_chunks chunk_size overlap filename pdf_path seg counter)
  = range_count (Z.of_nat (length (split (seg_text seg))))
      (chunk_size - overlap).
Proof.
  unfold section_chunks, window_starts. cbv zeta.
  by rewrite length_imap, length_map, length_seq.
Qed.

(** A chunk of the result: its section and its place in it. *)
Lemma section_groups_lookup (all_segments : list segment) (counter : Z)
  (j : nat) (c : chunk) :
  concat (section_groups chunk_size overlap filename pdf_path all_segments
            counter) !! j = Some c ->
  exists seg k i,
    seg ∈ all_segments
    /\ window_starts (length (split (seg_text seg))) (chunk_size - overlap)
         !! k = Some i
    /\ c = Chunk (join (slice (split (seg_text seg)) i (i + chunk_size)))
             (Metadata (seg_title seg) filename (seg_page_number seg)
                (counter + 1 + Z.of_nat j) pdf_path).
Proof.
  revert counter j.
  induction all_segments as [|seg segs IH]; intros counter j; [done|].
  simpl. rewrite lookup_app_Some. intros [Hhere|[Hlen Hlater]].
  - apply section_chunks_lookup in Hhere as (i & Hi & ->).
    exists seg, j, i. split; [left|done].
  - apply IH in Hlater as (seg' & k & i & Hin & Hi & ->).
    exists seg', k, i. split; [by right|]. split; [done|].
    do 2 f_equal. lia.
Qed.

(** What the chunking stage returns when it returns. *)
Lemma chunk_segments_returns (all_segments : list segment)
  (chunks : list chunk) :
  chunk_segments chunk_size overlap filename pdf_path all_segments
    = Ret chunks ->
  chunks = []
  \/ (0 < chunk_size - overlap
      /\ chunks = concat (section_groups chunk_size overlap filename
                            pdf_path all_segments 0)).
Proof.
  destruct (Z.lt_trichotomy (chunk_size - overlap) 0) as [Hneg|[Hzero|Hpos]].
  - unfold chunk_segments. rewrite chunk_loop_negative by lia.
    intros [= <-]. by left.
  - destruct all_segments as [|seg segs].
    + intros [= <-]. by left.
    + unfold chunk_segments. rewrite chunk_loop_zero by lia. done.
  - rewrite chunk_segments_positive by done. intros [= <-]. by right.
Qed.

Lemma slice_window (words : list pystr) (i : Z) :
  0 <= i -> 0 <= chunk_size ->
  slice words i (i + chunk_size)
  = take (Z.to_nat chunk_size) (drop (Z.to_nat i) words).
Proof. intros Hi Hc. by apply slice_from. Qed.

Lemma slice_words (text : pystr) (i : Z) :
  Forall word (slice (split text) i (i + chunk_size)).
Proof. unfold slice. apply Forall_take, Forall_drop, split_words. Qed.

End ChunkLayout.

(** X9: the metadata of the chunks.  Whatever the two settings are, when
    the chunking stage returns, the chunk at position [j] of its result
    (from zero) has the [chunk_index] [j + 1]: the numbering starts at one,
    runs on across the sections and has no gap; every chunk carries the
    file name and the path given, and the title and the page number of one
    of the sections. *)
Theorem chunk_metadata_numbering (chunk_size overlap : Z)
  (filename pdf_path : pystr) (all_segments : list DocumentProcessor.segment)
  (chunks : list DocumentProcessor.chunk) :
  DocumentProcessor.chunk_segments chunk_size overlap filename pdf_path
    all_segments = Ret chunks ->
  forall (j : nat) (c : DocumentProcessor.chunk),
    chunks !! j = Some c ->
    let md := DocumentProcessor.chunk_metadata c in
    DocumentProcessor.md_chunk_index md = Z.of_nat j + 1
    /\ DocumentProcessor.md_filename md = filename
    /\ DocumentProcessor.md_pdf_path md = pdf_path
    /\ exists seg,
         seg ∈ all_segments
         /\ DocumentProcessor.md_title md = DocumentProcessor.seg_title seg
         /\ DocumentProcessor.md_page_number md
            = DocumentProcessor.seg_page_number seg.
Proof.
  intros Hret j c Hc.
  apply chunk_segments_returns in Hret as [->|[_ ->]]; [done|].
  apply section_groups_lookup in Hc as (seg & k & i & Hin & _ & ->).
  simpl. split; [lia|]. split; [done|]. split; [done|]. by exists seg.
Qed.

Lemma chunk_metadata_numbering_witness :
  DocumentProcessor.md_chunk_index
    (DocumentProcessor.chunk_metadata
       (Chunk (str "j k")
          (Metadata (str "Abschnitt") sample_filename 1 4 sample_path)))
  = Z.of_nat 3 + 1.
Proof.
  exact (proj1 (chunk_metadata_numbering 5 2 sample_filename sample_path
                  [section_11] _ ltac:(vm_compute; reflexivity) 3%nat _
                  ltac:(vm_compute; reflexivity))).
Defined.

Section ChunkSizes.

Import DocumentProcessor.

Variables (chunk_size overlap : Z) (filename pdf_path : pystr).

Lemma chunk_words_join_slice (text : pystr) (i : Z) :
  split (join (slice (split text) i (i + chunk_size)))
  = slice (split text) i (i + chunk_size).
Proof. apply split_join, slice_words. Qed.

Lemma section_groups_length (all_segments : list segment) (counter : Z) :
  0 < chunk_size - overlap ->
  Z.of_nat (length (concat (section_groups chunk_size overlap filename
                              pdf_path all_segments counter)))
  = foldr Z.add 0
      (map (fun seg =>
              (Z.of_nat (length (split (seg_text seg)))
               + (chunk_size - overlap) - 1) / (chunk_size - overlap))
         all_segments).
Proof.
  intros Hs. revert counter.
  induction all_segments as [|seg segs IH]; intros counter; [done|].
  simpl. rewrite length_app, Nat2Z.inj_add, IH, section_chunks_length.
  by rewrite range_count_ceil.
Qed.

Lemma range_count_short (n : nat) (stride : Z) :
  (1 <= n)%nat -> Z.of_nat n <= stride ->
  range_count (Z.of_nat n) stride = 1%nat.
Proof.
  intros Hn Hle. unfold range_count.
  destruct (Z.ltb_spec 0 (Z.of_nat n)) as [_|?]; [|lia].
  rewrite Z.div_small by lia. done.
Qed.

Lemma section_chunks_short (seg : segment) (counter : Z) :
  0 <= overlap < chunk_size ->
  (1 <= length (split (seg_text seg)))%nat ->
  Z.of_nat (length (split (seg_text seg))) <= chunk_size - overlap ->
  section_chunks chunk_size overlap filename pdf_path seg counter
  = [Chunk (clean_text (seg_text seg))
       (Metadata (seg_title seg) filename (seg_page_number seg)
          (counter + 1) pdf_path)].
Proof.
  intros Hv Hn Hle. unfold section_chunks, window_starts. cbv zeta.
  rewrite range_count_short by done.
  cbn [seq map imap]. rewrite Z.add_0_r.
  change (Z.of_nat 0 * (chunk_size - overlap)) with 0.
  rewrite slice_window by lia.
  change (Z.to_nat 0) with 0%nat. rewrite drop_0, take_ge by lia.
  by rewrite <- clean_text_join_split.
Qed.

Lemma section_groups_short (all_segments : list segment) (counter : Z) :
  0 <= overlap < chunk_size ->
  Forall (fun seg =>
            (1 <= length (split (seg_text seg)))%nat
            /\ Z.of_nat (length (split (seg_text seg)))
               <= chunk_size - overlap) all_segments ->
  concat (section_groups chunk_size overlap filename pdf_path all_segments
            counter)
  = imap (fun k seg =>
            Chunk (clean_text (seg_text seg))
              (Metadata (seg_title seg) filename (seg_page_number seg)
                 (counter + Z.of_nat k + 1) pdf_path)) all_segments.
Proof.
  intros Hv Hall. revert counter.
  induction Hall as [|seg segs [Hn Hle] _ IH]; intros counter; [done|].
  cbn [section_groups concat]. cbv zeta.
  rewrite section_chunks_short by done. rewrite IH. cbn [length app imap].
  f_equal; [do 3 f_equal; lia|].
  apply imap_ext. intros k seg' _. cbn. do 3 f_equal. lia.
Qed.

End ChunkSizes.

(** X10: the size of the chunks.  With [chunk_size > 0] and
    [overlap < chunk_size] the chunking stage returns, and every chunk of
    its result has at least one word and at most [chunk_size] words, a
    normalised text, and words that are consecutive words of one of the
    sections. *)
Theorem chunk_word_count (chunk_size overlap : Z) (filename pdf_path : pystr)
  (all_segments : list DocumentProcessor.segment) :
  0 < chunk_size -> overlap < chunk_size ->
  exists chunks,
    DocumentProcessor.chunk_segments chunk_size overlap filename pdf_path
      all_segments = Ret chunks
    /\ Forall
         (fun c =>
            (1 <= length (chunk_words c) <= Z.to_nat chunk_size)%nat
            /\ DocumentProcessor.clean_text (DocumentProcessor.chunk_text c)
               = DocumentProcessor.chunk_text c
            /\ exists seg (i : nat),
                 seg ∈ all_segments
                 /\ chunk_words c
                    = take (Z.to_nat chunk_size)
                        (drop i (split (DocumentProcessor.seg_text seg))))
         chunks.
Proof.
  intros Hc Hs. eexists. split; [apply chunk_segments_positive; lia|].
  apply Forall_lookup. intros j c Hj.
  apply section_groups_lookup in Hj as (seg & k & i & Hin & Hi & ->).
  apply window_starts_lookup in Hi as [_ Hi]; [|lia].
  unfold chunk_words. cbn [DocumentProcessor.chunk_text].
  rewrite clean_text_join_split, !chunk_words_join_slice.
  rewrite slice_window by lia.
  split; [|split; [done|]].
  - rewrite length_take, length_drop. lia.
  - by exists seg, (Z.to_nat i).
Qed.

Lemma chunk_word_count_witness :
  exists chunks,
    DocumentProcessor.chunk_segments 5 2 sample_filename sample_path
      [section_11] = Ret chunks
    /\ Forall
         (fun c =>
            (1 <= length (chunk_words c) <= Z.to_nat 5)%nat
            /\ DocumentProcessor.clean_text (DocumentProcessor.chunk_text c)
               = DocumentProcessor.chunk_text c
            /\ exists seg (i : nat),
                 seg ∈ [section_11]
                 /\ chunk_words c
                    = take (Z.to_nat 5)
                        (drop i (split (DocumentProcessor.seg_text seg))))
         chunks.
Proof.
  apply (chunk_word_count 5 2 sample_filename sample_path [section_11]); lia.
Defined.

(** X11: the number of chunks.  With a positive stride
    [chunk_size - overlap] a section of [n] words gives [n / stride]
    chunks, rounded up, whatever [chunk_size] is; the result has the sum
    of these numbers over the sections. *)
Theorem chunk_count (chunk_size overlap : Z) (filename pdf_path : pystr)
  (all_segments : list DocumentProcessor.segment) :
  0 < chunk_size - overlap ->
  exists chunks,
    DocumentProcessor.chunk_segments chunk_size overlap filename pdf_path
      all_segments = Ret chunks
    /\ Z.of_nat (length chunks)
       = foldr Z.add 0
           (map (fun seg =>
                   (Z.of_nat (length (split (DocumentProcessor.seg_text seg)))
                    + (chunk_size - overlap) - 1) / (chunk_size - overlap))
              all_segments).
Proof.
  intros Hs. eexists. split; [by apply chunk_segments_positive|].
  by apply section_groups_length.
Qed.

Lemma chunk_count_witness :
  exists chunks,
    DocumentProcessor.chunk_segments 50 10 sample_filename sample_path
      [section_90; section_40] = Ret chunks
    /\ Z.of_nat (length chunks) = 4.
Proof.
  destruct (chunk_count 50 10 sample_filename sample_path
              [section_90; section_40] ltac:(lia)) as (chunks & Hret & Hlen).
  exists chunks. split; [exact Hret|].
  rewrite Hlen. vm_compute. reflexivity.
Defined.

(** X12: short sections.  With [0 <= overlap < chunk_size], sections that
    each have at least one word and at most [chunk_size - overlap] words
    give one chunk each, in the order of the sections: the chunk of the
    section at position [k] has the normalised text of the section, its
    title and page number, and the [chunk_index] [k + 1]. *)
Theorem short_sections_one_chunk (chunk_size overlap : Z)
  (filename pdf_path : pystr)
  (all_segments : list DocumentProcessor.segment) :
  0 <= overlap < chunk_size ->
  Forall (fun seg =>
            (1 <= length (split (DocumentProcessor.seg_text seg)))%nat
            /\ Z.of_nat (length (split (DocumentProcessor.seg_text seg)))
               <= chunk_size - overlap) all_segments ->
  DocumentProcessor.chunk_segments chunk_size overlap filename pdf_path
    all_segments
  = Ret (imap (fun k seg =>
                 DocumentProcessor.Chunk
                   (DocumentProcessor.clean_text
                      (DocumentProcessor.seg_text seg))
                   (DocumentProcessor.Metadata
                      (DocumentProcessor.seg_title seg) filename
                      (DocumentProcessor.seg_page_number seg)
                      (Z.of_nat k + 1) pdf_path)) all_segments).
Proof.
  intros Hv Hall. rewrite chunk_segments_positive by lia.
  by rewrite section_groups_short.
Qed.

Lemma short_sections_one_chunk_witness :
  DocumentProcessor.chunk_segments 500 50 sample_filename sample_path
    [section_90; section_40]
  = Ret [DocumentProcessor.Chunk (DocumentProcessor.seg_text section_90)
           (DocumentProcessor.Metadata (str "Ziele") sample_filename 1 1
              sample_path);
         DocumentProcessor.Chunk (DocumentProcessor.seg_text section_40)
           (DocumentProcessor.Metadata (str "Dauer") sample_filename 1 2
              sample_path)].
Proof.
  rewrite (short_sections_one_chunk 500 50 sample_filename sample_path
             [section_90; section_40] ltac:(lia)).
  - vm_compute. reflexivity.
  - repeat (apply Forall_cons; split;
            [split; [apply Nat.leb_le|apply Z.leb_le];
             vm_compute; reflexivity|]).
    apply Forall_nil_2.
Defined.

(** X13: a last chunk without new words.  With [0 <= overlap < chunk_size],
    when a chunk of a section has at most [overlap] words, it consists of
    the words that the chunk before it has after the first
    [chunk_size - overlap]: the chunk repeats the end of the chunk before
    it and adds no word. *)
Theorem short_chunk_repeats (chunk_size overlap : Z)
  (filename pdf_path : pystr) (seg : DocumentProcessor.segment)
  (chunks : list DocumentProcessor.chunk) (k : nat)
  (c1 c2 : DocumentProcessor.chunk) :
  0 <= overlap < chunk_size ->
  DocumentProcessor.chunk_segments chunk_size overlap filename pdf_path [seg]
    = Ret chunks ->
  chunks !! k = Some c1 -> chunks !! S k = Some c2 ->
  (length (chunk_words c2) <= Z.to_nat overlap)%nat ->
  chunk_words c2 = drop (Z.to_nat (chunk_size - overlap)) (chunk_words c1).
Proof.
  intros Hv Hret H1 H2 Hlen.
  rewrite chunk_segments_positive in Hret by lia. injection Hret as <-.
  cbn [section_groups concat] in H1, H2. rewrite app_nil_r in H1, H2.
  apply section_chunks_lookup in H1 as (i1 & Hi1 & ->).
  apply section_chunks_lookup in H2 as (i2 & Hi2 & ->).
  apply window_starts_lookup in Hi1 as [-> Hb1]; [|lia].
  apply window_starts_lookup in Hi2 as [-> Hb2]; [|lia].
  revert Hlen. unfold chunk_words. cbn [DocumentProcessor.chunk_text].
  rewrite !chunk_words_join_slice, !slice_window by lia.
  set (words := split (DocumentProcessor.seg_text seg)) in *.
  rewrite length_take, length_drop. intros Hlen.
  rewrite !take_ge by (rewrite length_drop; lia).
  rewrite drop_drop. f_equal. lia.
Qed.

Lemma short_chunk_repeats_witness :
  chunk_words
    (DocumentProcessor.Chunk (join (replicate 10 (str "w")))
       (DocumentProcessor.Metadata (str "Ziele") sample_filename 1 3
          sample_path))
  = drop (Z.to_nat (50 - 10))
      (chunk_words
         (DocumentProcessor.Chunk (join (replicate 50 (str "w")))
            (DocumentProcessor.Metadata (str "Ziele") sample_filename 1 2
               sample_path))).
Proof.
  exact (short_chunk_repeats 50 10 sample_filename sample_path section_90
           _ 1%nat _ _ ltac:(lia) ltac:(vm_compute; reflexivity)
           ltac:(vm_compute; reflexivity) ltac:(vm_compute; reflexivity)
           ltac:(apply Nat.leb_le; vm_compute; reflexivity)).
Defined.

(** ** [segment_document] as a whole *)

Section Document.

Import Config DocumentProcessor.

Lemma page_sections_words (page1 page2 : page) :
  split (page_text page1) = split (page_text page2) ->
  page_number page1 = page_number page2 ->
  page_sections page1 = page_sections page2.
Proof.
  intros Hwords Hnum. unfold page_sections.
  by rewrite !clean_text_join_split, Hwords, Hnum.
Qed.

Lemma segment_pages_words (pages1 pages2 : list page) :
  map (fun page_data => (split (page_text page_data), page_number page_data))
    pages1
  = map (fun page_data => (split (page_text page_data), page_number page_data))
      pages2 ->
  segment_pages pages1 = segment_pages pages2.
Proof.
  rewrite !segment_pages_sections. revert pages2.
  induction pages1 as [|page1 pages1 IH]; intros [|page2 pages2]; try done.
  simpl. intros [= Hwords Hnum Hrest].
  by rewrite (page_sections_words page1 page2), (IH pages2).
Qed.

Lemma segment_document_reads (_config : gmap pystr yaml)
  (pages_data : list page) (filename pdf_path : pystr) :
  segment_document _config pages_data filename pdf_path
  = match reach (YMap _config)
            [str "documents"; str "processing"; str "chunk_size"] with
    | Some size =>
        match reach (YMap _config)
                [str "documents"; str "processing"; str "chunk_overlap"] with
        | Some over =>
            match segment_pages pages_data with
            | [] => Ret []
            | all_segments =>
                chunk_size ← as_int size;
                overlap ← as_int over;
                chunk_segments chunk_size overlap filename pdf_path
                  all_segments
            end
        | None =>
            match _config !! str "documents" with
            | Some (YMap d) =>
                match d !! str "processing" with
                | Some (YMap _) => Raise (Exn KeyError (str "chunk_overlap"))
                | _ => Raise (Exn TypeError (str "object is not subscriptable"))
                end
            | _ => Raise (Exn TypeError (str "object is not subscriptable"))
            end
        end
    | None =>
        match _config !! str "documents" with
        | None => Raise (Exn KeyError (str "documents"))
        | Some (YMap d) =>
            match d !! str "processing" with
            | None => Raise (Exn KeyError (str "processing"))
            | Some (YMap _) => Raise (Exn KeyError (str "chunk_size"))
            | Some _ => Raise (Exn TypeError (str "object is not subscriptable"))
            end
        | Some _ => Raise (Exn TypeError (str "object is not subscriptable"))
        end
    end.
Proof.
  unfold segment_document, get_document_config. cbn [reach getitem].
  destruct (_config !! str "documents") as [[| | | |d| |]|]; try reflexivity.
  cbv beta iota delta [mbind outcome_bind bind]. cbn [getitem].
  destruct (d !! str "processing") as [[| | | |pr| |]|]; try reflexivity.
  cbn [getitem].
  destruct (pr !! str "chunk_size") as [size|]; [|reflexivity].
  destruct (pr !! str "chunk_overlap") as [over|]; reflexivity.
Qed.

End Document.

(** X14: the two settings of [segment_document].  The function reads
    [documents.processing.chunk_size] and [.chunk_overlap] from the
    configuration; with two integers there it is the chunking stage with
    these values on the sections of the pages.  When the first setting is
    not there it raises [KeyError] or [TypeError] whatever the pages are,
    also for a document without pages. *)
Theorem segment_document_settings (_config : gmap pystr Config.yaml)
  (pages_data : list DocumentProcessor.page) (filename pdf_path : pystr) :
  let setting key :=
    reach (Config.YMap _config) [str "documents"; str "processing"; key] in
  (forall chunk_size overlap,
     setting (str "chunk_size") = Some (Config.YInt chunk_size) ->
     setting (str "chunk_overlap") = Some (Config.YInt overlap) ->
     DocumentProcessor.segment_document _config pages_data filename pdf_path
     = DocumentProcessor.chunk_segments chunk_size overlap filename pdf_path
         (DocumentProcessor.segment_pages pages_data))
  /\ (setting (str "chunk_size") = None ->
      exists e,
        DocumentProcessor.segment_document _config pages_data filename
          pdf_path = Raise e
        /\ (exn_class_of e = KeyError \/ exn_class_of e = TypeError)).
Proof.
  intros setting. subst setting. cbv beta. split.
  - intros chunk_size overlap Hsize Hover.
    rewrite segment_document_reads, Hsize, Hover.
    by destruct (DocumentProcessor.segment_pages pages_data).
  - intros Hsize. rewrite segment_document_reads, Hsize.
    destruct (_config !! str "documents") as [[| | | |d| |]|];
      try (eexists; split; [reflexivity|]; (by left) || (by right)).
    destruct (d !! str "processing") as [[| | | |pr| |]|];
      eexists; (split; [reflexivity|]); (by left) || (by right).
Qed.

Lemma segment_document_settings_witness :
  DocumentProcessor.segment_document Config._get_default_config [page_ziele]
    sample_filename sample_path
  = DocumentProcessor.chunk_segments 500 50 sample_filename sample_path
      (DocumentProcessor.segment_pages [page_ziele])
  /\ exists e,
       DocumentProcessor.segment_document
         (delete (str "documents") Config._get_default_config) []
         sample_filename sample_path = Raise e
       /\ (exn_class_of e = KeyError \/ exn_class_of e = TypeError).
Proof.
  split.
  - destruct (segment_document_settings Config._get_default_config
                [page_ziele] sample_filename sample_path) as [H _].
    exact (H 500 50 ltac:(vm_compute; reflexivity)
             ltac:(vm_compute; reflexivity)).
  - destruct (segment_document_settings
                (delete (str "documents") Config._get_default_config) []
                sample_filename sample_path) as [_ H].
    exact (H ltac:(vm_compute; reflexivity)).
Defined.

(** X15: the layout of a page does not matter.  Two documents whose pages
    have, page by page, the same words and the same page numbers give the
    same result of [segment_document], chunks or exception: line breaks
    and runs of blanks in the extracted text have no influence. *)
Theorem segment_document_layout (_config : gmap pystr Config.yaml)
  (pages1 pages2 : list DocumentProcessor.page) (filename pdf_path : pystr) :
  map (fun page_data =>
         (split (DocumentProcessor.page_text page_data),
          DocumentProcessor.page_number page_data)) pages1
  = map (fun page_data =>
           (split (DocumentProcessor.page_text page_data),
            DocumentProcessor.page_number page_data)) pages2 ->
  DocumentProcessor.segment_document _config pages1 filename pdf_path
  = DocumentProcessor.segment_document _config pages2 filename pdf_path.
Proof.
  intros Hwords. rewrite !segment_document_reads.
  by rewrite (segment_pages_words pages1 pages2).
Qed.

Lemma segment_document_layout_witness :
  DocumentProcessor.segment_document Config._get_default_config
    [DocumentProcessor.Page
       (str "Ziele:" ++ [NEWLINE] ++ str "a  b" ++ [NEWLINE]
          ++ str "  c d e f   g h" ++ [NEWLINE; NEWLINE] ++ str "i j k "
          ++ [NEWLINE]) 1]
    sample_filename sample_path
  = DocumentProcessor.segment_document Config._get_default_config
      [page_ziele] sample_filename sample_path.
Proof.
  apply segment_document_layout. vm_compute. reflexivity.
Defined.

(** ** Reading, embedding and storing *)

Section Reading.

Import DocumentProcessor Indexing.

Lemma pages_loop_raises (pages : list (outcome pystr)) (e : exn)
  (page_num : Z) (pages_data : list page) :
  Raise e ∈ pages ->
  exists e', pages_loop page_num pages pages_data = Raise e'.
Proof.
  intros Hin. revert page_num pages_data.
  induction pages as [|extract_text pages IH]; intros page_num pages_data.
  - by apply elem_of_nil in Hin.
  - cbn [pages_loop]. destruct extract_text as [text|e0]; [|by exists e0].
    apply elem_of_cons in Hin as [Heq|Hin]; [done|].
    change (mbind ?k (Ret ?x)) with (k x). cbv beta. by apply IH.
Qed.

Lemma pages_loop_texts (texts : list pystr) (page_num : Z)
  (pages_data : list page) :
  exists new,
    pages_loop page_num (map Ret texts) pages_data = Ret (pages_data ++ new)
    /\ (forall p,
          p ∈ new
          <-> exists k : nat,
                texts !! k = Some (page_text p)
                /\ page_number p = page_num + Z.of_nat k
                /\ page_text p <> [])
    /\ StronglySorted (fun p q => page_number p < page_number q) new
    /\ Forall (fun p => page_num <= page_number p) new.
Proof.
  revert page_num pages_data.
  induction texts as [|text texts IH]; intros page_num pages_data.
  - exists []. split; [by rewrite app_nil_r|]. split; [|split; constructor].
    intros p. split; [by intros ?%elem_of_nil|]. by intros (k & ? & _).
  - cbn [map pages_loop]. change (mbind ?k (Ret ?x)) with (k x). cbv beta.
    set (here := match text with
                 | [] => []
                 | _ => [Page text page_num]
                 end).
    assert (Hhere : forall p,
              p ∈ here <-> p = Page text page_num /\ text <> []).
    { intros p. subst here. destruct text.
      - split; [by intros ?%elem_of_nil|]. by intros [_ ?].
      - rewrite list_elem_of_singleton. split; [by intros ->|by intros [-> _]]. }
    destruct (IH (page_num + 1) (pages_data ++ here))
      as (new & Hret & Hmem & Hsorted & Hlow).
    exists (here ++ new). split; [|split; [|split]].
    + replace (match text with
               | [] => pages_data
               | _ => pages_data ++ [Page text page_num]
               end) with (pages_data ++ here).
      * by rewrite Hret, <- app_assoc.
      * subst here. destruct text; [by rewrite app_nil_r|done].
    + intros p. rewrite elem_of_app, Hhere, Hmem. split.
      * intros [[-> Hne]|(k & Hk & Hnum & Hne)].
        -- exists 0%nat. simpl. split; [done|]. split; [lia|done].
        -- exists (S k). simpl. split; [done|]. split; [lia|done].
      * intros ([|k] & Hk & Hnum & Hne); simpl in Hk.
        -- left. injection Hk as ->. split; [|done].
           destruct p as [t n]. simpl in *. f_equal. lia.
        -- right. exists k. split; [done|]. split; [lia|done].
    + assert (Hsingle : forall p,
                p ∈ here -> Forall (fun q => page_number p < page_number q) new).
      { intros p [-> _]%Hhere. simpl.
        eapply Forall_impl; [exact Hlow|]. simpl. intros q Hq. lia. }
      subst here. destruct text; [done|].
      constructor; [done|]. apply Hsingle. by left.
    + apply Forall_app. split.
      * apply Forall_forall. intros p [-> _]%Hhere. simpl. lia.
      * eapply Forall_impl; [exact Hlow|]. simpl. intros q Hq. lia.
Qed.

End Reading.

(** X16: [extract_text_from_pdf_with_pages] never raises.  When the reader
    cannot open the file, or the extraction fails on one page, it returns
    the empty list, also when pages before the failing one were read.
    Otherwise it returns the pages with a non-empty text, each with its
    position in the file counted from one, in the order of the file. *)
Theorem extract_pages {float : Type} (self : Indexing.processor float)
  (pdf_path : Indexing.path) :
  (exists pages_data,
     Indexing.extract_text_from_pdf_with_pages self pdf_path = Ret pages_data)
  /\ (forall e,
        Indexing.pdf_reader self pdf_path = Raise e ->
        Indexing.extract_text_from_pdf_with_pages self pdf_path = Ret [])
  /\ (forall pages e,
        Indexing.pdf_reader self pdf_path = Ret pages ->
        Raise e ∈ pages ->
        Indexing.extract_text_from_pdf_with_pages self pdf_path = Ret [])
  /\ (forall texts : list pystr,
        Indexing.pdf_reader self pdf_path = Ret (map Ret texts) ->
        exists pages_data,
          Indexing.extract_text_from_pdf_with_pages self pdf_path
            = Ret pages_data
          /\ (forall p,
                p ∈ pages_data
                <-> exists k : nat,
                      texts !! k = Some (DocumentProcessor.page_text p)
                      /\ DocumentProcessor.page_number p = Z.of_nat k + 1
                      /\ DocumentProcessor.page_text p <> [])
          /\ StronglySorted
               (fun p q =>
                  DocumentProcessor.page_number p
                  < DocumentProcessor.page_number q) pages_data).
Proof.
  unfold Indexing.extract_text_from_pdf_with_pages.
  split; [|split; [|split]].
  - destruct (Indexing.pdf_reader self pdf_path) as [pages|e]; simpl;
      [|by eexists].
    destruct (Indexing.pages_loop 1 pages []); simpl; by eexists.
  - by intros e ->.
  - intros pages e -> Hin.
    change (mbind ?k (Ret ?x)) with (k x). cbv beta.
    destruct (pages_loop_raises pages e 1 [] Hin) as [e' ->]. done.
  - intros texts ->. change (mbind ?k (Ret ?x)) with (k x). cbv beta.
    destruct (pages_loop_texts texts 1 []) as (new & -> & Hmem & Hsorted & _).
    exists new. split; [done|]. split; [|done].
    intros p. rewrite Hmem. split; intros (k & Hk & Hnum & Hne);
      exists k; (split; [done|]); (split; [lia|done]).
Qed.

Section Storing.

Import DocumentProcessor Indexing.

Context {float : Type} (self : processor float).

(** One segment: nothing happens, or an identifier is drawn and the record
    of the segment is offered to the collection. *)
Lemma vectorize_step_cases (st : index_state float) (segment : chunk) :
  vectorize_step self st segment = st
  \/ exists doc,
       proc_nlp self (chunk_text segment) = Ret doc
       /\ float_is_positive self (vector_norm doc) = true
       /\ drawn (vectorize_step self st segment) = S (drawn st)
       /\ (collection (vectorize_step self st segment) = collection st
           \/ (collection_add self
                 (Stored (uuid4 self (drawn st)) (chunk_text segment)
                    (vector doc) (chunk_metadata segment)) = Ret tt
               /\ collection (vectorize_step self st segment)
                  = collection st
                      ++ [Stored (uuid4 self (drawn st)) (chunk_text segment)
                            (vector doc) (chunk_metadata segment)])).
Proof.
  unfold vectorize_step.
  destruct (proc_nlp self (chunk_text segment)) as [doc|e]; [|by left].
  destruct (float_is_positive self (vector_norm doc)) eqn:Hpos; [|by left].
  right. exists doc. split; [done|]. split; [done|].
  destruct (collection_add self _) as [[]|e] eqn:Hadd; simpl.
  - split; [done|]. right. done.
  - split; [done|]. by left.
Qed.

Lemma vectorize_and_store_spec (segments : list chunk)
  (st : index_state float) :
  let st' := vectorize_and_store self st segments in
  exists (new : list (stored float)) (ks : list nat),
    collection st' = collection st ++ new
    /\ map st_id new = map (uuid4 self) ks
    /\ StronglySorted lt ks
    /\ Forall (fun k => (drawn st <= k < drawn st')%nat) ks
    /\ (drawn st <= drawn st' <= drawn st + length segments)%nat
    /\ sublist (map (fun r => (st_document r, st_metadata r)) new)
         (map (fun c => (chunk_text c, chunk_metadata c)) segments)
    /\ Forall (fun r =>
                 exists doc,
                   proc_nlp self (st_document r) = Ret doc
                   /\ st_embedding r = vector doc
                   /\ float_is_positive self (vector_norm doc) = true
                   /\ collection_add self r = Ret tt) new.
Proof.
  revert st. induction segments as [|segment segments IH]; intros st.
  - exists [], []. simpl. rewrite app_nil_r.
    repeat split; try constructor; lia.
  - cbv zeta. unfold vectorize_and_store. cbn [fold_left].
    fold (vectorize_and_store self (vectorize_step self st segment) segments).
    destruct (IH (vectorize_step self st segment))
      as (new & ks & Hcol & Hids & Hsorted & Hks & Hdrawn & Hsub & Hall).
    cbv zeta in *.
    destruct (vectorize_step_cases st segment)
      as [Hsame|(doc & Hdoc & Hpos & Hd & [Hc|[Hadd Hc]])].
    + rewrite Hsame in *. exists new, ks.
      repeat split; try done; try lia.
      * simpl. lia.
      * simpl. by apply sublist_cons.
    + exists new, ks. rewrite Hd in Hks, Hdrawn. rewrite Hc in Hcol.
      split; [done|]. split; [done|]. split; [done|]. split.
      { eapply Forall_impl; [exact Hks|]. simpl. intros k Hk. lia. }
      split; [simpl; lia|]. split; [simpl; by apply sublist_cons|done].
    + exists (Stored (uuid4 self (drawn st)) (chunk_text segment)
                (vector doc) (chunk_metadata segment) :: new),
             (drawn st :: ks).
      rewrite Hd in Hks, Hdrawn. rewrite Hc, <- app_assoc in Hcol.
      split; [done|]. split; [simpl; by rewrite Hids|]. split.
      { constructor; [done|].
        eapply Forall_impl; [exact Hks|]. simpl. intros k Hk. lia. }
      split.
      { constructor; [lia|].
        eapply Forall_impl; [exact Hks|]. simpl. intros k Hk. lia. }
      split; [simpl; lia|]. split; [simpl; by apply sublist_skip|].
      constructor; [|done]. exists doc. done.
Qed.

Lemma sorted_NoDup (ks : list nat) : StronglySorted lt ks -> NoDup ks.
Proof.
  induction 1 as [|k ks _ IH Hall]; constructor; [|done].
  intros Hin. rewrite Forall_forall in Hall. specialize (Hall k Hin). lia.
Qed.

Lemma vectorize_and_store_all (segments : list chunk)
  (st : index_state float) :
  Forall (fun c =>
            exists doc,
              proc_nlp self (chunk_text c) = Ret doc
              /\ float_is_positive self (vector_norm doc) = true) segments ->
  (forall record, collection_add self record = Ret tt) ->
  exists new,
    collection (vectorize_and_store self st segments) = collection st ++ new
    /\ map (fun r => (st_document r, st_metadata r)) new
       = map (fun c => (chunk_text c, chunk_metadata c)) segments.
Proof.
  intros Hall Hadd. revert st.
  induction Hall as [|segment segments (doc & Hdoc & Hpos) _ IH]; intros st.
  - exists []. by rewrite app_nil_r.
  - unfold vectorize_and_store. cbn [fold_left].
    fold (vectorize_and_store self (vectorize_step self st segment) segments).
    destruct (IH (vectorize_step self st segment)) as (new & -> & Hnew).
    unfold vectorize_step. rewrite Hdoc, Hpos, Hadd. simpl.
    eexists (_ :: new). rewrite <- app_assoc. split; [done|].
    simpl. by rewrite Hnew.
Qed.

End Storing.

(** X17: [vectorize_and_store] only adds to the collection.  The records
    it adds are records of the segments, at most one for each and in the
    order of the segments, with the text and the metadata of the segment;
    the embedding of a record is the vector that the language model gives
    for its text, with a positive norm.  When the identifiers drawn are
    pairwise distinct, so are the identifiers of the added records.  When
    the language model gives every segment a vector with a positive norm
    and the collection accepts every record, every segment is stored. *)
Theorem vectorize_and_store_records {float : Type}
  (self : Indexing.processor float) (st : Indexing.index_state float)
  (segments : list DocumentProcessor.chunk) :
  exists new,
    Indexing.collection (Indexing.vectorize_and_store self st segments)
      = Indexing.collection st ++ new
    /\ sublist
         (map (fun r => (Indexing.st_document r, Indexing.st_metadata r)) new)
         (map (fun c =>
                 (DocumentProcessor.chunk_text c,
                  DocumentProcessor.chunk_metadata c)) segments)
    /\ Forall (fun r =>
                 exists doc,
                   Indexing.proc_nlp self (Indexing.st_document r) = Ret doc
                   /\ Indexing.st_embedding r = vector doc
                   /\ Indexing.float_is_positive self (vector_norm doc)
                      = true) new
    /\ ((forall j k : nat,
           Indexing.uuid4 self j = Indexing.uuid4 self k -> j = k) ->
        NoDup (map Indexing.st_id new))
    /\ (Forall (fun c =>
                  exists doc,
                    Indexing.proc_nlp self (DocumentProcessor.chunk_text c)
                      = Ret doc
                    /\ Indexing.float_is_positive self (vector_norm doc)
                       = true) segments ->
        (forall record, Indexing.collection_add self record = Ret tt) ->
        map (fun r => (Indexing.st_document r, Indexing.st_metadata r)) new
        = map (fun c =>
                 (DocumentProcessor.chunk_text c,
                  DocumentProcessor.chunk_metadata c)) segments).
Proof.
  destruct (vectorize_and_store_spec self segments st)
    as (new & ks & Hcol & Hids & Hsorted & _ & _ & Hsub & Hall).
  cbv zeta in Hcol. exists new.
  split; [done|]. split; [done|]. split.
  { eapply Forall_impl; [exact Hall|]. simpl.
    intros r (doc & ? & ? & ? & _). by exists doc. }
  split.
  - intros Hinj. rewrite Hids.
    change (map ?f ?l) with (f <$> l). apply NoDup_fmap_2.
    + intros j k. apply Hinj.
    + by apply sorted_NoDup.
  - intros Hgood Hadd.
    destruct (vectorize_and_store_all self segments st Hgood Hadd)
      as (new' & Hcol' & Hnew').
    rewrite Hcol in Hcol'. by apply app_inv_head in Hcol' as ->.
Qed.

Lemma extract_pages_witness :
  Indexing.extract_text_from_pdf_with_pages
    (sample_processor
       (Ret [Ret page_text_12;
             Raise (Exn OtherException (str "broken page"))]))
    sample_pdf = Ret [].
Proof.
  destruct (extract_pages
              (sample_processor
                 (Ret [Ret page_text_12;
                       Raise (Exn OtherException (str "broken page"))]))
              sample_pdf) as (_ & _ & H & _).
  refine (H _ (Exn OtherException (str "broken page")) eq_refl _).
  right. left.
Defined.

Lemma vectorize_and_store_records_witness :
  exists new,
    Indexing.collection
      (Indexing.vectorize_and_store (sample_processor (Ret [])) empty_index
         [DocumentProcessor.Chunk page_text_12
            (DocumentProcessor.Metadata (str "Gesamtdokument")
               sample_filename 1 1 sample_path)])
    = Indexing.collection empty_index ++ new
    /\ map (fun r => (Indexing.st_document r, Indexing.st_metadata r)) new
       = map (fun c =>
                (DocumentProcessor.chunk_text c,
                 DocumentProcessor.chunk_metadata c))
           [DocumentProcessor.Chunk page_text_12
              (DocumentProcessor.Metadata (str "Gesamtdokument")
                 sample_filename 1 1 sample_path)].
Proof.
  destruct (vectorize_and_store_records (sample_processor (Ret []))
              empty_index
              [DocumentProcessor.Chunk page_text_12
                 (DocumentProcessor.Metadata (str "Gesamtdokument")
                    sample_filename 1 1 sample_path)])
    as (new & Hcol & _ & _ & _ & Hall).
  exists new. split; [exact Hcol|]. refine (Hall _ _).
  - constructor; [|constructor].
    exists (RAGEngine.MkDoc 1%Q [1%Q]). split; reflexivity.
  - intros record. reflexivity.
Defined.

(** ** Files and directories *)

Section Directory.

Import Config DocumentProcessor Indexing.

Context {float : Type}.

Implicit Types (self : processor float) (st : index_state float).

Lemma extract_returns self (pdf_path : path) :
  exists pages_data,
    extract_text_from_pdf_with_pages self pdf_path = Ret pages_data.
Proof.
  unfold extract_text_from_pdf_with_pages.
  destruct (pdf_reader self pdf_path) as [pages|e]; simpl; [|by eexists].
  destruct (pages_loop 1 pages []); simpl; by eexists.
Qed.

(** A configuration with which [segment_document] returns for every
    document. *)
Lemma segment_document_good (_config : gmap pystr yaml)
  (pages_data : list page) (filename pdf_path : pystr) (c : chunk)
  (chunks : list chunk) :
  segment_document _config pages_data filename pdf_path = Ret (c :: chunks) ->
  forall pages_data' filename' pdf_path',
    exists chunks',
      segment_document _config pages_data' filename' pdf_path' = Ret chunks'.
Proof.
  intros Hret pages_data' filename' pdf_path'.
  rewrite segment_document_reads in Hret. rewrite segment_document_reads.
  destruct (reach _ [_; _; str "chunk_size"]) as [size|].
  - destruct (reach _ [_; _; str "chunk_overlap"]) as [over|].
    + destruct (segment_pages pages_data) as [|seg segs]; [done|].
      destruct (as_int size) as [chunk_size|e]; [|done].
      cbv beta iota delta [mbind outcome_bind bind] in Hret.
      destruct (as_int over) as [overlap|e]; [|done].
      cbv beta iota delta [mbind outcome_bind bind] in Hret.
      apply chunk_segments_returns in Hret as [?|[Hs _]]; [done|].
      destruct (segment_pages pages_data'); [by eexists|].
      cbv beta iota delta [mbind outcome_bind bind].
      eexists. by apply chunk_segments_positive.
    + destruct (_config !! str "documents") as [[| | | |d| |]|]; try done.
      destruct (d !! str "processing") as [[| | | |pr| |]|]; done.
  - destruct (_config !! str "documents") as [[| | | |d| |]|]; try done.
    destruct (d !! str "processing") as [[| | | |pr| |]|]; done.
Qed.

Lemma process_pdf_returns self st (pdf_path : path) (n : Z) st' :
  process_pdf self st pdf_path = (Ret n, st') ->
  0 <= n
  /\ (n = 0 -> st' = st)
  /\ (exists new,
        collection st' = collection st ++ new /\ Z.of_nat (length new) <= n)
  /\ (0 < n ->
      forall pages_data filename pdf_path',
        exists chunks,
          segment_document (proc_config self) pages_data filename pdf_path'
            = Ret chunks).
Proof.
  unfold process_pdf.
  destruct (extract_returns self pdf_path) as [pages_data ->].
  destruct pages_data as [|page_data pages_data].
  - intros [= <- <-]. split; [done|]. split; [done|]. split; [|lia].
    exists []. by rewrite app_nil_r.
  - destruct (segment_document _ _ _ _) as [segments|e] eqn:Hseg; [|done].
    intros [= <- <-]. split; [lia|]. split; [|split].
    + intros Hzero. destruct segments; [done|simpl in Hzero; lia].
    + destruct (vectorize_and_store_spec self segments st)
        as (new & ks & Hcol & _ & _ & _ & _ & Hsub & _).
      exists new. split; [done|].
      apply sublist_length in Hsub. rewrite !length_map in Hsub. lia.
    + intros Hpos. destruct segments as [|c chunks]; [simpl in Hpos; lia|].
      by eapply segment_document_good.
Qed.

Lemma process_pdf_raises self st (pdf_path : path) (e : exn) st' :
  process_pdf self st pdf_path = (Raise e, st') ->
  st' = st
  /\ exists pages_data,
       segment_document (proc_config self) pages_data (path_name pdf_path)
         (path_absolute pdf_path) = Raise e.
Proof.
  unfold process_pdf.
  destruct (extract_returns self pdf_path) as [pages_data ->].
  destruct pages_data as [|page_data pages_data]; [done|].
  destruct (segment_document _ _ _ _) as [segments|e'] eqn:Hseg; [done|].
  intros [= <- <-]. split; [done|]. by eexists.
Qed.

Lemma directory_loop_good self (pdf_files : list path) (total : Z) st :
  (forall pages_data filename pdf_path,
     exists chunks,
       segment_document (proc_config self) pages_data filename pdf_path
         = Ret chunks) ->
  exists count st',
    directory_loop self pdf_files total st = (Ret count, st').
Proof.
  intros Hgood. revert total st.
  induction pdf_files as [|pdf_path pdf_files IH]; intros total st.
  - by eexists _, _.
  - cbn [directory_loop].
    destruct (process_pdf self st pdf_path) as [[n|e] st1] eqn:Hpdf.
    + apply IH.
    + apply process_pdf_raises in Hpdf as (_ & pages_data & Hraise).
      destruct (Hgood pages_data (path_name pdf_path)
                  (path_absolute pdf_path)) as [chunks Hret].
      congruence.
Qed.

Lemma directory_loop_spec self (pdf_files : list path) (total : Z) st :
  match directory_loop self pdf_files total st with
  | (Ret count, st') =>
      total <= count
      /\ (count = total -> st' = st)
      /\ exists new,
           collection st' = collection st ++ new
           /\ Z.of_nat (length new) <= count - total
  | (Raise e, st') => st' = st
  end.
Proof.
  revert total st.
  induction pdf_files as [|pdf_path pdf_files IH]; intros total st.
  - simpl. split; [lia|]. split; [done|].
    exists []. rewrite app_nil_r. split; [done|simpl; lia].
  - cbn [directory_loop].
    destruct (process_pdf self st pdf_path) as [[n|e] st1] eqn:Hpdf.
    + pose proof Hpdf as Hn.
      apply process_pdf_returns
        in Hn as (Hnonneg & Hzero & (new1 & Hcol1 & Hlen1) & Hgood).
      specialize (IH (total + n) st1).
      destruct (directory_loop self pdf_files (total + n) st1)
        as [[count|e] st'] eqn:Hloop.
      * destruct IH as (Hle & Hsame & new & Hcol & Hlen).
        split; [lia|]. split.
        -- intros ->. assert (n = 0) as -> by lia.
           rewrite Hsame by lia. by apply Hzero.
        -- exists (new1 ++ new). rewrite Hcol, Hcol1, <- app_assoc.
           split; [done|]. rewrite length_app. lia.
      * subst st'. destruct (Z.eq_dec n 0) as [->|Hne]; [by apply Hzero|].
        destruct (directory_loop_good self pdf_files (total + n) st1
                    (Hgood ltac:(lia))) as (count & st' & Hret).
        congruence.
    + by apply process_pdf_raises in Hpdf as [-> _].
Qed.

Lemma process_pdf_chunks self st (pdf_path : path) :
  fst (process_pdf self st pdf_path)
  = (chunks ← file_chunks self pdf_path; Ret (Z.of_nat (length chunks))).
Proof.
  unfold process_pdf, file_chunks.
  destruct (extract_text_from_pdf_with_pages self pdf_path)
    as [[|page_data pages_data]|e]; try done.
  by destruct (segment_document _ _ _ _).
Qed.

Lemma directory_loop_chunks self (pdf_files : list path)
  (chunks : list (list chunk)) (total : Z) st :
  Forall2 (fun pdf_path found => file_chunks self pdf_path = Ret found)
    pdf_files chunks ->
  fst (directory_loop self pdf_files total st)
  = Ret (total + Z.of_nat (length (concat chunks))).
Proof.
  intros Hall. revert total st.
  induction Hall as [|pdf_path found pdf_files chunks Hfound _ IH];
    intros total st.
  - simpl. f_equal. lia.
  - cbn [directory_loop].
    pose proof (process_pdf_chunks self st pdf_path) as Hpdf.
    rewrite Hfound in Hpdf.
    destruct (process_pdf self st pdf_path) as [[n|e] st1];
      cbv beta iota delta [mbind outcome_bind bind fst] in Hpdf; [|done].
    apply Ret_inj in Hpdf as ->. rewrite IH. f_equal.
    cbn [concat]. rewrite length_app. lia.
Qed.

Lemma directory_loop_raises self (before : list path) (pdf_path : path)
  (after : list path) (chunks : list (list chunk)) (e : exn) (total : Z) st :
  Forall2 (fun pdf_path found => file_chunks self pdf_path = Ret found)
    before chunks ->
  file_chunks self pdf_path = Raise e ->
  fst (directory_loop self (before ++ pdf_path :: after) total st) = Raise e.
Proof.
  intros Hall Hraise. revert total st.
  induction Hall as [|pdf_path0 found before chunks Hfound _ IH];
    intros total st; cbn [app directory_loop].
  - pose proof (process_pdf_chunks self st pdf_path) as Hpdf.
    rewrite Hraise in Hpdf.
    destruct (process_pdf self st pdf_path) as [[n|e'] st1];
      cbv beta iota delta [mbind outcome_bind bind fst] in Hpdf; [done|].
    exact Hpdf.
  - pose proof (process_pdf_chunks self st pdf_path0) as Hpdf.
    rewrite Hfound in Hpdf.
    destruct (process_pdf self st pdf_path0) as [[n|e'] st1];
      cbv beta iota delta [mbind outcome_bind bind fst] in Hpdf; [|done].
    apply IH.
Qed.

Lemma process_pdf_indep self1 self2 st1 st2 (pdf_path : path) :
  proc_config self1 = proc_config self2 ->
  pdf_reader self1 pdf_path = pdf_reader self2 pdf_path ->
  fst (process_pdf self1 st1 pdf_path) = fst (process_pdf self2 st2 pdf_path).
Proof.
  intros Hcfg Hreader. unfold process_pdf, extract_text_from_pdf_with_pages.
  rewrite Hcfg, Hreader.
  destruct (try_except _ _) as [[|page_data pages_data]|e]; try done.
  by destruct (segment_document _ _ _ _).
Qed.

Lemma directory_loop_indep self1 self2 (pdf_files : list path) (total : Z)
  st1 st2 :
  proc_config self1 = proc_config self2 ->
  (forall pdf_path, pdf_reader self1 pdf_path = pdf_reader self2 pdf_path) ->
  fst (directory_loop self1 pdf_files total st1)
  = fst (directory_loop self2 pdf_files total st2).
Proof.
  intros Hcfg Hreader. revert total st1 st2.
  induction pdf_files as [|pdf_path pdf_files IH]; intros total st1 st2;
    [done|].
  cbn [directory_loop].
  pose proof (process_pdf_indep self1 self2 st1 st2 pdf_path Hcfg
                (Hreader pdf_path)) as Hsame.
  destruct (process_pdf self1 st1 pdf_path) as [[n1|e1] s1],
    (process_pdf self2 st2 pdf_path) as [[n2|e2] s2];
    simpl in Hsame; try done.
  injection Hsame as ->. apply IH.
Qed.

End Directory.

(** X18: the count of [process_directory].  When it returns, the count is
    not negative, the collection has only grown, and by no more records
    than the count; with the count zero nothing was stored and no
    identifier drawn.  When it raises, nothing was stored either: an
    exception of one file comes from the configuration, which then gave
    no chunk for the files before it. *)
Theorem process_directory_count {float : Type}
  (self : Indexing.processor float) (st : Indexing.index_state float)
  (pdf_files : list Indexing.path) :
  (forall count st',
     Indexing.process_directory self st pdf_files = (Ret count, st') ->
     0 <= count
     /\ (count = 0 -> st' = st)
     /\ exists new,
          Indexing.collection st' = Indexing.collection st ++ new
          /\ Z.of_nat (length new) <= count)
  /\ (forall e st',
        Indexing.process_directory self st pdf_files = (Raise e, st') ->
        st' = st).
Proof.
  unfold Indexing.process_directory.
  pose proof (directory_loop_spec self pdf_files 0 st) as Hspec.
  destruct (Indexing.directory_loop self pdf_files 0 st)
    as [[count|e] st1].
  - split; [|done]. intros count' st' [= <- <-].
    destruct Hspec as (Hle & Hsame & new & Hcol & Hlen).
    split; [done|]. split; [done|]. exists new. split; [done|lia].
  - split; [done|]. by intros e' st' [= <- <-].
Qed.

Lemma process_directory_count_witness :
  exists new,
    Indexing.collection
      (snd (Indexing.process_directory (sample_processor (Ret [Ret page_text_12]))
              empty_index [sample_pdf; sample_pdf]))
    = Indexing.collection empty_index ++ new
    /\ Z.of_nat (length new) <= 2.
Proof.
  destruct (process_directory_count (sample_processor (Ret [Ret page_text_12]))
              empty_index [sample_pdf; sample_pdf]) as [H _].
  destruct (H 2 _ ltac:(vm_compute; reflexivity)) as (_ & _ & Hnew).
  exact Hnew.
Defined.

(** X19: the count that [process_directory] returns is the number of
    the chunks of the files, stored or not: when the reader and
    [segment_document] give chunks for every file, the count is the
    number of all these chunks, and the exception of the first file whose
    segmentation raises ends the run.  Hence what [process_directory]
    returns does not depend on the language model, on the collection or
    on the identifiers: two processors with the same configuration and
    the same reader return the same count, or raise the same exception,
    from any two states of the index. *)
Theorem process_directory_independent {float : Type}
  (self : Indexing.processor float) (st : Indexing.index_state float)
  (pdf_files : list Indexing.path) :
  (forall chunks : list (list DocumentProcessor.chunk),
     Forall2 (fun pdf_path found => file_chunks self pdf_path = Ret found)
       pdf_files chunks ->
     fst (Indexing.process_directory self st pdf_files)
     = Ret (Z.of_nat (length (concat chunks))))
  /\ (forall (before : list Indexing.path) (pdf_path : Indexing.path)
        (after : list Indexing.path)
        (chunks : list (list DocumentProcessor.chunk)) (e : exn),
        pdf_files = before ++ pdf_path :: after ->
        Forall2 (fun pdf_path found => file_chunks self pdf_path = Ret found)
          before chunks ->
        file_chunks self pdf_path = Raise e ->
        fst (Indexing.process_directory self st pdf_files) = Raise e)
  /\ (forall (self2 : Indexing.processor float)
        (st2 : Indexing.index_state float),
        Indexing.proc_config self = Indexing.proc_config self2 ->
        (forall pdf_path,
           Indexing.pdf_reader self pdf_path
           = Indexing.pdf_reader self2 pdf_path) ->
        fst (Indexing.process_directory self st pdf_files)
        = fst (Indexing.process_directory self2 st2 pdf_files)).
Proof.
  unfold Indexing.process_directory. split; [|split].
  - intros chunks Hall.
    by rewrite (directory_loop_chunks self pdf_files chunks 0 st Hall).
  - intros before pdf_path after chunks e -> Hall Hraise.
    by apply (directory_loop_raises self before pdf_path after chunks).
  - intros self2 st2 Hcfg Hreader. by apply directory_loop_indep.
Qed.

Lemma process_directory_independent_witness :
  fst (Indexing.process_directory (sample_processor (Ret [Ret page_text_12]))
         empty_index [sample_pdf])
  = fst (Indexing.process_directory
           (Indexing.Processor Config._get_default_config
              (fun _ => Raise (Exn OtherException (str "no model")))
              Q_is_positive sample_uuid4
              (fun _ => Raise (Exn OtherException (str "read-only")))
              (fun _ => Ret [Ret page_text_12]))
           empty_index [sample_pdf]).
Proof.
  destruct (process_directory_independent
              (sample_processor (Ret [Ret page_text_12])) empty_index
              [sample_pdf]) as (_ & _ & H).
  apply H; [reflexivity|]. intros pdf_path. reflexivity.
Defined.



(** ** The status of the system *)

Section SystemStatus.

Import Status.

Context {float : Type} (self : engine float) (world : probes float).

Lemma status_chroma (a b c : bool) (n count : Z) :
  <[str "document_count" := SInt count]>
    (<[str "chroma_db" := SBool true]> (status_of a n b c))
  = status_of true count b c.
Proof. vm_compute. reflexivity. Qed.

Lemma status_spacy (a b b' c : bool) (n : Z) :
  <[str "spacy_model" := SBool b']> (status_of a n b c) = status_of a n b' c.
Proof. vm_compute. reflexivity. Qed.

Lemma status_ollama (a b c c' : bool) (n : Z) :
  <[str "ollama" := SBool c']> (status_of a n b c) = status_of a n b c'.
Proof. vm_compute. reflexivity. Qed.

Lemma check_system_status_form :
  check_system_status self world
  = Ret (status_of
           (match collection_count world with
            | Ret _ => true
            | Raise _ => false
            end)
           (match collection_count world with
            | Ret count => count
            | Raise _ => 0
            end)
           (match nlp self (str "Test") with
            | Ret test_doc => float_is_positive world (vector_norm test_doc)
            | Raise _ => false
            end)
           (match base_url (ollama_cfg self) with
            | Ret base =>
                match requests_get world (base ++ str "/api/version") 5 with
                | Ret status_code => status_code =? 200
                | Raise _ => false
                end
            | Raise _ => false
            end)).
Proof.
  unfold check_system_status.
  change initial_status with (status_of false 0 false false).
  destruct (collection_count world) as [count|e1];
    destruct (nlp self (str "Test")) as [test_doc|e2];
    destruct (base_url (ollama_cfg self)) as [base|e3];
    cbv beta iota delta [mbind outcome_bind bind try_except];
    try destruct (requests_get world _ 5) as [status_code|e4];
    cbv beta iota delta [mbind outcome_bind bind try_except];
    rewrite ?status_chroma, ?status_spacy, ?status_ollama; reflexivity.
Qed.




End SystemStatus.

(** X21: [check_system_status] never raises and always returns the four
    entries.  Each entry depends on its own probe only: [chroma_db] is
    true when the collection can be counted, and [document_count] is then
    the count (zero otherwise); [spacy_model] is true when the language
    model gives the word [Test] a vector with a positive norm; [ollama] is
    true when the section [ollama] has a [base_url] and the version
    address of the backend answers with the status 200.  A failing probe
    leaves the other entries as they are. *)
Theorem check_system_status_probes {float : Type} (self : engine float)
  (world : Status.probes float) :
  exists status,
    Status.check_system_status self world = Ret status
    /\ dom status
       = list_to_set (C := gset pystr)
           [str "chroma_db"; str "spacy_model"; str "ollama";
            str "document_count"]
    /\ status !! str "chroma_db"
       = Some (Status.SBool
                 (match Status.collection_count world with
                  | Ret _ => true
                  | Raise _ => false
                  end))
    /\ status !! str "document_count"
       = Some (Status.SInt
                 (match Status.collection_count world with
                  | Ret count => count
                  | Raise _ => 0
                  end))
    /\ status !! str "spacy_model"
       = Some (Status.SBool
                 (match nlp self (str "Test") with
                  | Ret test_doc =>
                      Status.float_is_positive world (vector_norm test_doc)
                  | Raise _ => false
                  end))
    /\ status !! str "ollama"
       = Some (Status.SBool
                 (match base_url (ollama_cfg self) with
                  | Ret base =>
                      match
                        Status.requests_get world
                          (base ++ str "/api/version") 5
                      with
                      | Ret status_code => status_code =? 200
                      | Raise _ => false
                      end
                  | Raise _ => false
                  end)).
Proof.
  eexists. split; [apply check_system_status_form|].
  unfold status_of. split; [|repeat split; reflexivity].
  rewrite dom_list_to_map_L. reflexivity.
Qed.





(** ** The answers of the engine *)

Section Answers.

Context {float : Type} (self : engine float).




End Answers.

(** X23: the answer of the generation backend.  With [base_url] and
    [model] in the section [ollama], [_query_ollama] posts the model, the
    prompt, [stream] false, the temperature (0.1 when not configured) and
    the token limit (2048 when not configured) to [base_url/api/generate]
    with a timeout of 60 seconds.  When the backend answers, the status
    check passes and the body is a JSON object, the function returns the
    [response] field of the object, whatever its type, and the text
    [Keine Antwort erhalten.] when the object has no such field;
    [process_query] then returns this value as the [answer], with
    [success] true. *)
Theorem query_ollama_answer {float : Type} (self : engine float)
  (prompt base : pystr) (model_name : setting float) (posted : response)
  (fields : gmap pystr result_value) :
  base_url (ollama_cfg self) = Ret base ->
  model (ollama_cfg self) = Ret model_name ->
  requests_post self (base ++ str "/api/generate")
    (Payload model_name prompt false
       (default (SFloat (float_0_1 self))
          (temperature (ollama_cfg self)))
       (default (SLoaded (Config.YInt 2048))
          (max_tokens (ollama_cfg self)))) 60 = Ret posted ->
  raise_for_status posted = Ret tt ->
  json posted = Ret (JsonObject fields) ->
  let answer :=
    default (RStr (str "Keine Antwort erhalten."))
      (fields !! str "response") in
  _query_ollama self prompt = Ret answer
  /\ forall query_text n_results doc docs metas,
       retrieve_documents self query_text n_results
         = Ret (doc :: docs, metas) ->
       prompt = generate_prompt query_text (doc :: docs) metas ->
       exists result,
         process_query self query_text n_results = Ret result
         /\ result !! str "answer" = Some answer
         /\ result !! str "success" = Some (RBool true).
Proof.
  intros Hbase Hmodel Hpost Hstatus Hjson answer.
  assert (Hanswer : _query_ollama self prompt = Ret answer).
  { rewrite (query_ollama_configured self prompt base model_name Hbase
               Hmodel).
    by rewrite (ollama_request_answer self _ _ posted fields). }
  split; [done|].
  intros query_text n_results doc docs metas Hret ->.
  rewrite (process_query_documents self _ _ doc docs metas Hret), Hanswer.
  eexists. split; [reflexivity|]. split; reflexivity.
Qed.

Lemma query_ollama_answer_witness :
  _query_ollama
    (sample_engine (Ret doc_unit) (Ret results_hit) (Ret response_ok))
    sample_query
  = Ret (default (RStr (str "Keine Antwort erhalten."))
           (ok_fields !! str "response")).
Proof.
  exact (proj1
           (query_ollama_answer
              (sample_engine (Ret doc_unit) (Ret results_hit)
                 (Ret response_ok))
              sample_query (str "http://localhost:11434")
              (SLoaded (Config.YStr (str "llama3.1:8b"))) response_ok
              ok_fields
              eq_refl eq_refl eq_refl eq_refl eq_refl)).
Defined.



(** X25: a successful retrieval.  When the language model gives the query
    a vector whose norm is not zero, [retrieve_documents] asks the
    collection once, with this vector as the only query and with
    [n_results]; when the answer holds a non-empty first list of
    documents and a first list of metadata, these two lists are returned;
    further lists of the answer are not looked at. *)
Theorem retrieve_documents_hit {float : Type} (self : engine float)
  (query_text : pystr) (n_results : Z) (query_doc : Doc float)
  (results : query_result) (doc : pystr) (docs : list pystr)
  (more_docs : list (list pystr)) (metas : list (gmap pystr meta_value))
  (more_metas : list (list (gmap pystr meta_value))) :
  nlp self query_text = Ret query_doc ->
  float_is_zero self (vector_norm query_doc) = false ->
  collection_query self [vector query_doc] n_results = Ret results ->
  documents results = Present ((doc :: docs) :: more_docs) ->
  metadatas results = Present (metas :: more_metas) ->
  retrieve_documents self query_text n_results = Ret (doc :: docs, metas).
Proof.
  intros Hdoc Hz Hq Hdocs Hmetas. unfold retrieve_documents.
  rewrite (retrieve_body_query self _ _ query_doc Hdoc Hz), Hq.
  cbv beta iota delta [mbind outcome_bind bind].
  rewrite Hdocs, Hmetas. reflexivity.
Qed.

Lemma retrieve_documents_hit_witness :
  retrieve_documents
    (sample_engine (Ret doc_unit) (Ret results_repeated) (Ret response_ok))
    sample_query 5
  = Ret (str "Die Regelstudienzeit betraegt 4 Semester."
           :: [str "Ziel des Studiums ist die Befaehigung zur Forschung.";
               str "Das Studium umfasst 120 Leistungspunkte."],
         repeated_metadatas).
Proof.
  exact (retrieve_documents_hit
           (sample_engine (Ret doc_unit) (Ret results_repeated)
              (Ret response_ok))
           sample_query 5 doc_unit results_repeated _ _ [] _ []
           eq_refl eq_refl eq_refl eq_refl eq_refl).
Defined.

(** ** The names of the downloaded files *)

Section Sanitize.

Import FileNames.

Lemma replace_reserved_safe (filename : pystr) :
  Forall (fun c => reserved c = false) (replace_reserved filename).
Proof.
  induction filename as [|c rest IH]; [constructor|].
  simpl. constructor; [|done]. by destruct (reserved c) eqn:Hc.
Qed.

Lemma collapse_underscores_sublist (in_run : bool) (filename : pystr) :
  sublist (collapse_underscores in_run filename) filename.
Proof.
  revert in_run. induction filename as [|c rest IH]; intros in_run; [done|].
  simpl. destruct (N.eqb_spec c UNDERSCORE) as [->|_].
  - destruct in_run; [by apply sublist_cons|by apply sublist_skip].
  - by apply sublist_skip.
Qed.

Lemma collapse_underscores_head (filename : pystr) :
  head (collapse_underscores true filename) <> Some UNDERSCORE.
Proof.
  induction filename as [|c rest IH]; [done|].
  simpl. destruct (N.eqb_spec c UNDERSCORE) as [->|Hne]; [done|].
  simpl. congruence.
Qed.

Lemma collapse_underscores_single (in_run : bool) (filename : pystr)
  (k : nat) :
  collapse_underscores in_run filename !! k = Some UNDERSCORE ->
  collapse_underscores in_run filename !! S k = Some UNDERSCORE ->
  False.
Proof.
  revert in_run k.
  induction filename as [|c rest IH]; intros in_run k; [done|].
  simpl. destruct (N.eqb_spec c UNDERSCORE) as [->|Hne].
  - destruct in_run; [apply IH|].
    destruct k as [|k]; simpl; [|apply IH].
    intros _ Hnext. rewrite <- head_lookup in Hnext.
    by apply collapse_underscores_head in Hnext.
  - destruct k as [|k]; simpl; [congruence|apply IH].
Qed.

Lemma rstrip_chars_app (text : pystr) :
  exists suffix,
    text = rstrip_chars text ++ suffix
    /\ Forall (fun c => stripped c = true) suffix.
Proof.
  induction text as [|c rest (suffix & Hrest & Hall)];
    [by exists []|].
  simpl. destruct (rstrip_chars rest) as [|r rs] eqn:Hr.
  - destruct (stripped c) eqn:Hc.
    + exists (c :: rest). split; [done|].
      constructor; [done|]. simpl in Hrest. by rewrite Hrest.
    + exists suffix. simpl in Hrest. by rewrite Hrest at 1.
  - exists suffix. split; [|done]. simpl. f_equal. exact Hrest.
Qed.

Lemma lstrip_chars_app (text : pystr) :
  exists prefix,
    text = prefix ++ lstrip_chars text
    /\ Forall (fun c => stripped c = true) prefix.
Proof.
  induction text as [|c rest (prefix & Hrest & Hall)];
    [by exists []|].
  simpl. destruct (stripped c) eqn:Hc.
  - exists (c :: prefix). simpl. split; [by rewrite <- Hrest|].
    by constructor.
  - by exists [].
Qed.

Lemma lstrip_chars_head (text : pystr) (c : N) :
  head (lstrip_chars text) = Some c -> stripped c = false.
Proof.
  induction text as [|c0 rest IH]; [done|].
  simpl. destruct (stripped c0) eqn:Hc; [done|].
  simpl. by intros [= <-].
Qed.

Lemma rstrip_chars_last (text : pystr) (c : N) :
  last (rstrip_chars text) = Some c -> stripped c = false.
Proof.
  induction text as [|c0 rest IH]; [done|].
  simpl. destruct (rstrip_chars rest) as [|r rs] eqn:Hr.
  - destruct (stripped c0) eqn:Hc; [done|]. simpl. by intros [= <-].
  - rewrite last_cons_cons. done.
Qed.

Lemma lstrip_chars_last (text : pystr) (c : N) :
  last (lstrip_chars text) = Some c -> last text = Some c.
Proof.
  induction text as [|c0 rest IH]; [done|].
  simpl. destruct (stripped c0); [|done].
  intros Hlast. specialize (IH Hlast).
  destruct rest as [|r rs]; [done|]. by rewrite last_cons_cons.
Qed.

Lemma replace_reserved_id (filename : pystr) :
  Forall (fun c => reserved c = false) filename ->
  replace_reserved filename = filename.
Proof.
  induction 1 as [|c rest Hc _ IH]; [done|].
  simpl. by rewrite Hc, IH.
Qed.

Lemma collapse_underscores_id (in_run : bool) (filename : pystr) :
  (forall k : nat,
     filename !! k = Some UNDERSCORE ->
     filename !! S k = Some UNDERSCORE -> False) ->
  (in_run = true -> head filename <> Some UNDERSCORE) ->
  collapse_underscores in_run filename = filename.
Proof.
  revert in_run.
  induction filename as [|c rest IH]; intros in_run Hsingle Hhead; [done|].
  assert (Hrest : forall k : nat,
            rest !! k = Some UNDERSCORE ->
            rest !! S k = Some UNDERSCORE -> False).
  { intros k. apply (Hsingle (S k)). }
  simpl. destruct (N.eqb_spec c UNDERSCORE) as [->|Hne].
  - destruct in_run; [by destruct Hhead|].
    f_equal. apply IH; [done|]. intros _ Hnext.
    rewrite head_lookup in Hnext. by apply (Hsingle 0%nat).
  - f_equal. by apply IH.
Qed.

Lemma rstrip_chars_id (text : pystr) :
  (forall c, last text = Some c -> stripped c = false) ->
  rstrip_chars text = text.
Proof.
  induction text as [|c rest IH]; [done|].
  intros Hlast. simpl. destruct rest as [|r rs].
  - simpl. by rewrite (Hlast c).
  - rewrite IH; [done|]. intros c0 Hc0. apply Hlast.
    by rewrite last_cons_cons.
Qed.

Lemma lstrip_chars_id (text : pystr) :
  (forall c, head text = Some c -> stripped c = false) ->
  lstrip_chars text = text.
Proof.
  destruct text as [|c rest]; [done|].
  intros Hhead. simpl. by rewrite (Hhead c).
Qed.

(** What every sanitised name satisfies. *)
Lemma sanitize_filename_facts (filename : pystr) :
  let name := sanitize_filename filename in
  Forall (fun c => reserved c = false) name
  /\ (length name <= 240)%nat
  /\ (forall k : nat,
        name !! k = Some UNDERSCORE -> name !! S k = Some UNDERSCORE -> False)
  /\ (forall c, head name = Some c -> stripped c = false)
  /\ (forall c, last name = Some c -> stripped c = false).
Proof.
  cbv zeta. unfold sanitize_filename, strip_chars. cbv zeta.
  set (collapsed := collapse_underscores false (replace_reserved filename)).
  destruct (rstrip_chars_app (take 240 collapsed)) as (suffix & Hsuf & _).
  destruct (lstrip_chars_app (rstrip_chars (take 240 collapsed)))
    as (prefix & Hpre & _).
  set (right := rstrip_chars (take 240 collapsed)) in *.
  set (name := lstrip_chars right) in *.
  assert (Hsub : sublist name (take 240 collapsed)).
  { rewrite Hsuf, Hpre. apply sublist_inserts_r, sublist_inserts_l. done. }
  split; [|split; [|split; [|split]]].
  - apply Forall_forall. intros c Hc.
    pose proof (replace_reserved_safe filename) as Hsafe.
    rewrite Forall_forall in Hsafe. apply Hsafe.
    eapply elem_of_sublist; [|apply collapse_underscores_sublist].
    eapply elem_of_sublist; [|apply sublist_take].
    eapply elem_of_sublist; [exact Hc|exact Hsub].
  - apply sublist_length in Hsub. rewrite length_take in Hsub. lia.
  - intros k Hk Hnext. clearbody name right. unfold pystr in *.
    assert (Hin : forall (j : nat) (c : N),
              name !! j = Some c ->
              collapsed !! (length prefix + j)%nat = Some c).
    { intros j c Hj.
      assert (Hright : right !! (length prefix + j)%nat = Some c).
      { rewrite Hpre, lookup_app_r by lia.
        by replace (length prefix + j - length prefix)%nat with j by lia. }
      assert (Htake :
        take 240 collapsed !! (length prefix + j)%nat = Some c).
      { rewrite Hsuf. by apply lookup_app_l_Some. }
      by apply lookup_take_Some in Htake as [? _]. }
    apply Hin in Hk, Hnext. rewrite <- plus_n_Sm in Hnext.
    by apply (collapse_underscores_single false (replace_reserved filename)
                (length prefix + k)%nat).
  - apply lstrip_chars_head.
  - intros c Hlast. apply lstrip_chars_last in Hlast.
    by apply rstrip_chars_last in Hlast.
Qed.

Lemma sanitize_filename_id (filename : pystr) :
  Forall (fun c => reserved c = false) filename ->
  (length filename <= 240)%nat ->
  (forall k : nat,
     filename !! k = Some UNDERSCORE ->
     filename !! S k = Some UNDERSCORE -> False) ->
  (forall c, head filename = Some c -> stripped c = false) ->
  (forall c, last filename = Some c -> stripped c = false) ->
  sanitize_filename filename = filename.
Proof.
  intros Hsafe Hlen Hsingle Hhead Hlast.
  unfold sanitize_filename, strip_chars. cbv zeta.
  rewrite replace_reserved_id by done.
  rewrite collapse_underscores_id by done.
  rewrite take_ge by done.
  rewrite rstrip_chars_id by done. by apply lstrip_chars_id.
Qed.

End Sanitize.

(** X26: the names that [sanitize_filename] gives.  The name has none of
    the reserved characters, at most 240 characters, no two
    underscores in a row, and neither an underscore nor a full stop at
    its beginning or at its end. *)
Theorem sanitize_filename_safe (filename : pystr) :
  let name := FileNames.sanitize_filename filename in
  Forall (fun c => FileNames.reserved c = false) name
  /\ (length name <= 240)%nat
  /\ (forall k : nat,
        name !! k = Some FileNames.UNDERSCORE ->
        name !! S k = Some FileNames.UNDERSCORE -> False)
  /\ (forall c, head name = Some c -> FileNames.stripped c = false)
  /\ (forall c, last name = Some c -> FileNames.stripped c = false).
Proof. apply sanitize_filename_facts. Qed.

Lemma sanitize_filename_safe_witness :
  FileNames.stripped 80 = false.
Proof.
  destruct (sanitize_filename_safe (str "__Pruefungsordnung: M.Sc. <Informatik>?.."))
    as (_ & _ & _ & Hhead & _).
  apply Hhead. vm_compute. reflexivity.
Defined.

(** X27: names that are left alone.  A name that already has the five
    properties is returned unchanged; hence sanitising a sanitised name
    changes nothing. *)
Theorem sanitize_filename_unchanged (filename : pystr) :
  (Forall (fun c => FileNames.reserved c = false) filename ->
   (length filename <= 240)%nat ->
   (forall k : nat,
      filename !! k = Some FileNames.UNDERSCORE ->
      filename !! S k = Some FileNames.UNDERSCORE -> False) ->
   (forall c, head filename = Some c -> FileNames.stripped c = false) ->
   (forall c, last filename = Some c -> FileNames.stripped c = false) ->
   FileNames.sanitize_filename filename = filename)
  /\ FileNames.sanitize_filename (FileNames.sanitize_filename filename)
     = FileNames.sanitize_filename filename.
Proof.
  split; [apply sanitize_filename_id|].
  destruct (sanitize_filename_facts filename)
    as (Hsafe & Hlen & Hsingle & Hhead & Hlast).
  by apply sanitize_filename_id.
Qed.

Lemma sanitize_filename_unchanged_witness :
  FileNames.sanitize_filename (str "Pruefungsordnung_M.Sc")
  = str "Pruefungsordnung_M.Sc".
Proof.
  destruct (sanitize_filename_unchanged (str "Pruefungsordnung_M.Sc"))
    as [H _].
  apply H.
  - apply Forall_forall. intros c Hc.
    revert c Hc. apply Forall_forall. vm_compute.
    repeat (constructor; [reflexivity|]). constructor.
  - vm_compute. lia.
  - intros k. do 22 (destruct k as [|k]; [vm_compute; congruence|]).
    vm_compute. congruence.
  - intros c. vm_compute. by intros [= <-].
  - intros c. vm_compute. by intros [= <-].
Defined.

(** ** Counting pages *)

Section Counting.

Import PageCount.

Variable reader : Indexing.path -> outcome nat.

Lemma count_fold (pdf_files : list Indexing.path) (total_pages errors : Z) :
  fold_left (count_step reader) pdf_files (total_pages, errors)
  = (total_pages
     + foldr Z.add 0
         (map (fun pdf_path =>
                 match reader pdf_path with
                 | Ret pages => Z.of_nat pages
                 | Raise _ => 0
                 end) pdf_files),
     errors
     + foldr Z.add 0
         (map (fun pdf_path =>
                 match reader pdf_path with
                 | Ret _ => 0
                 | Raise _ => 1
                 end) pdf_files)).
Proof.
  revert total_pages errors.
  induction pdf_files as [|pdf_path pdf_files IH]; intros total_pages errors.
  - simpl. f_equal; lia.
  - cbn [fold_left count_step map foldr].
    destruct (reader pdf_path) as [pages|e]; rewrite IH; f_equal; lia.
Qed.

Lemma count_errors_bound (pdf_files : list Indexing.path) :
  0 <= foldr Z.add 0
         (map (fun pdf_path =>
                 match reader pdf_path with
                 | Ret _ => 0
                 | Raise _ => 1
                 end) pdf_files)
    <= Z.of_nat (length pdf_files).
Proof.
  induction pdf_files as [|pdf_path pdf_files IH]; [done|].
  cbn [map foldr length]. destruct (reader pdf_path); lia.
Qed.

End Counting.

(** X28: [count_pages_in_directory] never raises.  For a missing
    directory it returns three zeros.  Otherwise every file is counted
    once, as read or as an error: the two counts add up to the number of
    files, the error count is the number of files that the reader fails
    on, whatever the exception is, and the page count is the sum of the
    pages of the other files. *)
Theorem count_pages_totals (is_dir : bool) (pdf_files : list Indexing.path)
  (reader : Indexing.path -> outcome nat)
  (total_pages file_count error_count : Z) :
  PageCount.count_pages_in_directory is_dir pdf_files reader
    = (total_pages, file_count, error_count) ->
  (is_dir = false -> total_pages = 0 /\ file_count = 0 /\ error_count = 0)
  /\ file_count + error_count
     = (if is_dir then Z.of_nat (length pdf_files) else 0)
  /\ 0 <= file_count /\ 0 <= error_count
  /\ (is_dir = true ->
      error_count
      = foldr Z.add 0
          (map (fun pdf_path =>
                  match reader pdf_path with
                  | Ret _ => 0
                  | Raise _ => 1
                  end) pdf_files)
      /\ total_pages
         = foldr Z.add 0
             (map (fun pdf_path =>
                     match reader pdf_path with
                     | Ret pages => Z.of_nat pages
                     | Raise _ => 0
                     end) pdf_files)).
Proof.
  unfold PageCount.count_pages_in_directory.
  destruct is_dir; simpl negb; cbv iota;
    [|intros [= <- <- <-]; repeat split; done].
  destruct pdf_files as [|pdf_path rest].
  { intros [= <- <- <-]. simpl. repeat split; done. }
  rewrite count_fold. intros [= <- <- <-].
  pose proof (count_errors_bound reader (pdf_path :: rest)) as Hle.
  cbn [map foldr length] in *. split; [done|]. split; [lia|]. split; [lia|]. split; [lia|].
  intros _. split; lia.
Qed.

Lemma count_pages_totals_witness :
  0 + 2 = (if true then Z.of_nat (length [sample_pdf; sample_pdf]) else 0).
Proof.
  destruct (count_pages_totals true [sample_pdf; sample_pdf]
              (fun _ => Raise (Exn OtherException (str "encrypted")))
              0 0 2 eq_refl) as (_ & H & _).
  exact H.
Defined.

(** ** Collecting the document pages *)

Section Crawl.

Import WebScraper.

Variable w : web.

Lemma crawl_ok_weaken (before : gset pystr) (parent_path path : list pystr)
  (result : crawl) :
  parent_path `prefix_of` path ->
  crawl_ok before path result -> crawl_ok before parent_path result.
Proof.
  intros Hprefix [Hsub Hres]. split; [done|].
  destruct (fst result) as [pages|e]; [|done].
  destruct Hres as [Hnd Hall]. split; [done|].
  eapply Forall_impl; [exact Hall|]. simpl.
  intros page (? & ? & ?). split; [done|]. split; [done|]. by etrans.
Qed.

Lemma except_RequestException_ok (before : gset pystr)
  (parent_path : list pystr) (body result : crawl) :
  before ⊆ snd body ->
  (forall pages, fst body = Ret pages -> crawl_ok before parent_path body) ->
  except_RequestException (Some body) = Some result ->
  crawl_ok before parent_path result.
Proof.
  destruct body as [[pages|e] visited]; simpl; intros Hsub Hok.
  - intros [= <-]. by apply (Hok pages).
  - destruct (is_RequestException e) eqn:He; intros [= <-].
    + split; [done|]. simpl. split; constructor.
    + split; done.
Qed.

Lemma links_loop_ok (recurse : pystr -> gset pystr -> option crawl)
  (path : list pystr) :
  (forall url visited result,
     recurse url visited = Some result -> crawl_ok visited path result) ->
  forall (links : list pystr) (document_pages : list page_ref)
    (visited before : gset pystr) (result : crawl),
    links_loop recurse links document_pages visited = Some result ->
    before ⊆ visited ->
    NoDup (map fst document_pages) ->
    Forall (fun page : page_ref =>
              fst page ∈ visited /\ (fst page ∉ before)
              /\ path `prefix_of` snd page) document_pages ->
    crawl_ok before path result.
Proof.
  intros Hrec links.
  induction links as [|full_url links IH];
    intros document_pages visited before result; cbn [links_loop].
  - intros [= <-] Hsub Hnd Hall. split; [done|]. simpl. by split.
  - destruct (wanted full_url && negb (bool_decide (full_url ∈ visited)));
      [|apply IH].
    destruct (recurse full_url visited) as [[[sub_pages|e] visited']|]
      eqn:Hcall; [| |done].
    + apply Hrec in Hcall as [Hgrow [Hnd' Hall']]. simpl in *.
      intros Hloop Hsub Hnd Hall.
      apply (IH _ _ _ _ Hloop); [set_solver| |].
      * rewrite map_app. apply NoDup_app. split; [done|]. split; [|done].
        intros url Hin Hin'.
        apply list_elem_of_In, in_map_iff in Hin as (page & <- & Hpage).
        apply list_elem_of_In, in_map_iff in Hin' as (page' & Heq & Hpage').
        rewrite Forall_forall in Hall, Hall'.
        apply list_elem_of_In in Hpage, Hpage'.
        destruct (Hall page Hpage) as (Hvisited & _).
        destruct (Hall' page' Hpage') as (_ & Hnew & _).
        rewrite Heq in Hnew. done.
      * apply Forall_app. split.
        -- eapply Forall_impl; [exact Hall|]. simpl.
           intros page (? & ? & ?). split; [set_solver|done].
        -- eapply Forall_impl; [exact Hall'|]. simpl.
           intros page (? & ? & ?). split; [done|]. split; [set_solver|done].
    + apply Hrec in Hcall as [Hgrow He]. simpl in *.
      intros [= <-] Hsub _ _. split; [set_solver|done].
Qed.

Lemma collect_ok (fuel : nat) :
  forall (start_url : pystr) (max_depth current_depth : Z)
    (visited_urls : gset pystr) (parent_path : list pystr) (result : crawl),
    collect_document_pages_recursively fuel w start_url max_depth
      current_depth visited_urls parent_path = Some result ->
    crawl_ok visited_urls parent_path result.
Proof.
  induction fuel as [|fuel IH];
    intros start_url max_depth current_depth visited_urls parent_path result;
    [done|].
  cbn [collect_document_pages_recursively].
  destruct (max_depth <=? current_depth) eqn:Hdepth; cbn [orb].
  { intros [= <-]. split; [done|]. simpl. split; constructor. }
  destruct (bool_decide (start_url ∈ visited_urls)) eqn:Hseen.
  { intros [= <-]. split; [done|]. simpl. split; constructor. }
  apply bool_decide_eq_false in Hseen. cbv zeta.
  destruct (get_page w start_url) as [page|e].
  - set (current_path :=
           match h3_text page with
           | Some (c :: title) => parent_path ++ [c :: title]
           | _ => parent_path
           end).
    assert (Hprefix : parent_path `prefix_of` current_path).
    { subst current_path. destruct (h3_text page) as [[|c title]|];
        [done| |done]. by apply prefix_app_r. }
    set (document_pages :=
           if has_document_list page
           then [(start_url, current_path)]
           else [] : list page_ref).
    assert (Hnd : NoDup (map fst document_pages)).
    { subst document_pages. destruct (has_document_list page); simpl;
        [apply NoDup_singleton|constructor]. }
    assert (Hall :
      Forall (fun page : page_ref =>
                fst page ∈ {[start_url]} ∪ visited_urls
                /\ (fst page ∉ visited_urls)
                /\ parent_path `prefix_of` snd page) document_pages).
    { subst document_pages. destruct (has_document_list page);
        [|constructor].
      constructor; [|constructor]. simpl. split; [set_solver|done]. }
    assert (Hplain :
      forall result,
        except_RequestException
          (Some (Ret document_pages, {[start_url]} ∪ visited_urls))
          = Some result ->
        crawl_ok visited_urls parent_path result).
    { intros result' [= <-]. split; [simpl; set_solver|]. simpl. by split. }
    destruct (category_links page) as [links|]; [|apply Hplain].
    destruct (current_depth <? max_depth); [|apply Hplain].
    match goal with
    | |- except_RequestException (links_loop ?r ?l ?d ?v) = _ -> _ =>
        destruct (links_loop r l d v) as [body|] eqn:Hloop; [|done]
    end.
    assert (Hbody : crawl_ok visited_urls parent_path body).
    { eapply (links_loop_ok _ parent_path); [|exact Hloop| | |].
      - intros url visited result' Hcall. apply IH in Hcall.
        by eapply crawl_ok_weaken.
      - set_solver.
      - done.
      - done. }
    apply except_RequestException_ok; [apply Hbody|done].
  - apply except_RequestException_ok; [simpl; set_solver|done].
Qed.

(** A larger fuel gives the same result. *)
Lemma links_loop_mono (recurse1 recurse2 : pystr -> gset pystr -> option crawl) :
  (forall url visited result,
     recurse1 url visited = Some result ->
     recurse2 url visited = Some result) ->
  forall (links : list pystr) (document_pages : list page_ref)
    (visited : gset pystr) (result : crawl),
    links_loop recurse1 links document_pages visited = Some result ->
    links_loop recurse2 links document_pages visited = Some result.
Proof.
  intros Hrec links.
  induction links as [|full_url links IH];
    intros document_pages visited result; cbn [links_loop]; [done|].
  destruct (wanted full_url && negb (bool_decide (full_url ∈ visited)));
    [|apply IH].
  destruct (recurse1 full_url visited) as [[[sub_pages|e] visited']|]
    eqn:Hcall; [| |done]; rewrite (Hrec _ _ _ Hcall); [apply IH|done].
Qed.

Lemma collect_mono (fuel : nat) :
  forall (fuel' : nat) (start_url : pystr) (max_depth current_depth : Z)
    (visited_urls : gset pystr) (parent_path : list pystr) (result : crawl),
    (fuel <= fuel')%nat ->
    collect_document_pages_recursively fuel w start_url max_depth
      current_depth visited_urls parent_path = Some result ->
    collect_document_pages_recursively fuel' w start_url max_depth
      current_depth visited_urls parent_path = Some result.
Proof.
  induction fuel as [|fuel IH];
    intros fuel' start_url max_depth current_depth visited_urls parent_path
      result Hle; [done|].
  destruct fuel' as [|fuel']; [lia|].
  cbn [collect_document_pages_recursively].
  destruct ((max_depth <=? current_depth)
            || bool_decide (start_url ∈ visited_urls)); [done|].
  cbv zeta. destruct (get_page w start_url) as [page|e]; [|done].
  destruct (category_links page) as [links|]; [|done].
  destruct (current_depth <? max_depth); [|done].
  match goal with
  | |- except_RequestException (links_loop ?r1 ?l ?d ?v) = _ ->
       except_RequestException (links_loop ?r2 _ _ _) = _ =>
      destruct (links_loop r1 l d v) as [body|] eqn:Hloop; [|done];
      rewrite (links_loop_mono r1 r2
                 ltac:(intros url visited result'; apply IH; lia)
                 l d v body Hloop)
  end.
  done.
Qed.

Lemma links_loop_some (recurse : pystr -> gset pystr -> option crawl) :
  (forall url visited, is_Some (recurse url visited)) ->
  forall (links : list pystr) (document_pages : list page_ref)
    (visited : gset pystr),
    is_Some (links_loop recurse links document_pages visited).
Proof.
  intros Hrec links.
  induction links as [|full_url links IH]; intros document_pages visited;
    cbn [links_loop]; [done|].
  destruct (wanted full_url && negb (bool_decide (full_url ∈ visited)));
    [|apply IH].
  destruct (Hrec full_url visited) as [[[sub_pages|e] visited'] ->];
    [apply IH|done].
Qed.

Lemma except_RequestException_some (body : option crawl) :
  is_Some body -> is_Some (except_RequestException body).
Proof.
  intros [[[pages|e] visited] ->]; simpl; [done|].
  by destruct (is_RequestException e).
Qed.

Lemma collect_enough (fuel : nat) :
  forall (start_url : pystr) (max_depth current_depth : Z)
    (visited_urls : gset pystr) (parent_path : list pystr),
    (Z.to_nat (max_depth - current_depth) < fuel)%nat ->
    is_Some
      (collect_document_pages_recursively fuel w start_url max_depth
         current_depth visited_urls parent_path).
Proof.
  induction fuel as [|fuel IH];
    intros start_url max_depth current_depth visited_urls parent_path Hfuel;
    [lia|].
  cbn [collect_document_pages_recursively].
  destruct (Z.leb_spec max_depth current_depth) as [?|Hdepth]; [done|].
  cbn [orb].
  destruct (bool_decide (start_url ∈ visited_urls)); [done|].
  cbv zeta. apply except_RequestException_some.
  destruct (get_page w start_url) as [page|e]; [|done].
  destruct (category_links page) as [links|]; [|done].
  destruct (current_depth <? max_depth); [|done].
  apply links_loop_some. intros url visited. apply IH. lia.
Qed.

End Crawl.

(** X29: the collection of the document pages.  The recursion ends, also
    on pages that link to each other: with more fuel than
    [max_depth - current_depth] the model returns, and always the same.
    The set [visited_urls] only grows.  The pages returned are pairwise
    distinct, were visited by this call and not before it, and carry a
    path that starts with [parent_path].  An exception that leaves the
    call is not a [RequestException].  At the depth limit and for a
    visited address nothing is fetched and nothing returned. *)
Theorem collect_pages_crawl (w : WebScraper.web) (start_url : pystr)
  (max_depth current_depth : Z) (visited_urls : gset pystr)
  (parent_path : list pystr) :
  exists (result : outcome (list WebScraper.page_ref))
         (visited' : gset pystr),
    (forall fuel : nat,
       (Z.to_nat (max_depth - current_depth) < fuel)%nat ->
       WebScraper.collect_document_pages_recursively fuel w start_url
         max_depth current_depth visited_urls parent_path
       = Some (result, visited'))
    /\ visited_urls ⊆ visited'
    /\ (forall pages,
          result = Ret pages ->
          NoDup (map fst pages)
          /\ Forall (fun page : WebScraper.page_ref =>
                       fst page ∈ visited'
                       /\ (fst page ∉ visited_urls)
                       /\ parent_path `prefix_of` snd page) pages)
    /\ (forall e,
          result = Raise e -> WebScraper.is_RequestException e = false)
    /\ (max_depth <= current_depth \/ start_url ∈ visited_urls ->
        result = Ret [] /\ visited' = visited_urls).
Proof.
  set (enough := S (Z.to_nat (max_depth - current_depth))).
  destruct (collect_enough w enough start_url max_depth current_depth
              visited_urls parent_path ltac:(lia))
    as [[result visited'] Hret].
  exists result, visited'. split; [|split; [|split; [|split]]].
  - intros fuel Hfuel. eapply collect_mono; [|exact Hret]. lia.
  - by apply collect_ok in Hret as [? _].
  - intros pages ->. by apply collect_ok in Hret as [_ ?].
  - intros e ->. by apply collect_ok in Hret as [_ ?].
  - intros Hstop. subst enough.
    cbn [WebScraper.collect_document_pages_recursively] in Hret.
    destruct Hstop as [Hdepth|Hseen].
    + apply Z.leb_le in Hdepth. rewrite Hdepth in Hret.
      by injection Hret as <- <-.
    + rewrite (bool_decide_eq_true_2 _ Hseen), orb_true_r in Hret.
      by injection Hret as <- <-.
Qed.

Lemma collect_pages_crawl_witness :
  exists (result : outcome (list WebScraper.page_ref))
         (visited' : gset pystr),
    WebScraper.collect_document_pages_recursively 4 sample_web url_a 3 0 ∅ []
    = Some (result, visited').
Proof.
  destruct (collect_pages_crawl sample_web url_a 3 0 ∅ [])
    as (result & visited' & Hfuel & _).
  exists result, visited'. apply Hfuel. vm_compute. lia.
Defined.

(** ** Downloading the documents *)

Section Download.

Import WebScraper.

Variable w : web.







End Download.


